(** * The adversarial training notebook (imageprocessinggans.ipynb)

    A shallow embedding of the notebook's code: the two Keras [Sequential]
    models, [train_step], [train_gan] and [generate_and_display_images].

    Floating-point tensors are modelled over the real numbers; a rank-1
    tensor is a list, a rank-2 tensor a list of rows, an image a
    28 x 28 x 1 nest of lists.  Where the infinities and NaN of float32
    decide a property, the range of the discriminator's output, the
    forward pass is given on float32 numbers as well (module [Float32]).
    The model weights live in a store of [tf.Variable]s, as they do in
    the notebook (module-level [generator], [discriminator] and the two
    Adam instances).  Python exceptions are the [Raise] outcome of a small
    state-and-output monad; every library call of the notebook leaves an
    event in the output, in program order. *)

From Stdlib Require Import Reals List Arith Bool ZArith Lia Lra.
Import ListNotations.

(** ** Exceptions and fallible pure computations *)

Inductive error : Type :=
| ValueError                      (* incompatible shapes, empty range *)
| IndexError (index size : nat).  (* index out of bounds for an axis *)

Inductive result (A : Type) : Type :=
| Ok (a : A)
| Err (e : error).
Arguments Ok {A} a.
Arguments Err {A} e.

Definition rbind {A B} (r : result A) (k : A -> result B) : result B :=
  match r with
  | Ok a => k a
  | Err e => Err e
  end.

Declare Scope result_scope.
Delimit Scope result_scope with result.
Notation "x <-? r ;; k" := (rbind r (fun x => k))
  (at level 100, r at next level, right associativity) : result_scope.
Notation "' p <-? r ;; k" := (rbind r (fun x => let p := x in k))
  (at level 100, p pattern, r at next level, right associativity) : result_scope.

Fixpoint rmap {A B} (f : A -> result B) (l : list A) : result (list B) :=
  match l with
  | [] => Ok []
  | a :: l' =>
      match f a with
      | Ok b => match rmap f l' with
                | Ok bs => Ok (b :: bs)
                | Err e => Err e
                end
      | Err e => Err e
      end
  end.

(** ** Tensors *)

Definition vec := list R.
Definition mat := list vec.
Definition image := list (list (list R)).
Definition batch := list image.

Definition vec_has_shape (v : vec) (n : nat) : bool := length v =? n.

Definition mat_has_shape (m : mat) (r c : nat) : bool :=
  (length m =? r) && forallb (fun row => vec_has_shape row c) m.

Definition pixel_row_ok (w c : nat) (row : list (list R)) : Prop :=
  length row = w /\ Forall (fun px => length px = c) row.

(** An image of shape (h, w, c). *)
Definition image_has_shape (im : image) (h w c : nat) : bool :=
  (length im =? h)
  && forallb (fun row => (length row =? w)
                         && forallb (fun px => length px =? c) row) im.

Definition batch_has_shape (b : batch) (n h w c : nat) : bool :=
  (length b =? n) && forallb (fun im => image_has_shape im h w c) b.

Module Tensor.
Local Open Scope R_scope.

Definition zeros (n : nat) : vec := repeat 0 n.

Definition vadd (a b : vec) : vec :=
  map (fun p => fst p + snd p) (combine a b).

Definition scale (c : R) (a : vec) : vec := map (Rmult c) a.

Definition sum (a : vec) : R := fold_right Rplus 0 a.

Definition mean (a : vec) : R := sum a / INR (length a).

(** Row vector times matrix: [x @ K] for [x] of length [length K]. *)
Definition vecmat (x : vec) (K : mat) (out_dim : nat) : vec :=
  fold_right (fun p acc => vadd (scale (fst p) (snd p)) acc)
             (zeros out_dim) (combine x K).

Definition column (j : nat) (x : mat) : vec := map (fun row => nth j row 0) x.

(** [tf.ones_like] and [tf.zeros_like] on a rank-2 tensor. *)
Definition ones_like (x : mat) : mat := map (map (fun _ => 1)) x.
Definition zeros_like (x : mat) : mat := map (map (fun _ => 0)) x.

(** [a + b] on rank-1 tensors, with TensorFlow's broadcasting: equal
    lengths add pointwise, a length-1 operand is stretched, anything else
    is an error. *)
Definition add (a b : vec) : result vec :=
  if length a =? length b then Ok (vadd a b)
  else match a, b with
       | [x], _ => Ok (map (fun y => x + y) b)
       | _, [y] => Ok (map (fun x => x + y) a)
       | _, _ => Err ValueError
       end.

(** [np.mean] of a rank-1 array. *)
Definition np_mean (a : vec) : R := mean a.

End Tensor.

(** ** Keras layers and losses, forward passes *)

Module Keras.
Import Tensor.
Local Open Scope R_scope.
Local Open Scope result_scope.

Definition sigmoid (x : R) : R := 1 / (1 + exp (- x)).

(** [LeakyReLU(alpha)]: [maximum(alpha * x, x)]. *)
Definition leaky_relu (alpha x : R) : R := Rmax (alpha * x) x.

Definition LeakyReLU (alpha : R) (x : mat) : mat := map (map (leaky_relu alpha)) x.

(** [Dense(units)] with kernel [K] (input_dim x units) and bias [b]
    (units), followed by the activation [act].  The input's last axis must
    match the kernel's first. *)
Definition Dense (K : mat) (b : vec) (act : R -> R) (x : mat) : result mat :=
  if forallb (fun row => length row =? length K) x
  then Ok (map (fun row => map act (vadd (vecmat row K (length b)) b)) x)
  else Err ValueError.

(** [BatchNormalization(momentum)], default [epsilon = 0.001], on the last
    axis.  In training mode the batch statistics normalise the input and
    the moving statistics are moved towards them; in inference mode the
    moving statistics normalise and nothing is written. *)
Definition bn_epsilon : R := 0.001.

Definition batch_mean (x : mat) (features : nat) : vec :=
  map (fun j => mean (column j x)) (seq 0 features).

Definition batch_variance (x : mat) (mu : vec) (features : nat) : vec :=
  map (fun j => mean (map (fun v => (v - nth j mu 0) * (v - nth j mu 0)) (column j x)))
      (seq 0 features).

Definition normalize_row (gamma beta mu var : vec) (row : vec) : vec :=
  map (fun j => nth j gamma 0 * ((nth j row 0 - nth j mu 0) / sqrt (nth j var 0 + bn_epsilon))
                + nth j beta 0)
      (seq 0 (length gamma)).

Definition moving_update (momentum : R) (moving batch_stat : vec) : vec :=
  map (fun p => fst p * momentum + snd p * (1 - momentum)) (combine moving batch_stat).

Record bn_result : Type := {
  bn_output : mat;
  bn_moving_mean : vec;
  bn_moving_variance : vec
}.

Definition BatchNormalization (momentum : R) (gamma beta moving_mean moving_var : vec)
    (training : bool) (x : mat) : result bn_result :=
  if forallb (fun row => length row =? length gamma) x
  then
    if training
    then
      let mu := batch_mean x (length gamma) in
      let var := batch_variance x mu (length gamma) in
      Ok {| bn_output := map (normalize_row gamma beta mu var) x;
            bn_moving_mean := moving_update momentum moving_mean mu;
            bn_moving_variance := moving_update momentum moving_var var |}
    else
      Ok {| bn_output := map (normalize_row gamma beta moving_mean moving_var) x;
            bn_moving_mean := moving_mean;
            bn_moving_variance := moving_var |}
  else Err ValueError.

(** [Reshape((h, w, c))]: each row of [h * w * c] numbers becomes an image. *)
Fixpoint chunks (n k : nat) (l : vec) : list vec :=
  match n with
  | O => []
  | S n' => firstn k l :: chunks n' k (skipn k l)
  end.

Definition reshape_row (h w c : nat) (row : vec) : result image :=
  if length row =? h * w * c
  then Ok (map (fun r => chunks w c r) (chunks h (w * c) row))
  else Err ValueError.

Definition Reshape (h w c : nat) (x : mat) : result batch := rmap (reshape_row h w c) x.

(** [Flatten()]: every sample becomes one row. *)
Definition flatten_image (im : image) : vec := concat (concat im).

Definition Flatten (x : batch) : mat := map flatten_image x.

(** [tf.keras.losses.binary_crossentropy(y_true, y_pred)] on
    probabilities, as [keras.backend.binary_crossentropy] writes it: the
    prediction is clipped to [epsilon, 1 - epsilon], the element-wise
    cross-entropy is taken and the LAST axis is averaged, so a (B, 1)
    input gives a rank-1 result of B per-sample losses. *)
Definition keras_epsilon : R := 1e-7.

Definition clip (lo hi x : R) : R := Rmin (Rmax x lo) hi.

Definition bce_elem (target output : R) : R :=
  let p := clip keras_epsilon (1 - keras_epsilon) output in
  - (target * ln (p + keras_epsilon) + (1 - target) * ln (1 - p + keras_epsilon)).

Definition bce_row (y_true y_pred : vec) : result R :=
  if length y_true =? length y_pred
  then Ok (mean (map (fun p => bce_elem (fst p) (snd p)) (combine y_true y_pred)))
  else Err ValueError.

Fixpoint binary_crossentropy (y_true y_pred : mat) : result vec :=
  match y_true, y_pred with
  | [], [] => Ok []
  | t :: ts, p :: ps =>
      l <-? bce_row t p ;;
      ls <-? binary_crossentropy ts ps ;;
      Ok (l :: ls)
  | _, _ => Err ValueError
  end.

End Keras.

(** ** The variable store

    Every layer owns its [tf.Variable]s; Keras names them after the layer.
    The generator's [Dense], [BatchNormalization] and [Dense] layers and
    the discriminator's two [Dense] layers give twelve variables. *)

Inductive var_name : Type :=
| G_dense_kernel | G_dense_bias
| G_bn_gamma | G_bn_beta | G_bn_moving_mean | G_bn_moving_variance
| G_dense_1_kernel | G_dense_1_bias
| D_dense_kernel | D_dense_bias
| D_dense_1_kernel | D_dense_1_bias.

Definition var_name_eq_dec (a b : var_name) : {a = b} + {a <> b}.
Proof. decide equality. Defined.

Definition var_eqb (a b : var_name) : bool :=
  if var_name_eq_dec a b then true else false.

Definition all_variables : list var_name :=
  [G_dense_kernel; G_dense_bias; G_bn_gamma; G_bn_beta;
   G_bn_moving_mean; G_bn_moving_variance; G_dense_1_kernel; G_dense_1_bias;
   D_dense_kernel; D_dense_bias; D_dense_1_kernel; D_dense_1_bias].

Inductive tensor : Type :=
| Vec (v : vec)
| Mat (m : mat).

Definition tensor_has_shape (t : tensor) (shape : list nat) : bool :=
  match t, shape with
  | Vec v, [n] => vec_has_shape v n
  | Mat m, [r; c] => mat_has_shape m r c
  | _, _ => false
  end.

Definition latent_dim : nat := 100.

(** Shapes fixed when the layers are built: [Dense(128, input_dim=100)],
    [BatchNormalization], [Dense(784)]; [Flatten(input_shape=(28, 28, 1))],
    [Dense(128)], [Dense(1)]. *)
Definition var_shape (v : var_name) : list nat :=
  match v with
  | G_dense_kernel => [latent_dim; 128]
  | G_dense_bias => [128]
  | G_bn_gamma | G_bn_beta | G_bn_moving_mean | G_bn_moving_variance => [128]
  | G_dense_1_kernel => [128; 784]
  | G_dense_1_bias => [784]
  | D_dense_kernel => [784; 128]
  | D_dense_bias => [128]
  | D_dense_1_kernel => [128; 1]
  | D_dense_1_bias => [1]
  end.

Definition store := var_name -> tensor.

Definition set_var (v : var_name) (x : tensor) (st : store) : store :=
  fun v' => if var_eqb v v' then x else st v'.

(** Assigning to a variable keeps its shape; another shape is an error. *)
Definition assign (v : var_name) (x : tensor) (st : store) : result store :=
  if tensor_has_shape x (var_shape v) then Ok (set_var v x st) else Err ValueError.

Definition read_vec (st : store) (v : var_name) : result vec :=
  match st v with
  | Vec x => Ok x
  | Mat _ => Err ValueError
  end.

Definition read_mat (st : store) (v : var_name) : result mat :=
  match st v with
  | Mat x => Ok x
  | Vec _ => Err ValueError
  end.

Definition well_shaped (st : store) : bool :=
  forallb (fun v => tensor_has_shape (st v) (var_shape v)) all_variables.

(** [model.trainable_variables], in layer order. *)
Definition generator_trainable_variables : list var_name :=
  [G_dense_kernel; G_dense_bias; G_bn_gamma; G_bn_beta;
   G_dense_1_kernel; G_dense_1_bias].

Definition generator_non_trainable_variables : list var_name :=
  [G_bn_moving_mean; G_bn_moving_variance].

Definition discriminator_trainable_variables : list var_name :=
  [D_dense_kernel; D_dense_bias; D_dense_1_kernel; D_dense_1_bias].

(** The same as a proposition. *)
Definition WS (st : store) : Prop :=
  forall v, tensor_has_shape (st v) (var_shape v) = true.

(** ** The two networks *)

Module Networks.
Import Tensor Keras.
Local Open Scope R_scope.
Local Open Scope result_scope.

Definition linear (x : R) : R := x.

(** [build_generator]: the forward pass of the [Sequential] model, with
    the moving statistics its [BatchNormalization] layer leaves behind. *)
Definition build_generator (st : store) (training : bool) (x : mat)
    : result (batch * (vec * vec)) :=
  K <-? read_mat st G_dense_kernel ;;
  b <-? read_vec st G_dense_bias ;;
  h <-? Dense K b linear x ;;
  let h := LeakyReLU 0.2 h in
  gamma <-? read_vec st G_bn_gamma ;;
  beta <-? read_vec st G_bn_beta ;;
  mm <-? read_vec st G_bn_moving_mean ;;
  mv <-? read_vec st G_bn_moving_variance ;;
  bn <-? BatchNormalization 0.8 gamma beta mm mv training h ;;
  K1 <-? read_mat st G_dense_1_kernel ;;
  b1 <-? read_vec st G_dense_1_bias ;;
  h <-? Dense K1 b1 tanh (bn_output bn) ;;
  y <-? Reshape 28 28 1 h ;;
  Ok (y, (bn_moving_mean bn, bn_moving_variance bn)).

(** [build_discriminator]: the forward pass of the [Sequential] model.  It
    has no layer whose behaviour depends on the training flag. *)
Definition build_discriminator (st : store) (x : batch) : result mat :=
  let h := Flatten x in
  K <-? read_mat st D_dense_kernel ;;
  b <-? read_vec st D_dense_bias ;;
  h <-? Dense K b linear h ;;
  let h := LeakyReLU 0.2 h in
  K1 <-? read_mat st D_dense_1_kernel ;;
  b1 <-? read_vec st D_dense_1_bias ;;
  Dense K1 b1 sigmoid h.

(** [build_gan]: the generator followed by the discriminator.  The
    notebook builds and compiles this stacked model, and compiles the
    discriminator, but [train_step] calls neither compiled model: it
    calls the two networks and its own two optimizers directly. *)
Definition build_gan (st : store) (training : bool) (x : mat) : result mat :=
  r <-? build_generator st training x ;;
  build_discriminator st (fst r).

End Networks.

(** ** The libraries behind the notebook

    TensorFlow's and NumPy's random generators, reverse-mode
    differentiation, the Adam update rule and the MNIST loader are used by
    the notebook as black boxes.  They are the operations of a [Backend],
    together with what their documentation promises about shapes and
    ranges. *)

Definition raw_image := list (list Z).

Definition raw_image_has_shape (im : raw_image) (h w : nat) : bool :=
  (length im =? h) && forallb (fun row => length row =? w) im.

Class Backend : Type := {
  tf_rng : Type;
  np_rng : Type;
  opt_state : Type;
  (** [tf.random.normal([n, d])] *)
  tf_random_normal : tf_rng -> nat -> nat -> mat * tf_rng;
  tf_random_normal_shape : forall g n d,
    mat_has_shape (fst (tf_random_normal g n d)) n d = true;
  (** [np.random.randn(n, d)] *)
  np_randn : np_rng -> nat -> nat -> mat * np_rng;
  np_randn_shape : forall g n d,
    mat_has_shape (fst (np_randn g n d)) n d = true;
  (** [np.random.randint(0, high, size)] for [0 < high] *)
  np_randint : np_rng -> nat -> nat -> list nat * np_rng;
  np_randint_length : forall g high size,
    length (fst (np_randint g high size)) = size;
  np_randint_range : forall g high size, 0 < high ->
    forallb (fun i => i <? high) (fst (np_randint g high size)) = true;
  (** [tape.gradient(target, sources)], one source at a time: the gradient
      of the target computation at the current variable values *)
  tape_gradient : (store -> result vec) -> store -> var_name -> tensor;
  tape_gradient_shape : forall f st v,
    tensor_has_shape (st v) (var_shape v) = true ->
    tensor_has_shape (tape_gradient f st v) (var_shape v) = true;
  (** [tf.keras.optimizers.Adam(learning_rate, beta_1)] and its update of
      one variable from its gradient *)
  Adam : R -> R -> opt_state;
  adam_update : opt_state -> var_name -> tensor -> tensor -> opt_state * tensor;
  adam_update_shape : forall o v g x,
    tensor_has_shape g (var_shape v) = true ->
    tensor_has_shape x (var_shape v) = true ->
    tensor_has_shape (snd (adam_update o v g x)) (var_shape v) = true;
  (** the training images of [mnist.load_data()] *)
  mnist_x_train : list raw_image;
  mnist_x_train_shape :
    forallb (fun im => raw_image_has_shape im 28 28) mnist_x_train = true;
  mnist_x_train_nonempty : (0 <? length mnist_x_train) = true
}.

Inductive optimizer_id : Type :=
| generator_optimizer
| discriminator_optimizer.

(** ** Events: the library calls, in the order the program makes them *)

Inductive event : Type :=
| EvTrainStepCall (real_images : batch) (batch_size : nat)
| EvRandomNormal (n d : nat) (out : mat)
| EvGenerator (training : bool) (latent : mat) (out : batch)
| EvDiscriminator (input : batch) (scores : mat)
| EvApplyGradients (o : optimizer_id) (targets : list var_name)
| EvTrainStepReturn (disc_loss gen_loss : vec)
| EvRandint (high size : nat) (idx : list nat)
| EvPrint (epoch : nat) (d_loss g_loss : R)
| EvRandn (n d : nat) (out : mat)
| EvSubplots (rows cols : nat)
| EvImshow (i j : nat) (img : list (list R))
| EvAxisOff (i j : nat)
| EvShow.

Section Program.
Context {B : Backend}.

(** ** The interpreter state and the monad of the notebook's code *)

Record world : Type := {
  variables : store;
  generator_opt : opt_state;
  discriminator_opt : opt_state;
  tf_global_rng : tf_rng;
  np_global_rng : np_rng;
  pyplot_figures : nat
}.

Inductive outcome (A : Type) : Type :=
| Done (a : A) (w : world) (out : list event)
| Raise (e : error).
Arguments Done {A} a w out.
Arguments Raise {A} e.

Definition M (A : Type) : Type := world -> outcome A.

Definition ret {A} (a : A) : M A := fun w => Done a w [].

Definition bind {A C} (m : M A) (k : A -> M C) : M C :=
  fun w =>
    match m w with
    | Done a w1 out1 =>
        match k a w1 with
        | Done c w2 out2 => Done c w2 (out1 ++ out2)
        | Raise e => Raise e
        end
    | Raise e => Raise e
    end.

Definition raise {A} (e : error) : M A := fun _ => Raise e.

Definition lift {A} (r : result A) : M A :=
  match r with
  | Ok a => ret a
  | Err e => raise e
  end.

Definition emit (e : event) : M unit := fun w => Done tt w [e].

Definition get_variables : M store := fun w => Done (variables w) w [].

(** Field updates of the state. *)
Definition with_variables (st : store) (w : world) : world :=
  {| variables := st;
     generator_opt := generator_opt w;
     discriminator_opt := discriminator_opt w;
     tf_global_rng := tf_global_rng w;
     np_global_rng := np_global_rng w;
     pyplot_figures := pyplot_figures w |}.

Definition optimizer_of (o : optimizer_id) (w : world) : opt_state :=
  match o with
  | generator_optimizer => generator_opt w
  | discriminator_optimizer => discriminator_opt w
  end.

Definition with_optimizer (o : optimizer_id) (s : opt_state) (w : world) : world :=
  {| variables := variables w;
     generator_opt := match o with
                      | generator_optimizer => s
                      | discriminator_optimizer => generator_opt w
                      end;
     discriminator_opt := match o with
                          | generator_optimizer => discriminator_opt w
                          | discriminator_optimizer => s
                          end;
     tf_global_rng := tf_global_rng w;
     np_global_rng := np_global_rng w;
     pyplot_figures := pyplot_figures w |}.

Definition with_tf_rng (g : tf_rng) (w : world) : world :=
  {| variables := variables w;
     generator_opt := generator_opt w;
     discriminator_opt := discriminator_opt w;
     tf_global_rng := g;
     np_global_rng := np_global_rng w;
     pyplot_figures := pyplot_figures w |}.

Definition with_np_rng (g : np_rng) (w : world) : world :=
  {| variables := variables w;
     generator_opt := generator_opt w;
     discriminator_opt := discriminator_opt w;
     tf_global_rng := tf_global_rng w;
     np_global_rng := g;
     pyplot_figures := pyplot_figures w |}.

Definition with_figures (n : nat) (w : world) : world :=
  {| variables := variables w;
     generator_opt := generator_opt w;
     discriminator_opt := discriminator_opt w;
     tf_global_rng := tf_global_rng w;
     np_global_rng := np_global_rng w;
     pyplot_figures := n |}.

Definition put_variables (st : store) : M unit :=
  fun w => Done tt (with_variables st w) [].

Definition get_optimizer (o : optimizer_id) : M opt_state :=
  fun w => Done (optimizer_of o w) w [].

Definition put_optimizer (o : optimizer_id) (s : opt_state) : M unit :=
  fun w => Done tt (with_optimizer o s w) [].

Definition tf_draw_normal (n d : nat) : M mat :=
  fun w => let r := tf_random_normal (tf_global_rng w) n d in
           Done (fst r) (with_tf_rng (snd r) w) [].

Definition np_draw {A} (draw : np_rng -> A * np_rng) : M A :=
  fun w => let r := draw (np_global_rng w) in
           Done (fst r) (with_np_rng (snd r) w) [].

Definition new_figure : M unit :=
  fun w => Done tt (with_figures (S (pyplot_figures w)) w) [].

Declare Scope gan_scope.
Delimit Scope gan_scope with gan.
Notation "x <- m ;; k" := (bind m (fun x => k))
  (at level 100, m at next level, right associativity) : gan_scope.
Notation "' p <- m ;; k" := (bind m (fun x => let p := x in k))
  (at level 100, p pattern, m at next level, right associativity) : gan_scope.
Notation "m ;;; k" := (bind m (fun _ => k))
  (at level 100, right associativity) : gan_scope.
Local Open Scope gan_scope.

(** A [for] loop over a list that threads the loop-carried variables. *)
Fixpoint for_loop {I S} (l : list I) (s : S) (body : I -> S -> M S) : M S :=
  match l with
  | [] => ret s
  | i :: l' => s' <- body i s ;; for_loop l' s' body
  end.

Definition range (n : nat) : list nat := seq 0 n.

(** ** Library calls as the program makes them *)

(** [tf.random.normal([n, d])] *)
Definition tf_random_normal_call (n d : nat) : M mat :=
  x <- tf_draw_normal n d ;;
  emit (EvRandomNormal n d x) ;;;
  ret x.

(** [np.random.randn(n, d)] *)
Definition np_random_randn (n d : nat) : M mat :=
  x <- np_draw (fun g => np_randn g n d) ;;
  emit (EvRandn n d x) ;;;
  ret x.

(** [np.random.randint(0, high, size)]; an empty range is a [ValueError]. *)
Definition np_random_randint (high size : nat) : M (list nat) :=
  if high =? 0 then raise ValueError
  else
    idx <- np_draw (fun g => np_randint g high size) ;;
    emit (EvRandint high size idx) ;;;
    ret idx.

Definition assign_variable (v : var_name) (x : tensor) : M unit :=
  st <- get_variables ;;
  st' <- lift (assign v x st) ;;
  put_variables st'.

(** [generator(x, training=...)]: the forward pass; in training mode the
    batch-normalisation layer also writes its moving statistics. *)
Definition generator (training : bool) (x : mat) : M batch :=
  st <- get_variables ;;
  r <- lift (Networks.build_generator st training x) ;;
  (if training
   then assign_variable G_bn_moving_mean (Vec (fst (snd r))) ;;;
        assign_variable G_bn_moving_variance (Vec (snd (snd r)))
   else ret tt) ;;;
  emit (EvGenerator training x (fst r)) ;;;
  ret (fst r).

(** The store a training-mode generator call leaves behind. *)
Definition after_generator (training : bool) (mm mv : vec) (st : store) : store :=
  if training
  then set_var G_bn_moving_variance (Vec mv) (set_var G_bn_moving_mean (Vec mm) st)
  else st.

(** [generator.predict(x)]: the forward pass in inference mode.  An empty
    input is passed through like any other batch; a Keras release that
    rejects it raises here, before the display loop is reached. *)
Definition generator_predict (x : mat) : M batch := generator false x.

(** [discriminator(x, training=True)] *)
Definition discriminator (x : batch) : M mat :=
  st <- get_variables ;;
  y <- lift (Networks.build_discriminator st x) ;;
  emit (EvDiscriminator x y) ;;;
  ret y.

(** [tape.gradient(target, sources)] *)
Definition gradient (target : store -> result vec) (sources : list var_name)
    : M (list tensor) :=
  st <- get_variables ;;
  ret (map (tape_gradient target st) sources).

(** [optimizer.apply_gradients(grads_and_vars)]: each listed variable is
    assigned its updated value; no other variable is written. *)
Fixpoint apply_updates (o : opt_state) (grads_and_vars : list (tensor * var_name))
    (st : store) : result (opt_state * store) :=
  match grads_and_vars with
  | [] => Ok (o, st)
  | (g, v) :: rest =>
      let (o', x') := adam_update o v g (st v) in
      match assign v x' st with
      | Ok st' => apply_updates o' rest st'
      | Err e => Err e
      end
  end.

Definition apply_gradients (o : optimizer_id) (grads_and_vars : list (tensor * var_name))
    : M unit :=
  s <- get_optimizer o ;;
  st <- get_variables ;;
  r <- lift (apply_updates s grads_and_vars st) ;;
  put_optimizer o (fst r) ;;;
  put_variables (snd r) ;;;
  emit (EvApplyGradients o (map snd grads_and_vars)).

(** ** [train_step] *)

Import Tensor.

(** What [disc_tape] records: the discriminator loss as a function of the
    variables, for fixed real and synthetic batches. *)
Definition disc_tape (real_images fake_images : batch) (st : store) : result vec :=
  (real_output <-? Networks.build_discriminator st real_images ;;
   fake_output <-? Networks.build_discriminator st fake_images ;;
   disc_loss_real <-? Keras.binary_crossentropy (ones_like real_output) real_output ;;
   disc_loss_fake <-? Keras.binary_crossentropy (zeros_like fake_output) fake_output ;;
   add disc_loss_real disc_loss_fake)%result.

(** What [gen_tape] records: the generator loss as a function of the
    variables, for a fixed latent batch. *)
Definition gen_tape (noise : mat) (st : store) : result vec :=
  (r <-? Networks.build_generator st true noise ;;
   fake_output <-? Networks.build_discriminator st (fst r) ;;
   Keras.binary_crossentropy (ones_like fake_output) fake_output)%result.

Definition train_step (real_images : batch) (batch_size : nat) : M (vec * vec) :=
  emit (EvTrainStepCall real_images batch_size) ;;;
  (* Generate fake images *)
  noise <- tf_random_normal_call batch_size 100 ;;
  fake_images <- generator true noise ;;
  (* Train Discriminator *)
  real_output <- discriminator real_images ;;
  fake_output <- discriminator fake_images ;;
  disc_loss_real <- lift (Keras.binary_crossentropy (ones_like real_output) real_output) ;;
  disc_loss_fake <- lift (Keras.binary_crossentropy (zeros_like fake_output) fake_output) ;;
  disc_loss <- lift (add disc_loss_real disc_loss_fake) ;;
  gradients_of_discriminator <-
    gradient (disc_tape real_images fake_images) discriminator_trainable_variables ;;
  apply_gradients discriminator_optimizer
    (combine gradients_of_discriminator discriminator_trainable_variables) ;;;
  (* Train Generator *)
  fake_images <- generator true noise ;;
  fake_output <- discriminator fake_images ;;
  gen_loss <- lift (Keras.binary_crossentropy (ones_like fake_output) fake_output) ;;
  gradients_of_generator <- gradient (gen_tape noise) generator_trainable_variables ;;
  apply_gradients generator_optimizer
    (combine gradients_of_generator generator_trainable_variables) ;;;
  emit (EvTrainStepReturn disc_loss gen_loss) ;;;
  ret (disc_loss, gen_loss).

(** ** [generate_and_display_images] *)

(** [generated_images[cnt, :, :, 0]] *)
Definition channel0 (px : list R) : result R :=
  match px with
  | c :: _ => Ok c
  | [] => Err (IndexError 0 0)
  end.

Definition index_image (generated_images : batch) (cnt : nat)
    : result (list (list R)) :=
  match nth_error generated_images cnt with
  | Some im => rmap (rmap channel0) im
  | None => Err (IndexError cnt (length generated_images))
  end.

(** [0.5 * generated_images + 0.5] *)
Definition rescale (generated_images : batch) : batch :=
  map (map (map (map (fun x => 0.5 * x + 0.5)%R))) generated_images.

Definition subplots (rows cols : nat) : M unit :=
  new_figure ;;;
  emit (EvSubplots rows cols).

(** The [generator] argument is the module-level model: its variables are
    the generator's entries of the store. *)
Definition generate_and_display_images (num_images : nat) : M unit :=
  noise <- np_random_randn num_images 100 ;;
  generated_images <- generator_predict noise ;;
  let generated_images := rescale generated_images in
  subplots 4 4 ;;;
  let cnt := 0 in
  cnt <- for_loop (range 4) cnt (fun i cnt =>
           for_loop (range 4) cnt (fun j cnt =>
             img <- lift (index_image generated_images cnt) ;;
             emit (EvImshow i j img) ;;;
             emit (EvAxisOff i j) ;;;
             ret (cnt + 1))) ;;
  emit EvShow.

(** One cell of the figure, the body of the inner loop (lines 184-186). *)
Definition show_cell (generated_images : batch) (i j cnt : nat) : M nat :=
  img <- lift (index_image generated_images cnt) ;;
  emit (EvImshow i j img) ;;;
  emit (EvAxisOff i j) ;;;
  ret (cnt + 1).

(** ** [train_gan] *)

(** [(X_train / 127.5) - 1.0] followed by [np.expand_dims(X_train, axis=-1)] *)
Definition preprocess (X_train : list raw_image) : batch :=
  map (map (map (fun p => [(IZR p / 127.5 - 1.0)%R]))) X_train.

(** [X_train[idx]] for an array of indices *)
Definition take (X_train : batch) (idx : list nat) : result batch :=
  rmap (fun i => match nth_error X_train i with
                 | Some im => Ok im
                 | None => Err (IndexError i (length X_train))
                 end) idx.

Definition train_gan (epochs batch_size : nat) : M unit :=
  (* Load and preprocess MNIST dataset *)
  let X_train := preprocess mnist_x_train in
  for_loop (range epochs) tt (fun epoch _ =>
    (* Select a random batch of real images *)
    idx <- np_random_randint (length X_train) batch_size ;;
    real_images <- lift (take X_train idx) ;;
    (* Perform a training step *)
    losses <- train_step real_images batch_size ;;
    (* Print progress *)
    if epoch mod 1000 =? 0
    then
      emit (EvPrint epoch (np_mean (fst losses)) (np_mean (snd losses))) ;;;
      (* Generate and display images *)
      generate_and_display_images 16
    else ret tt).

(** One pass through the loop body of [train_gan] (lines 162-173). *)
Definition train_gan_epoch (X_train : batch) (batch_size epoch : nat) : M unit :=
  idx <- np_random_randint (length X_train) batch_size ;;
  real_images <- lift (take X_train idx) ;;
  losses <- train_step real_images batch_size ;;
  if epoch mod 1000 =? 0
  then
    emit (EvPrint epoch (np_mean (fst losses)) (np_mean (snd losses))) ;;;
    generate_and_display_images 16
  else ret tt.

(** The notebook's last cell: [train_gan(epochs=1000, batch_size=64)]. *)
Definition run_training : M unit := train_gan 1000 64.

(** The state after the notebook's set-up cells: freshly built models with
    initial weights [initial], two [Adam(learning_rate=0.0002, beta_1=0.5)]
    instances, seeded generators, no figure yet. *)
Definition notebook_world (initial : store) (tf_seed : tf_rng) (np_seed : np_rng)
    : world :=
  {| variables := initial;
     generator_opt := Adam 0.0002 0.5;
     discriminator_opt := Adam 0.0002 0.5;
     tf_global_rng := tf_seed;
     np_global_rng := np_seed;
     pyplot_figures := 0 |}.

(** The latent batch [tf.random.normal([n, 100])] returns in state [w]. *)
Definition drawn_latent (w : world) (n : nat) : mat :=
  fst (tf_random_normal (tf_global_rng w) n 100).

(** The two phases of [train_step], as its comments delimit them: lines
    116-128 (synthetic batch, discriminator loss and update) and lines
    131-137 (generator loss and update). *)
Definition discriminator_phase (real_images : batch) (batch_size : nat)
    : M (mat * vec) :=
  noise <- tf_random_normal_call batch_size 100 ;;
  fake_images <- generator true noise ;;
  real_output <- discriminator real_images ;;
  fake_output <- discriminator fake_images ;;
  disc_loss_real <- lift (Keras.binary_crossentropy (ones_like real_output) real_output) ;;
  disc_loss_fake <- lift (Keras.binary_crossentropy (zeros_like fake_output) fake_output) ;;
  disc_loss <- lift (add disc_loss_real disc_loss_fake) ;;
  gradients_of_discriminator <-
    gradient (disc_tape real_images fake_images) discriminator_trainable_variables ;;
  apply_gradients discriminator_optimizer
    (combine gradients_of_discriminator discriminator_trainable_variables) ;;;
  ret (noise, disc_loss).

Definition generator_phase (noise : mat) : M vec :=
  fake_images <- generator true noise ;;
  fake_output <- discriminator fake_images ;;
  gen_loss <- lift (Keras.binary_crossentropy (ones_like fake_output) fake_output) ;;
  gradients_of_generator <- gradient (gen_tape noise) generator_trainable_variables ;;
  apply_gradients generator_optimizer
    (combine gradients_of_generator generator_trainable_variables) ;;;
  ret gen_loss.

Definition train_step_by_phases (real_images : batch) (batch_size : nat)
    : M (vec * vec) :=
  emit (EvTrainStepCall real_images batch_size) ;;;
  r <- discriminator_phase real_images batch_size ;;
  gen_loss <- generator_phase (fst r) ;;
  emit (EvTrainStepReturn (snd r) gen_loss) ;;;
  ret (snd r, gen_loss).

(** ** Reading a trace *)

Definition is_random_normal (e : event) : bool :=
  match e with EvRandomNormal _ _ _ => true | _ => false end.

Definition is_apply_gradients (e : event) : bool :=
  match e with EvApplyGradients _ _ => true | _ => false end.

Definition is_train_step_call (e : event) : bool :=
  match e with EvTrainStepCall _ _ => true | _ => false end.

Definition is_imshow (e : event) : bool :=
  match e with EvImshow _ _ _ => true | _ => false end.

(** The latent batches the generator was called on, in order. *)
Fixpoint generator_latents (out : list event) : list mat :=
  match out with
  | [] => []
  | EvGenerator _ z _ :: out' => z :: generator_latents out'
  | _ :: out' => generator_latents out'
  end.

(** The losses [train_step] returned, call after call. *)
Fixpoint returned_losses (out : list event) : list (vec * vec) :=
  match out with
  | [] => []
  | EvTrainStepReturn d g :: out' => (d, g) :: returned_losses out'
  | _ :: out' => returned_losses out'
  end.

(** The images handed to [imshow], in order. *)
Fixpoint shown_images (out : list event) : list (list (list R)) :=
  match out with
  | [] => []
  | EvImshow _ _ img :: out' => img :: shown_images out'
  | _ :: out' => shown_images out'
  end.

(** [im[:, :, 0]] for an image with at least one channel. *)
Definition slice0 (im : image) : list (list R) :=
  map (map (fun px => hd 0%R px)) im.

(** The events one row of the figure leaves when cell [(i, j)] shows
    sample [cnt], [cnt] counting up along the row. *)
Definition row_events (gs : batch) (i : nat) (js : list nat) (cnt : nat)
    : list event :=
  flat_map (fun p => [EvImshow i (fst p) (slice0 (nth (snd p) gs []));
                      EvAxisOff i (fst p)])
           (combine js (seq cnt (length js))).

Fixpoint grid_events (gs : batch) (rows js : list nat) (cnt : nat) : list event :=
  match rows with
  | [] => []
  | i :: rows' => row_events gs i js cnt ++ grid_events gs rows' js (cnt + length js)
  end.

(** The trace of one loop iteration of [train_gan]: [batch_size] indices
    below the dataset size are drawn (repeats allowed), the samples at
    these indices are the real batch of the one [train_step] call, which
    returns once. *)
Definition iteration_ok (X_train : batch) (batch_size : nat) (it : list event)
    : Prop :=
  exists idx real_images body,
    it = EvRandint (length X_train) batch_size idx
         :: EvTrainStepCall real_images batch_size :: body
    /\ length idx = batch_size
    /\ Forall (fun i => i < length X_train) idx
    /\ real_images = map (fun i => nth i X_train []) idx
    /\ filter is_train_step_call body = []
    /\ length (returned_losses body) = 1.

Definition is_randint (e : event) : bool :=
  match e with EvRandint _ _ _ => true | _ => false end.

(** NumPy's global generator after one pass through the loop body of
    [train_gan] that started in generator state [g]: the pass draws the
    indices with [randint], and an epoch that reports draws the latent
    batch of [generate_and_display_images] with [randn]. *)
Definition np_rng_after_epoch (dataset_size batch_size : nat) (g : np_rng)
    (epoch : nat) : np_rng :=
  let g1 := snd (np_randint g dataset_size batch_size) in
  if epoch mod 1000 =? 0 then snd (np_randn g1 16 100) else g1.

(** What [np.random.randint(0, dataset_size, batch_size)] returns pass
    after pass, NumPy's global generator starting in state [g] and moving
    on as the passes leave it. *)
Fixpoint drawn_indices (dataset_size batch_size : nat) (g : np_rng)
    (epochs : list nat) : list (list nat) :=
  match epochs with
  | [] => []
  | epoch :: epochs' =>
      fst (np_randint g dataset_size batch_size)
      :: drawn_indices dataset_size batch_size
           (np_rng_after_epoch dataset_size batch_size g epoch) epochs'
  end.

Fixpoint np_rng_after (dataset_size batch_size : nat) (g : np_rng)
    (epochs : list nat) : np_rng :=
  match epochs with
  | [] => g
  | epoch :: epochs' =>
      np_rng_after dataset_size batch_size
        (np_rng_after_epoch dataset_size batch_size g epoch) epochs'
  end.

(** The trace of a pass whose index draw returned [idx]: that one draw,
    asked for [batch_size] indices below the dataset size, then
    [train_step] on the samples at [idx]; the pass draws no other indices
    and makes no other [train_step] call. *)
Definition iteration_draws (X_train : batch) (batch_size : nat)
    (idx : list nat) (it : list event) : Prop :=
  exists body,
    it = EvRandint (length X_train) batch_size idx
         :: EvTrainStepCall (map (fun i => nth i X_train []) idx) batch_size
         :: body
    /\ filter is_randint body = []
    /\ filter is_train_step_call body = [].

End Program.

Arguments Done {B A} a w out.
Arguments Raise {B A} e.

(** ** A small backend to run the program on

    Counter-based generators whose successive draws differ, the gradient
    of half the squared norm, plain gradient descent in place of Adam's
    moment estimates, and a two-image dataset. *)

Module Sample.

Definition constant (c : R) (shape : list nat) : tensor :=
  match shape with
  | [n] => Vec (repeat c n)
  | [r; k] => Mat (repeat (repeat c k) r)
  | _ => Vec []
  end.

Definition descend_row (lr : R) (x g : vec) : vec :=
  map (fun p => (fst p - lr * snd p)%R) (combine x g).

Definition descend (lr : R) (x g : tensor) : tensor :=
  match x, g with
  | Vec a, Vec b => Vec (descend_row lr a b)
  | Mat a, Mat b => Mat (map (fun p => descend_row lr (fst p) (snd p)) (combine a b))
  | _, _ => x
  end.

Definition filled (c : R) (n d : nat) : mat := repeat (repeat c d) n.

Definition x_train : list raw_image :=
  [repeat (repeat 0%Z 28) 28; repeat (repeat 255%Z 28) 28].

Definition backend : Backend.
Proof.
  refine {| tf_rng := nat;
            np_rng := nat;
            opt_state := R * nat;
            tf_random_normal := fun g n d => (filled (INR g) n d, S g);
            np_randn := fun g n d => (filled (INR g) n d, S g);
            np_randint := fun g high size => (repeat (g mod high) size, S g);
            tape_gradient := fun _ st v => st v;
            Adam := fun lr _ => (lr, 0);
            adam_update := fun o _ g x => ((fst o, S (snd o)), descend (fst o) x g);
            mnist_x_train := x_train |}.
  - intros g n d. unfold filled, mat_has_shape, vec_has_shape; simpl.
    rewrite repeat_length, Nat.eqb_refl; simpl.
    induction n as [|n IH]; simpl; [reflexivity|].
    rewrite repeat_length, Nat.eqb_refl; exact IH.
  - intros g n d. unfold filled, mat_has_shape, vec_has_shape; simpl.
    rewrite repeat_length, Nat.eqb_refl; simpl.
    induction n as [|n IH]; simpl; [reflexivity|].
    rewrite repeat_length, Nat.eqb_refl; exact IH.
  - intros g high size; simpl. apply repeat_length.
  - intros g high size Hpos; simpl.
    assert (Hlt : (g mod high <? high) = true)
      by (apply Nat.ltb_lt, Nat.mod_upper_bound; lia).
    induction size as [|k IH]; simpl; [reflexivity|].
    rewrite Hlt; exact IH.
  - intros _ st v H; exact H.
  - intros o v g x Hg Hx; simpl.
    destruct x as [a|a], g as [b|b]; simpl; try exact Hx;
      destruct (var_shape v) as [|r [|c [|? ?]]]; simpl in *; try discriminate.
    + unfold vec_has_shape, descend_row in *.
      apply Nat.eqb_eq in Hg, Hx. apply Nat.eqb_eq.
      rewrite length_map, length_combine; lia.
    + unfold mat_has_shape in *.
      apply andb_true_iff in Hg, Hx. destruct Hg as [Hg1 Hg2], Hx as [Hx1 Hx2].
      apply Nat.eqb_eq in Hg1, Hx1. apply andb_true_iff; split.
      * apply Nat.eqb_eq. rewrite length_map, length_combine; lia.
      * clear Hg1 Hx1. revert b Hg2.
        induction a as [|ra a IH]; intros [|rb b] Hg2; simpl; try reflexivity.
        simpl in Hx2, Hg2.
        apply andb_true_iff in Hx2, Hg2. destruct Hx2 as [Hr Hx2], Hg2 as [Hs Hg2].
        apply andb_true_iff; split; [|apply IH; assumption].
        unfold vec_has_shape, descend_row in *.
        apply Nat.eqb_eq in Hr, Hs. apply Nat.eqb_eq.
        rewrite length_map, length_combine; lia.
  - reflexivity.
  - reflexivity.
Defined.

(** Keras' initial values for biases and batch-normalisation variables;
    the kernels, drawn at random by Keras, are zero here. *)
Definition initial_store : store :=
  fun v =>
    match v with
    | G_bn_gamma | G_bn_moving_variance => constant 1 (var_shape v)
    | _ => constant 0 (var_shape v)
    end.

Definition initial_world : @world backend :=
  @notebook_world backend initial_store 0 0.

(** A batch of [n] all-grey real images. *)
Definition grey_batch (n : nat) : batch := repeat (repeat (repeat [0%R] 28) 28) n.

End Sample.

(** ** Further readings of a trace *)

(** The batches the generator returned, call after call. *)
Fixpoint generator_outputs (out : list event) : list batch :=
  match out with
  | [] => []
  | EvGenerator _ _ y :: out' => y :: generator_outputs out'
  | _ :: out' => generator_outputs out'
  end.

(** The epochs for which a progress line was printed, in order. *)
Fixpoint printed_epochs (out : list event) : list nat :=
  match out with
  | [] => []
  | EvPrint epoch _ _ :: out' => epoch :: printed_epochs out'
  | _ :: out' => printed_epochs out'
  end.

Definition is_show (e : event) : bool :=
  match e with EvShow => true | _ => false end.

(** Every value of every image of a batch satisfies [P]. *)
Definition all_pixels (P : R -> Prop) (b : batch) : Prop :=
  Forall (Forall (Forall (Forall P))) b.

(** The epochs at which [train_gan] reports: [epoch % 1000 == 0]. *)
Definition reports (epoch : nat) : bool := epoch mod 1000 =? 0.

(** A pixel value of an 8-bit image. *)
Definition is_uint8 (p : Z) : bool := ((0 <=? p) && (p <=? 255))%Z.

(** The cells of the figure in the order the loops of
    [generate_and_display_images] visit them: sample [k] goes to row
    [k / 4], column [k mod 4]. *)
Definition cell_events (gs : batch) (k : nat) : list event :=
  [EvImshow (k / 4) (k mod 4) (slice0 (nth k gs []));
   EvAxisOff (k / 4) (k mod 4)].

(** ** The spectrogram notebook: [audio_to_spectrogram]

    [librosa.load], [librosa.feature.melspectrogram] and
    [librosa.power_to_db] are taken together as one library function
    [librosa_db] from a path to the decibel spectrogram (mel bands by
    frames) and the sampling rate. *)

Module Audio.

(** [a.shape[1]] of a two-dimensional array with at least one row. *)
Definition columns (a : mat) : nat := length (hd [] a).

(** [np.pad(a, pad_width=((0, 0), (0, pad_width)), mode='constant')] *)
Definition np_pad_right (a : mat) (pad_width : nat) : mat :=
  map (fun row => row ++ repeat 0%R pad_width) a.

(** [a[:, :n]] *)
Definition take_columns (a : mat) (n : nat) : mat := map (firstn n) a.

Definition audio_to_spectrogram {path rate : Type}
    (librosa_db : path -> mat * rate)
    (file_path : path) (max_pad_len : nat) : mat * rate :=
  let (spectrogram_db, sr) := librosa_db file_path in
  (* Padding or truncating the spectrogram to a fixed size *)
  let spectrogram_db :=
    if max_pad_len <? columns spectrogram_db
    then take_columns spectrogram_db max_pad_len
    else
      let pad_width := max_pad_len - columns spectrogram_db in
      np_pad_right spectrogram_db pad_width in
  (spectrogram_db, sr).

(** A spectrogram of two bands and three frames, for running the above. *)
Definition example_db (_ : unit) : mat * Z :=
  ([[1; 2; 3]; [4; 5; 6]]%R, 22050%Z).

End Audio.

(** ** The discriminator on float32 numbers

    Keras computes in float32.  What separates float32 from the real
    numbers in the discriminator's forward pass is kept here: a result
    whose magnitude float32 rounds to an infinity is that infinity, and
    infinities and NaN combine as IEEE 754 says.  Finite results are kept
    exact: rounding to 24 bits is left out. *)

Module Float32.
Local Open Scope R_scope.
Local Open Scope result_scope.

Inductive value : Type :=
| Fin (x : R)
| PInf
| NInf
| NaN.

(** The largest finite float32, [2^128 - 2^104], and the least magnitude
    that rounds to an infinity, [2^128 - 2^103]. *)
Definition largest : R := 340282346638528859811704183484516925440.
Definition overflow : R := 340282356779733661637539395458142568448.

Definition of_real (x : R) : value :=
  if Rle_dec overflow x then PInf
  else if Rle_dec x (- overflow) then NInf
  else Fin x.

Definition add (a b : value) : value :=
  match a, b with
  | NaN, _ | _, NaN => NaN
  | PInf, NInf | NInf, PInf => NaN
  | PInf, _ | _, PInf => PInf
  | NInf, _ | _, NInf => NInf
  | Fin x, Fin y => of_real (x + y)
  end.

(** An infinity of the given sign times the finite [y]. *)
Definition inf_times (positive : bool) (y : R) : value :=
  if Rlt_dec 0 y then (if positive then PInf else NInf)
  else if Rlt_dec y 0 then (if positive then NInf else PInf)
  else NaN.

Definition mul (a b : value) : value :=
  match a, b with
  | NaN, _ | _, NaN => NaN
  | Fin x, Fin y => of_real (x * y)
  | PInf, Fin y | Fin y, PInf => inf_times true y
  | NInf, Fin y | Fin y, NInf => inf_times false y
  | PInf, PInf | NInf, NInf => PInf
  | PInf, NInf | NInf, PInf => NInf
  end.

Definition maximum (a b : value) : value :=
  match a, b with
  | NaN, _ | _, NaN => NaN
  | PInf, _ | _, PInf => PInf
  | NInf, v | v, NInf => v
  | Fin x, Fin y => Fin (Rmax x y)
  end.

Definition sigmoid (v : value) : value :=
  match v with
  | Fin x => Fin (Keras.sigmoid x)
  | PInf => Fin 1
  | NInf => Fin 0
  | NaN => NaN
  end.

Definition linear (v : value) : value := v.

Definition leaky_relu (alpha : R) (v : value) : value := maximum (mul (Fin alpha) v) v.

Definition vec := list value.
Definition mat := list vec.
Definition image := list (list (list value)).
Definition batch := list image.

Definition mat_has_shape (m : mat) (r c : nat) : bool :=
  (length m =? r) && forallb (fun row => length row =? c) m.

Definition image_has_shape (im : image) (h w c : nat) : bool :=
  (length im =? h)
  && forallb (fun row => (length row =? w)
                         && forallb (fun px => length px =? c) row) im.

Definition batch_has_shape (b : batch) (n h w c : nat) : bool :=
  (length b =? n) && forallb (fun im => image_has_shape im h w c) b.

Definition zeros (n : nat) : vec := repeat (Fin 0) n.

Definition vadd (a b : vec) : vec :=
  map (fun p => add (fst p) (snd p)) (combine a b).

Definition scale (c : value) (a : vec) : vec := map (mul c) a.

Definition vecmat (x : vec) (K : mat) (out_dim : nat) : vec :=
  fold_right (fun p acc => vadd (scale (fst p) (snd p)) acc)
             (zeros out_dim) (combine x K).

Definition LeakyReLU (alpha : R) (x : mat) : mat := map (map (leaky_relu alpha)) x.

Definition Dense (K : mat) (b : vec) (act : value -> value) (x : mat) : result mat :=
  if forallb (fun row => length row =? length K) x
  then Ok (map (fun row => map act (vadd (vecmat row K (length b)) b)) x)
  else Err ValueError.

Definition flatten_image (im : image) : vec := concat (concat im).

Definition Flatten (x : batch) : mat := map flatten_image x.

(** The discriminator's four variables. *)
Record discriminator_variables : Type := {
  dense_kernel : mat;
  dense_bias : vec;
  dense_1_kernel : mat;
  dense_1_bias : vec
}.

Definition variables_have_shape (W : discriminator_variables) : bool :=
  mat_has_shape (dense_kernel W) 784 128
  && (length (dense_bias W) =? 128)
  && mat_has_shape (dense_1_kernel W) 128 1
  && (length (dense_1_bias W) =? 1).

(** [build_discriminator], lines 63-69: the forward pass. *)
Definition build_discriminator (W : discriminator_variables) (x : batch) : result mat :=
  let h := Flatten x in
  h <-? Dense (dense_kernel W) (dense_bias W) linear h ;;
  let h := LeakyReLU 0.2 h in
  Dense (dense_1_kernel W) (dense_1_bias W) sigmoid h.

(** A finite float32: no infinity, no NaN. *)
Definition is_finite (v : value) : Prop :=
  match v with
  | Fin x => - largest <= x <= largest
  | _ => False
  end.

Definition finite_variables (W : discriminator_variables) : Prop :=
  Forall (Forall is_finite) (dense_kernel W)
  /\ Forall is_finite (dense_bias W)
  /\ Forall (Forall is_finite) (dense_1_kernel W)
  /\ Forall is_finite (dense_1_bias W).

(** A number between 0 and 1, or NaN. *)
Definition probability_or_nan (v : value) : Prop :=
  match v with
  | Fin s => 0 <= s <= 1
  | NaN => True
  | _ => False
  end.

(** One pixel near the top of the float32 range, the others black. *)
Definition bright_pixel : image :=
  ([Fin 3e38] :: repeat [Fin 0] 27) :: repeat (repeat [Fin 0] 28) 27.

(** An all-black image. *)
Definition black : image := repeat (repeat [Fin 0] 28) 28.

(** Finite weights: the bright pixel feeds the first two hidden units with
    weights 2 and -2, and the output unit adds up the hidden units. *)
Definition opposed_variables : discriminator_variables :=
  {| dense_kernel := (Fin 2 :: Fin (-2) :: repeat (Fin 0) 126)
                     :: repeat (repeat (Fin 0) 128) 783;
     dense_bias := repeat (Fin 0) 128;
     dense_1_kernel := repeat [Fin 1] 128;
     dense_1_bias := [Fin 0] |}.

End Float32.

(** * Properties *)

(** ** Small runs of the pure parts *)

Section SmallRuns.
Import Tensor Keras.
Local Open Scope R_scope.

Example reshape_row_2_2_1 :
  reshape_row 2 2 1 [1; 2; 3; 4] = Ok [[[1]; [2]]; [[3]; [4]]].
Proof. reflexivity. Qed.

Example reshape_row_wrong_size : reshape_row 28 28 1 [1; 2; 3] = Err ValueError.
Proof. reflexivity. Qed.

Example flatten_image_2_2_1 :
  flatten_image [[[1]; [2]]; [[3]; [4]]] = [1; 2; 3; 4].
Proof. reflexivity. Qed.

Example add_equal_lengths : add [1; 2] [3; 4] = Ok [1 + 3; 2 + 4].
Proof. reflexivity. Qed.

Example add_broadcasts_singleton : add [1] [3; 4] = Ok [1 + 3; 1 + 4].
Proof. reflexivity. Qed.

Example add_incompatible : add [1; 2] [3; 4; 5] = Err ValueError.
Proof. reflexivity. Qed.

Example binary_crossentropy_is_per_sample (p q : R) :
  binary_crossentropy (ones_like [[p]; [q]]) [[p]; [q]]
  = Ok [mean [bce_elem 1 p]; mean [bce_elem 1 q]].
Proof. reflexivity. Qed.

Example take_with_repeats (a b : image) :
  take [a; b] [1; 1; 0]%nat = Ok [b; b; a].
Proof. reflexivity. Qed.

Example take_out_of_range (a b : image) :
  take [a; b] [0; 2]%nat = Err (IndexError 2 2).
Proof. reflexivity. Qed.

Example index_image_past_the_end (a : image) :
  index_image [a] 1 = Err (IndexError 1 1).
Proof. reflexivity. Qed.

Example grid_has_sixteen_cells (gs : batch) :
  length (filter is_imshow (grid_events gs (range 4) (range 4) 0)) = 16%nat.
Proof. reflexivity. Qed.

Example apply_gradients_targets :
  forall v, In v discriminator_trainable_variables ->
            ~ In v generator_trainable_variables.
Proof. intros v Hd Hg. simpl in *. intuition congruence. Qed.

End SmallRuns.

(** ** Shapes as propositions *)

Lemma forallb_Forall {A} (p : A -> bool) (l : list A) :
  forallb p l = true <-> Forall (fun a => p a = true) l.
Proof.
  induction l as [|a l IH]; simpl.
  - split; [constructor | reflexivity].
  - rewrite andb_true_iff, IH. split.
    + intros [Ha Hl]; constructor; assumption.
    + intros H; inversion H; subst; split; assumption.
Qed.

Lemma mat_has_shape_iff (m : mat) (r c : nat) :
  mat_has_shape m r c = true <->
  length m = r /\ Forall (fun row => length row = c) m.
Proof.
  unfold mat_has_shape, vec_has_shape.
  rewrite andb_true_iff, Nat.eqb_eq, forallb_Forall.
  split; intros [H1 H2]; split; try assumption;
    eapply Forall_impl; try exact H2; intros a Ha; apply Nat.eqb_eq; exact Ha.
Qed.

Lemma image_has_shape_iff (im : image) (h w c : nat) :
  image_has_shape im h w c = true <->
  length im = h /\ Forall (pixel_row_ok w c) im.
Proof.
  unfold image_has_shape, pixel_row_ok.
  rewrite andb_true_iff, Nat.eqb_eq, forallb_Forall.
  split; intros [H1 H2]; split; try assumption;
    eapply Forall_impl; try exact H2; intros row Hrow; cbv beta in *.
  - apply andb_true_iff in Hrow. destruct Hrow as [Hl Hp].
    apply Nat.eqb_eq in Hl. apply forallb_Forall in Hp. split; [assumption|].
    eapply Forall_impl; try exact Hp. intros px Hpx; apply Nat.eqb_eq; exact Hpx.
  - destruct Hrow as [Hl Hp]. apply andb_true_iff; split.
    + apply Nat.eqb_eq; assumption.
    + apply forallb_Forall. eapply Forall_impl; try exact Hp.
      intros px Hpx; apply Nat.eqb_eq; exact Hpx.
Qed.

Lemma batch_has_shape_iff (b : batch) (n h w c : nat) :
  batch_has_shape b n h w c = true <->
  length b = n /\ Forall (fun im => image_has_shape im h w c = true) b.
Proof.
  unfold batch_has_shape.
  rewrite andb_true_iff, Nat.eqb_eq, forallb_Forall. reflexivity.
Qed.

(** ** The result monad on lists *)

Lemma rmap_length {A C} (f : A -> result C) (l : list A) (l' : list C) :
  rmap f l = Ok l' -> length l' = length l.
Proof.
  revert l'. induction l as [|a l IH]; simpl; intros l' H.
  - inversion H; reflexivity.
  - destruct (f a) as [b|e]; [|discriminate].
    destruct (rmap f l) as [bs|e]; [|discriminate].
    inversion H; subst; simpl. f_equal. apply IH; reflexivity.
Qed.

Lemma rmap_total {A C} (f : A -> result C) (g : A -> C) (l : list A) :
  Forall (fun a => f a = Ok (g a)) l -> rmap f l = Ok (map g l).
Proof.
  induction 1 as [|a l Ha Hl IH]; simpl; [reflexivity|].
  rewrite Ha, IH; reflexivity.
Qed.

(** ** Layers keep shapes *)

Section LayerShapes.
Import Tensor Keras.

Lemma length_vadd (a b : vec) : length (vadd a b) = Nat.min (length a) (length b).
Proof. unfold vadd. rewrite length_map, length_combine. reflexivity. Qed.

Lemma length_zeros (n : nat) : length (zeros n) = n.
Proof. apply repeat_length. Qed.

Lemma length_vecmat (x : vec) (K : mat) (n : nat) :
  Forall (fun row => length row = n) K -> length (vecmat x K n) = n.
Proof.
  unfold vecmat. intros HK. revert x.
  induction HK as [|k K Hk HK IH]; intros x.
  - destruct x; simpl; apply length_zeros.
  - destruct x as [|x0 x]; simpl; [apply length_zeros|].
    rewrite length_vadd. unfold scale. rewrite length_map, Hk, IH. apply Nat.min_id.
Qed.

Lemma Dense_run (K : mat) (b : vec) (act : R -> R) (x : mat) (n i o : nat) :
  mat_has_shape K i o = true ->
  vec_has_shape b o = true ->
  mat_has_shape x n i = true ->
  exists y, Dense K b act x = Ok y /\ mat_has_shape y n o = true
            /\ y = map (fun row => map act (vadd (vecmat row K (length b)) b)) x.
Proof.
  intros HK Hb Hx.
  apply mat_has_shape_iff in HK. destruct HK as [HK1 HK2].
  apply mat_has_shape_iff in Hx. destruct Hx as [Hx1 Hx2].
  apply Nat.eqb_eq in Hb.
  eexists. split; [|split; [|reflexivity]].
  - unfold Dense.
    replace (forallb (fun row => length row =? length K) x) with true; [reflexivity|].
    symmetry. apply forallb_Forall. eapply Forall_impl; try exact Hx2.
    intros row Hrow. apply Nat.eqb_eq. cbv beta in Hrow. congruence.
  - apply mat_has_shape_iff. split; [rewrite length_map; assumption|].
    apply Forall_map. apply Forall_forall. intros row _.
    rewrite length_map, length_vadd, length_vecmat; [rewrite Hb; apply Nat.min_id|].
    rewrite Hb; exact HK2.
Qed.

Lemma LeakyReLU_shape (alpha : R) (x : mat) (n d : nat) :
  mat_has_shape x n d = true -> mat_has_shape (LeakyReLU alpha x) n d = true.
Proof.
  intros H. apply mat_has_shape_iff in H. destruct H as [H1 H2].
  apply mat_has_shape_iff. unfold LeakyReLU. split; [rewrite length_map; assumption|].
  apply Forall_map. eapply Forall_impl; try exact H2.
  intros row Hrow; cbv beta. rewrite length_map; exact Hrow.
Qed.

Lemma length_moving_update (momentum : R) (a b : vec) (n : nat) :
  length a = n -> length b = n -> length (moving_update momentum a b) = n.
Proof.
  intros Ha Hb. unfold moving_update.
  rewrite length_map, length_combine, Ha, Hb. apply Nat.min_id.
Qed.

Lemma BatchNormalization_run (momentum : R) (gamma beta mm mv : vec)
    (training : bool) (x : mat) (n d : nat) :
  vec_has_shape gamma d = true -> vec_has_shape mm d = true ->
  vec_has_shape mv d = true -> mat_has_shape x n d = true ->
  exists r, BatchNormalization momentum gamma beta mm mv training x = Ok r
            /\ mat_has_shape (bn_output r) n d = true
            /\ vec_has_shape (bn_moving_mean r) d = true
            /\ vec_has_shape (bn_moving_variance r) d = true.
Proof.
  unfold vec_has_shape. intros Hg Hmm Hmv Hx.
  apply Nat.eqb_eq in Hg, Hmm, Hmv.
  apply mat_has_shape_iff in Hx. destruct Hx as [Hx1 Hx2].
  assert (Hchk : forallb (fun row => length row =? length gamma) x = true).
  { apply forallb_Forall. eapply Forall_impl; try exact Hx2.
    intros row Hrow. apply Nat.eqb_eq. cbv beta in Hrow. congruence. }
  assert (Hout : forall mu var,
             mat_has_shape (map (normalize_row gamma beta mu var) x) n d = true).
  { intros mu var. apply mat_has_shape_iff. split; [rewrite length_map; assumption|].
    apply Forall_map. apply Forall_forall. intros row _.
    unfold normalize_row. rewrite length_map, length_seq. exact Hg. }
  unfold BatchNormalization. rewrite Hchk.
  destruct training; eexists; (split; [reflexivity|]); simpl;
    (split; [apply Hout|]); split; apply Nat.eqb_eq; try assumption;
    apply length_moving_update; try assumption;
    unfold batch_mean, batch_variance; rewrite length_map, length_seq; exact Hg.
Qed.

Lemma chunks_length (n k : nat) (l : vec) : length (chunks n k l) = n.
Proof. revert l. induction n as [|n IH]; intros l; simpl; [reflexivity|]. rewrite IH; reflexivity. Qed.

Lemma chunks_Forall_length (n k : nat) (l : vec) :
  n * k <= length l -> Forall (fun c => length c = k) (chunks n k l).
Proof.
  revert l. induction n as [|n IH]; intros l H; simpl; constructor.
  - rewrite length_firstn. simpl in H. lia.
  - apply IH. rewrite length_skipn. simpl in H. lia.
Qed.

Lemma reshape_row_run (h w c : nat) (row : vec) :
  length row = h * w * c ->
  exists im, reshape_row h w c row = Ok im /\ image_has_shape im h w c = true.
Proof.
  intros Hlen. unfold reshape_row.
  replace (length row =? h * w * c) with true by (symmetry; apply Nat.eqb_eq; exact Hlen).
  eexists; split; [reflexivity|].
  apply image_has_shape_iff. split; [rewrite length_map; apply chunks_length|].
  apply Forall_map.
  assert (H : Forall (fun r => length r = w * c) (chunks h (w * c) row))
    by (apply chunks_Forall_length; lia).
  eapply Forall_impl; try exact H. intros r Hr; cbv beta in *.
  split; [apply chunks_length|]. apply chunks_Forall_length. lia.
Qed.

Lemma Reshape_run (h w c : nat) (x : mat) (n : nat) :
  mat_has_shape x n (h * w * c) = true ->
  exists y, Reshape h w c x = Ok y /\ batch_has_shape y n h w c = true.
Proof.
  intros Hx. apply mat_has_shape_iff in Hx. destruct Hx as [Hx1 Hx2].
  subst n. unfold Reshape.
  induction Hx2 as [|row x Hrow Hx IH]; simpl.
  - exists []; split; reflexivity.
  - destruct (reshape_row_run h w c row Hrow) as [im [Him Hshape]].
    destruct IH as [y [Hy Hys]]. rewrite Him, Hy.
    eexists; split; [reflexivity|].
    apply batch_has_shape_iff in Hys. destruct Hys as [Hl Hf].
    apply batch_has_shape_iff. split; [simpl; congruence|].
    constructor; assumption.
Qed.

Lemma length_concat_uniform {A} (l : list (list A)) (k : nat) :
  Forall (fun a => length a = k) l -> length (concat l) = length l * k.
Proof.
  induction 1 as [|a l Ha Hl IH]; simpl; [reflexivity|].
  rewrite length_app, Ha, IH; reflexivity.
Qed.

Lemma flatten_image_length (im : image) (h w c : nat) :
  image_has_shape im h w c = true -> length (flatten_image im) = h * w * c.
Proof.
  intros H. apply image_has_shape_iff in H. destruct H as [H1 H2].
  unfold flatten_image.
  rewrite (@length_concat_uniform _ (concat im) c).
  - rewrite (@length_concat_uniform _ im w); [subst h; reflexivity|].
    eapply Forall_impl; try exact H2. intros row [Hr _]; exact Hr.
  - apply Forall_concat. eapply Forall_impl; try exact H2. intros row [_ Hp]; exact Hp.
Qed.

Lemma Flatten_shape (x : batch) (n h w c : nat) :
  batch_has_shape x n h w c = true -> mat_has_shape (Flatten x) n (h * w * c) = true.
Proof.
  intros H. apply batch_has_shape_iff in H. destruct H as [H1 H2].
  apply mat_has_shape_iff. unfold Flatten. split; [rewrite length_map; assumption|].
  apply Forall_map. eapply Forall_impl; try exact H2.
  intros im Him; cbv beta in *. apply flatten_image_length; assumption.
Qed.

End LayerShapes.

(** ** The networks on well-shaped variables *)

Lemma well_shaped_WS (st : store) : well_shaped st = true <-> WS st.
Proof.
  unfold well_shaped, WS. rewrite forallb_Forall, Forall_forall. split.
  - intros H v. apply H. destruct v; simpl; tauto.
  - intros H v _. apply H.
Qed.

Lemma read_mat_run (st : store) (v : var_name) (r c : nat) :
  tensor_has_shape (st v) [r; c] = true ->
  exists K, st v = Mat K /\ read_mat st v = Ok K /\ mat_has_shape K r c = true.
Proof.
  unfold read_mat. destruct (st v) as [x|K]; simpl; intros H; [discriminate|].
  exists K; repeat split; assumption.
Qed.

Lemma read_vec_run (st : store) (v : var_name) (n : nat) :
  tensor_has_shape (st v) [n] = true ->
  exists b, st v = Vec b /\ read_vec st v = Ok b /\ vec_has_shape b n = true.
Proof.
  unfold read_vec. destruct (st v) as [b|K]; simpl; intros H; [|discriminate].
  exists b; repeat split; assumption.
Qed.

Section NetworkFacts.
Import Tensor Keras Networks.
Local Open Scope R_scope.

Lemma sigmoid_range (x : R) : 0 < sigmoid x < 1.
Proof.
  unfold sigmoid. pose proof (exp_pos (- x)) as Hexp.
  split.
  - apply Rdiv_lt_0_compat; lra.
  - apply Rmult_lt_reg_r with (1 + exp (- x)); [lra|].
    unfold Rdiv. rewrite Rmult_assoc, Rinv_l by lra. lra.
Qed.

Lemma build_discriminator_run (st : store) (x : batch) (n : nat) :
  WS st -> batch_has_shape x n 28 28 1 = true ->
  exists y, build_discriminator st x = Ok y /\ mat_has_shape y n 1 = true.
Proof.
  intros Hst Hx. unfold build_discriminator.
  destruct (read_mat_run st D_dense_kernel _ _ (Hst D_dense_kernel)) as [K [_ [HK HKs]]].
  destruct (read_vec_run st D_dense_bias _ (Hst D_dense_bias)) as [b [_ [Hb Hbs]]].
  destruct (read_mat_run st D_dense_1_kernel _ _ (Hst D_dense_1_kernel)) as [K1 [_ [HK1 HK1s]]].
  destruct (read_vec_run st D_dense_1_bias _ (Hst D_dense_1_bias)) as [b1 [_ [Hb1 Hb1s]]].
  rewrite HK, Hb; cbn [rbind].
  pose proof (Flatten_shape _ _ _ _ _ Hx) as Hflat.
  change (28 * 28 * 1)%nat with 784%nat in Hflat.
  destruct (Dense_run _ _ linear _ _ _ _ HKs Hbs Hflat) as [h [Hh [Hhs _]]].
  rewrite Hh; cbn [rbind]. rewrite HK1, Hb1; cbn [rbind].
  destruct (Dense_run _ _ sigmoid _ _ _ _ HK1s Hb1s (LeakyReLU_shape 0.2 _ _ _ Hhs)) as [y [Hy [Hys _]]].
  exists y; split; assumption.
Qed.

Lemma build_generator_run (st : store) (training : bool) (x : mat) (n : nat) :
  WS st -> mat_has_shape x n latent_dim = true ->
  exists y mm mv,
    build_generator st training x = Ok (y, (mm, mv))
    /\ batch_has_shape y n 28 28 1 = true
    /\ vec_has_shape mm 128 = true /\ vec_has_shape mv 128 = true.
Proof.
  intros Hst Hx. unfold build_generator.
  destruct (read_mat_run st G_dense_kernel _ _ (Hst G_dense_kernel)) as [K [_ [HK HKs]]].
  destruct (read_vec_run st G_dense_bias _ (Hst G_dense_bias)) as [b [_ [Hb Hbs]]].
  destruct (read_vec_run st G_bn_gamma _ (Hst G_bn_gamma)) as [gamma [_ [Hga Hgas]]].
  destruct (read_vec_run st G_bn_beta _ (Hst G_bn_beta)) as [beta [_ [Hbe Hbes]]].
  destruct (read_vec_run st G_bn_moving_mean _ (Hst G_bn_moving_mean)) as [mm [_ [Hmm Hmms]]].
  destruct (read_vec_run st G_bn_moving_variance _ (Hst G_bn_moving_variance))
    as [mv [_ [Hmv Hmvs]]].
  destruct (read_mat_run st G_dense_1_kernel _ _ (Hst G_dense_1_kernel)) as [K1 [_ [HK1 HK1s]]].
  destruct (read_vec_run st G_dense_1_bias _ (Hst G_dense_1_bias)) as [b1 [_ [Hb1 Hb1s]]].
  rewrite HK, Hb; cbn [rbind].
  destruct (Dense_run _ _ linear _ _ _ _ HKs Hbs Hx) as [h [Hh [Hhs _]]].
  rewrite Hh; cbn [rbind]. rewrite Hga, Hbe, Hmm, Hmv; cbn [rbind].
  destruct (BatchNormalization_run 0.8 _ beta _ _ training _ _ _ Hgas Hmms Hmvs
              (LeakyReLU_shape 0.2 _ _ _ Hhs)) as [bn [Hbn [Hbo [Hbm Hbv]]]].
  rewrite Hbn; cbn [rbind]. rewrite HK1, Hb1; cbn [rbind].
  destruct (Dense_run _ _ tanh _ _ _ _ HK1s Hb1s Hbo) as [h1 [Hh1 [Hh1s _]]].
  rewrite Hh1; cbn [rbind].
  change 784%nat with (28 * 28 * 1)%nat in Hh1s.
  destruct (Reshape_run 28 28 1 _ _ Hh1s) as [y [Hy Hys]].
  rewrite Hy; cbn [rbind].
  exists y, (bn_moving_mean bn), (bn_moving_variance bn).
  repeat split; assumption.
Qed.

(** Each network reads its own variables only. *)
Lemma build_discriminator_ext (st st' : store) (x : batch) :
  (forall v, In v discriminator_trainable_variables -> st' v = st v) ->
  build_discriminator st' x = build_discriminator st x.
Proof.
  intros H. unfold build_discriminator, read_mat, read_vec.
  rewrite !H by (simpl; tauto). reflexivity.
Qed.

Lemma build_generator_ext (st st' : store) (training : bool) (x : mat) :
  (forall v, In v (generator_trainable_variables ++ generator_non_trainable_variables) ->
             st' v = st v) ->
  build_generator st' training x = build_generator st training x.
Proof.
  intros H. unfold build_generator, read_mat, read_vec.
  rewrite !H by (simpl; tauto). reflexivity.
Qed.

Lemma bce_constant_target_run (c : R) (x : mat) :
  exists l, binary_crossentropy (map (map (fun _ => c)) x) x = Ok l
            /\ length l = length x.
Proof.
  induction x as [|row x [l [Hl Hlen]]]; simpl.
  - exists []; split; reflexivity.
  - unfold bce_row. rewrite length_map, Nat.eqb_refl. cbn [rbind].
    rewrite Hl; cbn [rbind]. eexists; split; [reflexivity|]. simpl; congruence.
Qed.

Lemma binary_crossentropy_length (t p : mat) (l : vec) :
  binary_crossentropy t p = Ok l -> length l = length p.
Proof.
  revert p l. induction t as [|tr t IH]; intros [|pr p] l; simpl; intros H;
    try discriminate.
  - inversion H; reflexivity.
  - destruct (bce_row tr pr); [|discriminate]. cbn [rbind] in H.
    destruct (binary_crossentropy t p) eqn:E; [|discriminate]. cbn [rbind] in H.
    inversion H; subst; simpl. f_equal. apply IH; exact E.
Qed.

Lemma add_same_length (a b : vec) :
  length a = length b -> add a b = Ok (vadd a b).
Proof. intros H. unfold add. rewrite H, Nat.eqb_refl. reflexivity. Qed.

End NetworkFacts.

(** ** Running the library calls *)

Section Runs.
Context {B : Backend}.
Import Tensor.

Lemma bind_run {A C} (m : M A) (k : A -> M C) (w : world) a w1 o1 :
  m w = Done a w1 o1 ->
  bind m k w = match k a w1 with
               | Done c w2 o2 => Done c w2 (o1 ++ o2)
               | Raise e => Raise e
               end.
Proof. intros H. unfold bind. rewrite H. reflexivity. Qed.

Lemma bind_raise {A C} (m : M A) (k : A -> M C) (w : world) e :
  m w = Raise e -> bind m k w = Raise e.
Proof. intros H. unfold bind. rewrite H. reflexivity. Qed.

Lemma set_var_same (v : var_name) (x : tensor) (st : store) : set_var v x st v = x.
Proof. unfold set_var, var_eqb. destruct (var_name_eq_dec v v); congruence. Qed.

Lemma set_var_other (v v' : var_name) (x : tensor) (st : store) :
  v <> v' -> set_var v x st v' = st v'.
Proof. intros H. unfold set_var, var_eqb. destruct (var_name_eq_dec v v'); congruence. Qed.

Lemma WS_set_var (v : var_name) (x : tensor) (st : store) :
  WS st -> tensor_has_shape x (var_shape v) = true -> WS (set_var v x st).
Proof.
  intros Hst Hx v'. destruct (var_name_eq_dec v v') as [->|Hne].
  - rewrite set_var_same; exact Hx.
  - rewrite set_var_other by exact Hne. apply Hst.
Qed.

Lemma assign_run (v : var_name) (x : tensor) (st : store) :
  tensor_has_shape x (var_shape v) = true -> assign v x st = Ok (set_var v x st).
Proof. intros H. unfold assign. rewrite H. reflexivity. Qed.

Lemma tf_random_normal_call_run (n d : nat) (w : world) :
  tf_random_normal_call n d w =
  Done (fst (tf_random_normal (tf_global_rng w) n d))
       (with_tf_rng (snd (tf_random_normal (tf_global_rng w) n d)) w)
       [EvRandomNormal n d (fst (tf_random_normal (tf_global_rng w) n d))].
Proof. reflexivity. Qed.

Lemma np_random_randn_run (n d : nat) (w : world) :
  np_random_randn n d w =
  Done (fst (np_randn (np_global_rng w) n d))
       (with_np_rng (snd (np_randn (np_global_rng w) n d)) w)
       [EvRandn n d (fst (np_randn (np_global_rng w) n d))].
Proof. reflexivity. Qed.

Lemma np_random_randint_run (high size : nat) (w : world) :
  0 < high ->
  np_random_randint high size w =
  Done (fst (np_randint (np_global_rng w) high size))
       (with_np_rng (snd (np_randint (np_global_rng w) high size)) w)
       [EvRandint high size (fst (np_randint (np_global_rng w) high size))].
Proof.
  intros H. unfold np_random_randint.
  destruct (Nat.eqb_spec high 0) as [->|_]; [lia|]. reflexivity.
Qed.

Lemma lift_run {A} (r : result A) (a : A) (w : world) :
  r = Ok a -> lift r w = Done a w [].
Proof. intros ->. reflexivity. Qed.

Lemma with_variables_same (w : world) : with_variables (variables w) w = w.
Proof. destruct w; reflexivity. Qed.

Lemma generator_run (training : bool) (x : mat) (w : world) y mm mv :
  Networks.build_generator (variables w) training x = Ok (y, (mm, mv)) ->
  vec_has_shape mm 128 = true -> vec_has_shape mv 128 = true ->
  generator training x w =
  Done y (with_variables (after_generator training mm mv (variables w)) w)
       [EvGenerator training x y].
Proof.
  intros Hfwd Hmm Hmv. unfold generator, get_variables, bind. rewrite Hfwd. simpl.
  destruct training; simpl.
  - unfold assign_variable, get_variables, bind; simpl.
    rewrite (assign_run G_bn_moving_mean (Vec mm) (variables w) Hmm); simpl.
    rewrite (assign_run G_bn_moving_variance (Vec mv) _ Hmv); simpl.
    reflexivity.
  - rewrite with_variables_same. reflexivity.
Qed.

Lemma WS_after_generator (training : bool) (mm mv : vec) (st : store) :
  WS st -> vec_has_shape mm 128 = true -> vec_has_shape mv 128 = true ->
  WS (after_generator training mm mv st).
Proof.
  intros Hst Hmm Hmv. unfold after_generator. destruct training; [|exact Hst].
  apply WS_set_var; [apply WS_set_var|]; assumption.
Qed.

Lemma after_generator_frame (training : bool) (mm mv : vec) (st : store) (v : var_name) :
  ~ In v generator_non_trainable_variables ->
  after_generator training mm mv st v = st v.
Proof.
  intros Hv. unfold after_generator. destruct training; [|reflexivity].
  rewrite !set_var_other; [reflexivity| |]; intros <-; apply Hv; simpl; tauto.
Qed.

Lemma discriminator_run (x : batch) (w : world) (y : mat) :
  Networks.build_discriminator (variables w) x = Ok y ->
  discriminator x w = Done y w [EvDiscriminator x y].
Proof.
  intros H. unfold discriminator, get_variables, bind. rewrite H. reflexivity.
Qed.

Lemma gradient_run (target : store -> result vec) (sources : list var_name) (w : world) :
  gradient target sources w =
  Done (map (tape_gradient target (variables w)) sources) w [].
Proof. reflexivity. Qed.

(** [apply_gradients] writes the listed variables and nothing else. *)
Lemma apply_updates_frame (o : opt_state) (gv : list (tensor * var_name))
    (st : store) o' st' (v : var_name) :
  apply_updates o gv st = Ok (o', st') ->
  ~ In v (map snd gv) -> st' v = st v.
Proof.
  revert o st. induction gv as [|[g u] gv IH]; simpl; intros o st H Hv.
  - inversion H; reflexivity.
  - destruct (adam_update o u g (st u)) as [o1 x1].
    unfold assign in H.
    destruct (tensor_has_shape x1 (var_shape u)); [|discriminate].
    rewrite (IH _ _ H) by tauto.
    apply set_var_other. intros ->; apply Hv; left; reflexivity.
Qed.

Lemma apply_updates_run (o : opt_state) (gv : list (tensor * var_name)) (st : store) :
  WS st ->
  Forall (fun p => tensor_has_shape (fst p) (var_shape (snd p)) = true) gv ->
  exists o' st', apply_updates o gv st = Ok (o', st') /\ WS st'.
Proof.
  intros Hst Hgv. revert o st Hst.
  induction Hgv as [|[g u] gv Hg Hgv IH]; simpl; intros o st Hst.
  - exists o, st; split; [reflexivity|assumption].
  - destruct (adam_update o u g (st u)) as [o1 x1] eqn:E.
    assert (Hx1 : tensor_has_shape x1 (var_shape u) = true).
    { change x1 with (snd (o1, x1)). rewrite <- E.
      apply adam_update_shape; [exact Hg|apply Hst]. }
    rewrite (assign_run u x1 st Hx1).
    apply IH. apply WS_set_var; assumption.
Qed.

Lemma gradients_shaped (target : store -> result vec) (st : store)
    (sources : list var_name) :
  WS st ->
  Forall (fun p => tensor_has_shape (fst p) (var_shape (snd p)) = true)
         (combine (map (tape_gradient target st) sources) sources).
Proof.
  intros Hst. induction sources as [|v sources IH]; simpl; constructor.
  - simpl. apply tape_gradient_shape, Hst.
  - exact IH.
Qed.

Lemma combine_map_snd {A} (f : var_name -> A) (l : list var_name) :
  map snd (combine (map f l) l) = l.
Proof. induction l as [|a l IH]; simpl; [reflexivity|]. rewrite IH; reflexivity. Qed.

Lemma apply_gradients_run (o : optimizer_id) (gv : list (tensor * var_name))
    (w : world) o' st' :
  apply_updates (optimizer_of o w) gv (variables w) = Ok (o', st') ->
  apply_gradients o gv w =
  Done tt (with_variables st' (with_optimizer o o' w))
       [EvApplyGradients o (map snd gv)].
Proof.
  intros H. unfold apply_gradients, get_optimizer, get_variables, bind.
  rewrite H. reflexivity.
Qed.

End Runs.

(** ** The two phases of a training step *)

(** Run the first call of a sequence, given how that call ends. *)
Ltac run_by tac := erewrite bind_run by tac; cbv beta.

Section Phases.
Context {B : Backend}.
Import Tensor.

Lemma discriminator_phase_run (real_images : batch) (n : nat) (w : world) :
  WS (variables w) -> batch_has_shape real_images n 28 28 1 = true ->
  exists fake stats real_output fake_output loss_real loss_fake w1,
    Networks.build_generator (variables w) true (drawn_latent w n) = Ok (fake, stats)
    /\ batch_has_shape fake n 28 28 1 = true
    /\ Networks.build_discriminator (variables w) real_images = Ok real_output
    /\ Networks.build_discriminator (variables w) fake = Ok fake_output
    /\ Keras.binary_crossentropy (ones_like real_output) real_output = Ok loss_real
    /\ Keras.binary_crossentropy (zeros_like fake_output) fake_output = Ok loss_fake
    /\ length loss_real = n /\ length loss_fake = n
    /\ discriminator_phase real_images n w =
       Done (drawn_latent w n, vadd loss_real loss_fake) w1
            [EvRandomNormal n 100 (drawn_latent w n);
             EvGenerator true (drawn_latent w n) fake;
             EvDiscriminator real_images real_output;
             EvDiscriminator fake fake_output;
             EvApplyGradients discriminator_optimizer discriminator_trainable_variables]
    /\ WS (variables w1)
    /\ (forall v, ~ In v (discriminator_trainable_variables
                          ++ generator_non_trainable_variables) ->
                  variables w1 v = variables w v)
    /\ generator_opt w1 = generator_opt w
    /\ tf_global_rng w1 = snd (tf_random_normal (tf_global_rng w) n 100)
    /\ np_global_rng w1 = np_global_rng w
    /\ pyplot_figures w1 = pyplot_figures w
    /\ variables w1 G_bn_moving_mean = Vec (fst stats)
    /\ variables w1 G_bn_moving_variance = Vec (snd stats).
Proof.
  intros Hws Hreal.
  set (noise := drawn_latent w n).
  assert (Hnoise : mat_has_shape noise n latent_dim = true)
    by apply tf_random_normal_shape.
  destruct (build_generator_run (variables w) true noise n Hws Hnoise)
    as [fake [mm [mv [Hgen [Hfake [Hmm Hmv]]]]]].
  set (st1 := after_generator true mm mv (variables w)).
  assert (Hws1 : WS st1) by (apply WS_after_generator; assumption).
  assert (Hext : forall x, Networks.build_discriminator st1 x
                           = Networks.build_discriminator (variables w) x).
  { intros x. apply build_discriminator_ext. intros v Hv.
    apply after_generator_frame. simpl in *. intuition congruence. }
  destruct (build_discriminator_run st1 real_images n Hws1 Hreal) as [ro [Hro Hros]].
  destruct (build_discriminator_run st1 fake n Hws1 Hfake) as [fo [Hfo Hfos]].
  destruct (bce_constant_target_run 1 ro) as [lr [Hlr Hlrn]].
  destruct (bce_constant_target_run 0 fo) as [lf [Hlf Hlfn]].
  apply mat_has_shape_iff in Hros, Hfos. destruct Hros as [Hron _], Hfos as [Hfon _].
  pose (gv := combine (map (tape_gradient (disc_tape real_images fake) st1)
                           discriminator_trainable_variables)
                      discriminator_trainable_variables).
  destruct (apply_updates_run (discriminator_opt w) gv st1 Hws1
              (gradients_shaped _ _ _ Hws1)) as [o' [st' [Hup Hws']]].
  exists fake, (mm, mv), ro, fo, lr, lf.
  eexists.
  repeat match goal with |- _ /\ _ => split end.
  1: exact Hgen. 1: exact Hfake.
  1: rewrite <- Hext; exact Hro. 1: rewrite <- Hext; exact Hfo.
  1: exact Hlr. 1: exact Hlf. 1: congruence. 1: congruence.
  - unfold discriminator_phase.
    run_by ltac:(apply tf_random_normal_call_run).
    change (fst (tf_random_normal (tf_global_rng w) n 100)) with noise.
    run_by ltac:(eapply generator_run; eassumption).
    run_by ltac:(eapply discriminator_run; exact Hro).
    run_by ltac:(eapply discriminator_run; exact Hfo).
    run_by ltac:(eapply lift_run; exact Hlr).
    run_by ltac:(eapply lift_run; exact Hlf).
    run_by ltac:(eapply lift_run; apply add_same_length; congruence).
    run_by ltac:(apply gradient_run).
    run_by ltac:(eapply apply_gradients_run; exact Hup).
    cbn [ret app]. reflexivity.
  - exact Hws'.
  - intros v Hv. cbn [variables with_variables].
    rewrite (apply_updates_frame _ _ _ _ _ v Hup).
    + apply after_generator_frame. intros Hin; apply Hv, in_or_app; right; exact Hin.
    + unfold gv. rewrite combine_map_snd. intros Hin; apply Hv, in_or_app; left; exact Hin.
  - reflexivity.
  - reflexivity.
  - reflexivity.
  - reflexivity.
  - cbn [variables with_variables fst].
    rewrite (apply_updates_frame _ _ _ _ _ G_bn_moving_mean Hup).
    + unfold st1, after_generator.
      rewrite set_var_other by discriminate. apply set_var_same.
    + unfold gv. rewrite combine_map_snd. simpl. intuition discriminate.
  - cbn [variables with_variables snd].
    rewrite (apply_updates_frame _ _ _ _ _ G_bn_moving_variance Hup).
    + unfold st1, after_generator. apply set_var_same.
    + unfold gv. rewrite combine_map_snd. simpl. intuition discriminate.
Qed.

Lemma generator_phase_run (noise : mat) (n : nat) (w : world) :
  WS (variables w) -> mat_has_shape noise n latent_dim = true ->
  exists fake stats fake_output gen_loss w2,
    Networks.build_generator (variables w) true noise = Ok (fake, stats)
    /\ batch_has_shape fake n 28 28 1 = true
    /\ Networks.build_discriminator (variables w) fake = Ok fake_output
    /\ Keras.binary_crossentropy (ones_like fake_output) fake_output = Ok gen_loss
    /\ length gen_loss = n
    /\ generator_phase noise w =
       Done gen_loss w2
            [EvGenerator true noise fake;
             EvDiscriminator fake fake_output;
             EvApplyGradients generator_optimizer generator_trainable_variables]
    /\ WS (variables w2)
    /\ (forall v, ~ In v (generator_trainable_variables
                          ++ generator_non_trainable_variables) ->
                  variables w2 v = variables w v)
    /\ discriminator_opt w2 = discriminator_opt w
    /\ tf_global_rng w2 = tf_global_rng w
    /\ np_global_rng w2 = np_global_rng w
    /\ pyplot_figures w2 = pyplot_figures w.
Proof.
  intros Hws Hnoise.
  destruct (build_generator_run (variables w) true noise n Hws Hnoise)
    as [fake [mm [mv [Hgen [Hfake [Hmm Hmv]]]]]].
  set (st1 := after_generator true mm mv (variables w)).
  assert (Hws1 : WS st1) by (apply WS_after_generator; assumption).
  destruct (build_discriminator_run st1 fake n Hws1 Hfake) as [fo [Hfo Hfos]].
  assert (Hfo' : Networks.build_discriminator (variables w) fake = Ok fo).
  { rewrite <- Hfo. symmetry. apply build_discriminator_ext. intros v Hv.
    apply after_generator_frame. simpl in *. intuition congruence. }
  destruct (bce_constant_target_run 1 fo) as [gl [Hgl Hgln]].
  apply mat_has_shape_iff in Hfos. destruct Hfos as [Hfon _].
  pose (gv := combine (map (tape_gradient (gen_tape noise) st1)
                           generator_trainable_variables)
                      generator_trainable_variables).
  destruct (apply_updates_run (generator_opt w) gv st1 Hws1
              (gradients_shaped _ _ _ Hws1)) as [o' [st' [Hup Hws']]].
  exists fake, (mm, mv), fo, gl.
  eexists.
  repeat match goal with |- _ /\ _ => split end.
  1: exact Hgen. 1: exact Hfake. 1: exact Hfo'. 1: exact Hgl. 1: congruence.
  - unfold generator_phase.
    run_by ltac:(eapply generator_run; eassumption).
    run_by ltac:(eapply discriminator_run; exact Hfo).
    run_by ltac:(eapply lift_run; exact Hgl).
    run_by ltac:(apply gradient_run).
    run_by ltac:(eapply apply_gradients_run; exact Hup).
    cbn [ret app]. reflexivity.
  - exact Hws'.
  - intros v Hv. cbn [variables with_variables].
    rewrite (apply_updates_frame _ _ _ _ _ v Hup).
    + apply after_generator_frame. intros Hin; apply Hv, in_or_app; right; exact Hin.
    + unfold gv. rewrite combine_map_snd. intros Hin; apply Hv, in_or_app; left; exact Hin.
  - reflexivity.
  - reflexivity.
  - reflexivity.
  - reflexivity.
Qed.

(** [train_step] is its two phases in sequence, on every state. *)
Lemma train_step_phases (real_images : batch) (batch_size : nat) (w : world) :
  train_step real_images batch_size w = train_step_by_phases real_images batch_size w.
Proof.
  unfold train_step, train_step_by_phases, discriminator_phase, generator_phase.
  unfold bind, emit, ret.
  repeat (cbn [fst snd app];
          match goal with
          | |- context [match ?f ?x with Done _ _ _ => _ | Raise _ => _ end] =>
              is_var x; destruct (f x) as [? ? ?|?]
          end);
    cbn [fst snd app]; rewrite <- ?app_assoc, ?app_nil_r; reflexivity.
Qed.

End Phases.

Section TrainStep.
Context {B : Backend}.
Import Tensor.

Lemma train_step_compose (real_images : batch) (n : nat) (w : world)
    noise disc_loss w1 out1 gen_loss w2 out2 :
  discriminator_phase real_images n w = Done (noise, disc_loss) w1 out1 ->
  generator_phase noise w1 = Done gen_loss w2 out2 ->
  train_step real_images n w =
  Done (disc_loss, gen_loss) w2
       (EvTrainStepCall real_images n
        :: out1 ++ out2 ++ [EvTrainStepReturn disc_loss gen_loss]).
Proof.
  intros H1 H2. rewrite train_step_phases.
  unfold train_step_by_phases, bind, emit, ret.
  rewrite H1. cbn [fst snd]. rewrite H2. cbn [app]. reflexivity.
Qed.

End TrainStep.

(** ** The training step *)

Section TrainStepClaims.
Context {B : Backend}.
Import Tensor.

Lemma nth_vadd (a b : vec) (i : nat) :
  i < length a -> i < length b ->
  nth i (vadd a b) 0%R = (nth i a 0 + nth i b 0)%R.
Proof.
  revert b i. induction a as [|x a IH]; intros [|y b] [|i]; simpl; intros Ha Hb;
    try lia; try reflexivity.
  apply IH; lia.
Qed.

(** Both phases of a step on well-shaped variables and a real batch of
    [n] images, and the step they compose to. *)
Ltac run_step w n Hws Hreal :=
  apply well_shaped_WS in Hws;
  destruct (discriminator_phase_run _ _ _ Hws Hreal)
    as (fake1 & stats1 & ro & fo & lr & lf & w1 & Hgen1 & Hfake1 & Hro & Hfo
        & Hlr & Hlf & Hlrn & Hlfn & Hphase1 & Hws1 & Hframe1 & Hgopt1 & Htf1
        & Hnp1 & Hfig1);
  destruct (generator_phase_run (drawn_latent w n) n w1 Hws1
              (tf_random_normal_shape (tf_global_rng w) n 100))
    as (fake2 & stats2 & fo2 & gl & w2 & Hgen2 & Hfake2 & Hfo2 & Hgl & Hgln
        & Hphase2 & Hws2 & Hframe2 & Hdopt2 & Htf2 & Hnp2 & Hfig2);
  pose proof (train_step_compose _ _ _ _ _ _ _ _ _ _ Hphase1 Hphase2) as Hstep.

(** C1, as amended: a training step draws one latent batch.  After the
    discriminator's update the generator-update phase recomputes the
    synthetic batch, by a second forward pass of the generator on that
    same latent batch under the variables the discriminator phase left,
    and the discriminator then scores the recomputed batch; the generator
    loss is the cross-entropy of those scores.  The trace of the step
    shows the order, and no second draw is made. *)
Theorem train_step_reuses_latent (real_images : batch) (n : nat) (w : world) :
  well_shaped (variables w) = true ->
  batch_has_shape real_images n 28 28 1 = true ->
  exists fake1 real_output fake_output disc_loss w1 out1
         fake2 stats2 scores gen_loss w' out,
    train_step real_images n w = Done (disc_loss, gen_loss) w' out
    /\ filter is_random_normal out = [EvRandomNormal n 100 (drawn_latent w n)]
    /\ generator_latents out = [drawn_latent w n; drawn_latent w n]
    /\ tf_global_rng w' = snd (tf_random_normal (tf_global_rng w) n 100)
    /\ discriminator_phase real_images n w
       = Done (drawn_latent w n, disc_loss) w1 out1
    /\ Networks.build_generator (variables w1) true (drawn_latent w n)
       = Ok (fake2, stats2)
    /\ batch_has_shape fake2 n 28 28 1 = true
    /\ Networks.build_discriminator (variables w1) fake2 = Ok scores
    /\ Keras.binary_crossentropy (ones_like scores) scores = Ok gen_loss
    /\ out = [EvTrainStepCall real_images n;
              EvRandomNormal n 100 (drawn_latent w n);
              EvGenerator true (drawn_latent w n) fake1;
              EvDiscriminator real_images real_output;
              EvDiscriminator fake1 fake_output;
              EvApplyGradients discriminator_optimizer
                               discriminator_trainable_variables;
              EvGenerator true (drawn_latent w n) fake2;
              EvDiscriminator fake2 scores;
              EvApplyGradients generator_optimizer generator_trainable_variables;
              EvTrainStepReturn disc_loss gen_loss].
Proof.
  intros Hws Hreal. run_step w n Hws Hreal.
  exists fake1, ro, fo. eexists _, w1, _.
  exists fake2, stats2, fo2, gl, w2. eexists.
  split; [exact Hstep|].
  split; [reflexivity|]. split; [reflexivity|]. split; [congruence|].
  split; [exact Hphase1|]. split; [exact Hgen2|]. split; [exact Hfake2|].
  split; [exact Hfo2|]. split; [exact Hgl|]. reflexivity.
Qed.

(** C2: the discriminator phase leaves every trainable variable of the
    generator (and the generator's optimizer) as it found them, the
    generator phase leaves every variable of the discriminator (and the
    discriminator's optimizer) as it found them, and each phase applies
    one update, to the variables of its own network. *)
Theorem optimizer_updates_are_framed (real_images : batch) (n : nat) (w : world) :
  well_shaped (variables w) = true ->
  batch_has_shape real_images n 28 28 1 = true ->
  exists noise disc_loss w1 out1 gen_loss w2 out2,
    discriminator_phase real_images n w = Done (noise, disc_loss) w1 out1
    /\ (forall v, In v generator_trainable_variables ->
                  variables w1 v = variables w v)
    /\ generator_opt w1 = generator_opt w
    /\ filter is_apply_gradients out1 =
       [EvApplyGradients discriminator_optimizer discriminator_trainable_variables]
    /\ generator_phase noise w1 = Done gen_loss w2 out2
    /\ (forall v, In v discriminator_trainable_variables ->
                  variables w2 v = variables w1 v)
    /\ discriminator_opt w2 = discriminator_opt w1
    /\ filter is_apply_gradients out2 =
       [EvApplyGradients generator_optimizer generator_trainable_variables]
    /\ train_step real_images n w =
       Done (disc_loss, gen_loss) w2
            (EvTrainStepCall real_images n
             :: out1 ++ out2 ++ [EvTrainStepReturn disc_loss gen_loss]).
Proof.
  intros Hws Hreal. run_step w n Hws Hreal.
  eexists _, _, w1, _, _, w2, _. split; [exact Hphase1|].
  split.
  { intros v Hv. apply Hframe1. simpl in *. intuition congruence. }
  split; [exact Hgopt1|]. split; [reflexivity|].
  split; [exact Hphase2|].
  split.
  { intros v Hv. apply Hframe2. simpl in *. intuition congruence. }
  split; [exact Hdopt2|]. split; [reflexivity|]. exact Hstep.
Qed.

(** What the discriminator phase does write on the generator's side: the
    moving mean and variance of the batch-normalisation layer, which no
    optimizer updates, take the values the training-mode forward pass
    computed. *)
Remark discriminator_phase_moves_batch_statistics
    (real_images : batch) (n : nat) (w : world) :
  well_shaped (variables w) = true ->
  batch_has_shape real_images n 28 28 1 = true ->
  exists fake stats r w1 out1,
    discriminator_phase real_images n w = Done r w1 out1
    /\ Networks.build_generator (variables w) true (drawn_latent w n) = Ok (fake, stats)
    /\ variables w1 G_bn_moving_mean = Vec (fst stats)
    /\ variables w1 G_bn_moving_variance = Vec (snd stats).
Proof.
  intros Hws Hreal. apply well_shaped_WS in Hws.
  destruct (discriminator_phase_run _ _ _ Hws Hreal)
    as (fake1 & stats1 & ro & fo & lr & lf & w1 & Hgen1 & _ & _ & _ & _ & _ & _ & _
        & Hphase1 & _ & _ & _ & _ & _ & _ & Hmean & Hvar).
  exists fake1, stats1. eexists _, w1, _. split; [exact Hphase1|].
  split; [exact Hgen1|]. split; assumption.
Qed.

(** C3: in a training step the discriminator scores the real batch and
    the generator's synthetic batch before any [apply_gradients]; both
    scores are the discriminator's output under the variables the step
    started with. *)
Theorem discriminator_scores_precede_updates
    (real_images : batch) (n : nat) (w : world) :
  well_shaped (variables w) = true ->
  batch_has_shape real_images n 28 28 1 = true ->
  exists fake stats real_output fake_output pre post losses w',
    train_step real_images n w =
    Done losses w'
         (pre ++ EvDiscriminator real_images real_output
              :: EvDiscriminator fake fake_output :: post)
    /\ filter is_apply_gradients pre = []
    /\ In (EvGenerator true (drawn_latent w n) fake) pre
    /\ Networks.build_generator (variables w) true (drawn_latent w n) = Ok (fake, stats)
    /\ Networks.build_discriminator (variables w) real_images = Ok real_output
    /\ Networks.build_discriminator (variables w) fake = Ok fake_output
    /\ filter is_apply_gradients post =
       [EvApplyGradients discriminator_optimizer discriminator_trainable_variables;
        EvApplyGradients generator_optimizer generator_trainable_variables].
Proof.
  intros Hws Hreal. run_step w n Hws Hreal.
  exists fake1, stats1, ro, fo.
  exists [EvTrainStepCall real_images n;
          EvRandomNormal n 100 (drawn_latent w n);
          EvGenerator true (drawn_latent w n) fake1].
  eexists _, _, w2. split; [exact Hstep|].
  split; [reflexivity|]. split; [simpl; tauto|].
  split; [exact Hgen1|]. split; [exact Hro|]. split; [exact Hfo|]. reflexivity.
Qed.

(** C4, as amended: the training step returns the two losses as rank-1
    tensors with one entry per sample of the batch. *)
Theorem train_step_returns_per_sample_losses
    (real_images : batch) (n : nat) (w : world) :
  well_shaped (variables w) = true ->
  batch_has_shape real_images n 28 28 1 = true ->
  exists disc_loss gen_loss w' out,
    train_step real_images n w = Done (disc_loss, gen_loss) w' out
    /\ length disc_loss = n
    /\ length gen_loss = n.
Proof.
  intros Hws Hreal. run_step w n Hws Hreal.
  eexists _, _, w2, _. split; [exact Hstep|].
  split; [|exact Hgln]. rewrite length_vadd, Hlrn, Hlfn. apply Nat.min_id.
Qed.

(** C5: the discriminator loss a step returns is the sum, sample by
    sample, of the binary cross-entropy of the real batch's scores
    against all-ones and that of the synthetic batch's scores against
    all-zeros. *)
Theorem discriminator_loss_is_sum_of_two_cross_entropies
    (real_images : batch) (n : nat) (w : world) :
  well_shaped (variables w) = true ->
  batch_has_shape real_images n 28 28 1 = true ->
  exists fake stats real_output fake_output loss_real loss_fake
         disc_loss gen_loss w' out,
    train_step real_images n w = Done (disc_loss, gen_loss) w' out
    /\ Networks.build_generator (variables w) true (drawn_latent w n) = Ok (fake, stats)
    /\ Networks.build_discriminator (variables w) real_images = Ok real_output
    /\ Networks.build_discriminator (variables w) fake = Ok fake_output
    /\ Keras.binary_crossentropy (ones_like real_output) real_output = Ok loss_real
    /\ Keras.binary_crossentropy (zeros_like fake_output) fake_output = Ok loss_fake
    /\ add loss_real loss_fake = Ok disc_loss
    /\ length disc_loss = n
    /\ (forall i, i < n ->
          nth i disc_loss 0%R = (nth i loss_real 0 + nth i loss_fake 0)%R).
Proof.
  intros Hws Hreal. run_step w n Hws Hreal.
  exists fake1, stats1, ro, fo, lr, lf.
  eexists _, _, w2, _. split; [exact Hstep|].
  split; [exact Hgen1|]. split; [exact Hro|]. split; [exact Hfo|].
  split; [exact Hlr|]. split; [exact Hlf|].
  split; [apply add_same_length; congruence|].
  split; [rewrite length_vadd, Hlrn, Hlfn; apply Nat.min_id|].
  intros i Hi. apply nth_vadd; congruence.
Qed.

End TrainStepClaims.

(** ** The discriminator on float32 numbers *)

Section Float32Facts.
Import Float32.
Local Open Scope R_scope.

Lemma float32_mat_has_shape_iff (m : Float32.mat) (r c : nat) :
  Float32.mat_has_shape m r c = true <->
  length m = r /\ Forall (fun row => length row = c) m.
Proof.
  unfold Float32.mat_has_shape.
  rewrite andb_true_iff, Nat.eqb_eq, forallb_Forall.
  split; intros [H1 H2]; split; try assumption;
    eapply Forall_impl; try exact H2; intros a Ha; apply Nat.eqb_eq; exact Ha.
Qed.

Lemma float32_flatten_image_length (im : Float32.image) (h w c : nat) :
  Float32.image_has_shape im h w c = true ->
  length (Float32.flatten_image im) = (h * w * c)%nat.
Proof.
  unfold Float32.image_has_shape. rewrite andb_true_iff, Nat.eqb_eq, forallb_Forall.
  intros [Hh Hrows]. unfold Float32.flatten_image.
  assert (Hw : Forall (fun row => length row = w) im).
  { eapply Forall_impl; try exact Hrows. intros row Hrow; cbv beta in *.
    apply andb_true_iff in Hrow. apply Nat.eqb_eq, Hrow. }
  assert (Hc : Forall (fun px => length px = c) (concat im)).
  { apply Forall_concat. eapply Forall_impl; try exact Hrows.
    intros row Hrow; cbv beta in *. apply andb_true_iff in Hrow.
    destruct Hrow as [_ Hpx]. apply forallb_Forall in Hpx.
    eapply Forall_impl; try exact Hpx. intros px Hp. apply Nat.eqb_eq; exact Hp. }
  rewrite (length_concat_uniform _ c Hc), (length_concat_uniform _ w Hw), Hh.
  reflexivity.
Qed.

Lemma float32_length_vadd (a b : Float32.vec) :
  length (Float32.vadd a b) = Nat.min (length a) (length b).
Proof. unfold Float32.vadd. rewrite length_map, length_combine. reflexivity. Qed.

Lemma float32_length_vecmat (x : Float32.vec) (K : Float32.mat) (n : nat) :
  Forall (fun row => length row = n) K -> length (Float32.vecmat x K n) = n.
Proof.
  unfold Float32.vecmat. intros HK. revert x.
  induction HK as [|k K Hk HK IH]; intros x.
  - destruct x; simpl; apply repeat_length.
  - destruct x as [|x0 x]; simpl; [apply repeat_length|].
    rewrite float32_length_vadd. unfold Float32.scale.
    rewrite length_map, Hk, IH. apply Nat.min_id.
Qed.

Lemma float32_Dense_run (K : Float32.mat) (b : Float32.vec)
    (act : value -> value) (x : Float32.mat) (n i o : nat) :
  Float32.mat_has_shape K i o = true ->
  length b = o ->
  Float32.mat_has_shape x n i = true ->
  Float32.Dense K b act x
  = Ok (map (fun row => map act (Float32.vadd (Float32.vecmat row K o) b)) x)
  /\ Float32.mat_has_shape
       (map (fun row => map act (Float32.vadd (Float32.vecmat row K o) b)) x)
       n o = true.
Proof.
  intros HK Hb Hx.
  apply float32_mat_has_shape_iff in HK, Hx.
  destruct HK as [HK1 HK2], Hx as [Hx1 Hx2].
  unfold Float32.Dense.
  match goal with
  | |- context [forallb ?p x] => assert (Hcheck : forallb p x = true)
  end.
  { apply forallb_Forall. eapply Forall_impl; try exact Hx2.
    intros row Hrow; cbv beta in *. apply Nat.eqb_eq. congruence. }
  rewrite Hcheck, Hb. split; [reflexivity|].
  apply float32_mat_has_shape_iff. split; [rewrite length_map; exact Hx1|].
  apply Forall_map, Forall_forall. intros row _.
  rewrite length_map, float32_length_vadd, float32_length_vecmat, Hb by exact HK2.
  apply Nat.min_id.
Qed.

Lemma float32_sigmoid_range (v : value) : probability_or_nan (Float32.sigmoid v).
Proof.
  destruct v as [x| | |]; simpl; try lra.
  pose proof (sigmoid_range x). lra.
Qed.

Lemma float32_build_discriminator_run
    (W : discriminator_variables) (x : Float32.batch) (n : nat) :
  variables_have_shape W = true ->
  Float32.batch_has_shape x n 28 28 1 = true ->
  exists h z,
    Float32.build_discriminator W x = Ok (map (map Float32.sigmoid) z)
    /\ Float32.mat_has_shape h n 128 = true
    /\ z = map (fun row => Float32.vadd (Float32.vecmat row (dense_1_kernel W) 1)
                                        (dense_1_bias W))
               (Float32.LeakyReLU 0.2 h)
    /\ Float32.mat_has_shape (map (map Float32.sigmoid) z) n 1 = true.
Proof.
  unfold variables_have_shape. rewrite !andb_true_iff, !Nat.eqb_eq.
  intros [[[HK Hb] HK1] Hb1] Hx.
  assert (Hflat : Float32.mat_has_shape (Float32.Flatten x) n 784 = true).
  { unfold Float32.batch_has_shape in Hx. apply andb_true_iff in Hx.
    destruct Hx as [Hn Hims]. apply Nat.eqb_eq in Hn. apply forallb_Forall in Hims.
    apply float32_mat_has_shape_iff. unfold Float32.Flatten.
    split; [rewrite length_map; exact Hn|].
    apply Forall_map. eapply Forall_impl; try exact Hims.
    intros im Him; cbv beta in *.
    apply (float32_flatten_image_length im 28 28 1 Him). }
  destruct (float32_Dense_run _ _ Float32.linear _ n 784 128 HK Hb Hflat) as [Hd1 Hs1].
  set (h := map (fun row => map Float32.linear
                    (Float32.vadd (Float32.vecmat row (dense_kernel W) 128)
                                  (dense_bias W))) (Float32.Flatten x)) in *.
  assert (Hl : Float32.mat_has_shape (Float32.LeakyReLU 0.2 h) n 128 = true).
  { apply float32_mat_has_shape_iff in Hs1. destruct Hs1 as [H1 H2].
    apply float32_mat_has_shape_iff. unfold Float32.LeakyReLU.
    split; [rewrite length_map; exact H1|].
    apply Forall_map. eapply Forall_impl; try exact H2.
    intros row Hrow; cbv beta. rewrite length_map; exact Hrow. }
  destruct (float32_Dense_run _ _ Float32.sigmoid _ n 128 1 HK1 Hb1 Hl) as [Hd2 Hs2].
  exists h. eexists. unfold Float32.build_discriminator.
  rewrite Hd1. cbn [rbind]. fold h. rewrite Hd2.
  rewrite <- (map_map _ (map Float32.sigmoid)) in Hs2 |- *.
  split; [reflexivity|]. split; [exact Hs1|]. split; [reflexivity|]. exact Hs2.
Qed.

(** C6, as amended: on discriminator variables of the shapes the layers
    were built with and a batch of [n] images of shape (28, 28, 1),
    whatever float32 values they hold, the discriminator returns [n] rows
    of one score each, and every score is NaN or lies in the closed
    interval from 0 to 1. *)
Theorem discriminator_output_in_unit_interval_or_nan
    (W : discriminator_variables) (x : Float32.batch) (n : nat) :
  variables_have_shape W = true ->
  Float32.batch_has_shape x n 28 28 1 = true ->
  exists y, Float32.build_discriminator W x = Ok y
            /\ Float32.mat_has_shape y n 1 = true
            /\ Forall (Forall probability_or_nan) y.
Proof.
  intros HW Hx.
  destruct (float32_build_discriminator_run W x n HW Hx) as (h & z & Hy & _ & _ & Hs).
  eexists. split; [exact Hy|]. split; [exact Hs|].
  apply Forall_map, Forall_forall. intros row _.
  apply Forall_map, Forall_forall. intros v _. apply float32_sigmoid_range.
Qed.

Lemma Forall_repeat_intro {A} (P : A -> Prop) (a : A) (k : nat) :
  P a -> Forall P (repeat a k).
Proof. intros H. induction k; simpl; constructor; assumption. Qed.

Lemma combine_repeat {A C} (a : A) (c : C) (k : nat) :
  combine (repeat a k) (repeat c k) = repeat (a, c) k.
Proof. induction k as [|k IH]; simpl; [reflexivity|]. rewrite IH; reflexivity. Qed.

Lemma fold_right_repeat {A C} (f : A -> C -> C) (z : C) (a : A) (k : nat) :
  f a z = z -> fold_right f z (repeat a k) = z.
Proof. intros H. induction k as [|k IH]; simpl; [reflexivity|]. rewrite IH; exact H. Qed.

Lemma of_real_0 : of_real 0 = Fin 0.
Proof.
  unfold of_real, overflow.
  destruct (Rle_dec _ 0); [lra|]. destruct (Rle_dec 0 _); [lra|]. reflexivity.
Qed.

Lemma mul_fin_0 (x : R) : mul (Fin x) (Fin 0) = Fin 0.
Proof. simpl. rewrite Rmult_0_r. apply of_real_0. Qed.

Lemma mul_0_fin (y : R) : mul (Fin 0) (Fin y) = Fin 0.
Proof. simpl. rewrite Rmult_0_l. apply of_real_0. Qed.

Lemma add_0_0 : add (Fin 0) (Fin 0) = Fin 0.
Proof. simpl. rewrite Rplus_0_r. apply of_real_0. Qed.

Lemma vadd_zeros (k : nat) :
  Float32.vadd (repeat (Fin 0) k) (repeat (Fin 0) k) = repeat (Fin 0) k.
Proof.
  unfold Float32.vadd. rewrite combine_repeat, map_repeat. cbn [fst snd].
  rewrite add_0_0. reflexivity.
Qed.

Lemma scale_fin_zeros (x : R) (k : nat) :
  Float32.scale (Fin x) (repeat (Fin 0) k) = repeat (Fin 0) k.
Proof. unfold Float32.scale. rewrite map_repeat, mul_fin_0. reflexivity. Qed.

(** Inputs that are zero contribute nothing, whatever finite weights they
    meet. *)
Lemma vecmat_zero_inputs (r : Float32.vec) (k n : nat) :
  Float32.vadd (Float32.scale (Fin 0) r) (repeat (Fin 0) n) = repeat (Fin 0) n ->
  Float32.vecmat (repeat (Fin 0) k) (repeat r k) n = repeat (Fin 0) n.
Proof.
  intros H. unfold Float32.vecmat, Float32.zeros.
  rewrite combine_repeat. apply fold_right_repeat. exact H.
Qed.

Lemma bright_pixel_flat :
  Float32.Flatten [bright_pixel] = [Fin 3e38 :: repeat (Fin 0) 783].
Proof. reflexivity. Qed.

Lemma overflow_up : of_real (3e38 * 2) = PInf.
Proof. unfold of_real, overflow. destruct (Rle_dec _ _); [reflexivity|lra]. Qed.

Lemma overflow_down : of_real (3e38 * -2) = NInf.
Proof.
  unfold of_real, overflow.
  destruct (Rle_dec _ (3e38 * -2)); [lra|]. destruct (Rle_dec _ _); [reflexivity|lra].
Qed.

Lemma vecmat_cons (x0 : value) (x r0 : Float32.vec) (K : Float32.mat) (n : nat) :
  Float32.vecmat (x0 :: x) (r0 :: K) n
  = Float32.vadd (Float32.scale x0 r0) (Float32.vecmat x K n).
Proof. reflexivity. Qed.

Lemma scale_cons (c v : value) (a : Float32.vec) :
  Float32.scale c (v :: a) = mul c v :: Float32.scale c a.
Proof. reflexivity. Qed.

Lemma vadd_cons (u v : value) (a b : Float32.vec) :
  Float32.vadd (u :: a) (v :: b) = add u v :: Float32.vadd a b.
Proof. reflexivity. Qed.

Lemma repeat_S {A} (a : A) (k : nat) : repeat a (S k) = a :: repeat a k.
Proof. reflexivity. Qed.

(** The hidden layer of the discriminator on the bright pixel: the first
    two units overflow, one to each infinity. *)
Lemma bright_pixel_hidden :
  Float32.vadd
    (Float32.vecmat (Fin 3e38 :: repeat (Fin 0) 783)
                    (dense_kernel opposed_variables) 128)
    (dense_bias opposed_variables)
  = PInf :: NInf :: repeat (Fin 0) 126.
Proof.
  unfold opposed_variables, dense_kernel, dense_bias.
  rewrite vecmat_cons.
  rewrite vecmat_zero_inputs by (rewrite scale_fin_zeros; apply vadd_zeros).
  rewrite !scale_cons, scale_fin_zeros.
  rewrite (repeat_S (Fin 0) 127), (repeat_S (Fin 0) 126).
  repeat (rewrite vadd_cons || rewrite vadd_zeros).
  cbn [mul]. rewrite overflow_up, overflow_down. cbn [add].
  reflexivity.
Qed.

Lemma leaky_relu_0 : leaky_relu 0.2 (Fin 0) = Fin 0.
Proof.
  unfold leaky_relu. rewrite mul_fin_0. cbn [maximum].
  rewrite Rmax_left by lra. reflexivity.
Qed.

Lemma leaky_relu_PInf : leaky_relu 0.2 PInf = PInf.
Proof.
  unfold leaky_relu. cbn [mul]. unfold inf_times.
  destruct (Rlt_dec 0 0.2); [reflexivity|lra].
Qed.

Lemma leaky_relu_NInf : leaky_relu 0.2 NInf = NInf.
Proof.
  unfold leaky_relu. cbn [mul]. unfold inf_times.
  destruct (Rlt_dec 0 0.2); [reflexivity|lra].
Qed.

(** The output unit adds the two infinities up. *)
Lemma bright_pixel_score :
  Float32.vadd
    (Float32.vecmat (PInf :: NInf :: repeat (Fin 0) 126)
                    (dense_1_kernel opposed_variables) 1)
    (dense_1_bias opposed_variables)
  = [NaN].
Proof.
  unfold opposed_variables, dense_1_kernel, dense_1_bias.
  rewrite (repeat_S [Fin 1] 127), (repeat_S [Fin 1] 126).
  rewrite !vecmat_cons.
  rewrite vecmat_zero_inputs.
  - rewrite !scale_cons. cbn [repeat Float32.scale map mul]. unfold inf_times.
    destruct (Rlt_dec 0 1); [|lra]. reflexivity.
  - rewrite scale_cons. cbn [repeat Float32.scale map].
    rewrite mul_0_fin, vadd_cons, add_0_0. reflexivity.
Qed.

Lemma black_hidden :
  Float32.vadd
    (Float32.vecmat (Fin 0 :: repeat (Fin 0) 783)
                    (dense_kernel opposed_variables) 128)
    (dense_bias opposed_variables)
  = repeat (Fin 0) 128.
Proof.
  unfold opposed_variables, dense_kernel, dense_bias.
  rewrite vecmat_cons.
  rewrite vecmat_zero_inputs by (rewrite scale_fin_zeros; apply vadd_zeros).
  rewrite !scale_cons, scale_fin_zeros, !mul_0_fin.
  change (Fin 0 :: Fin 0 :: repeat (Fin 0) 126) with (repeat (Fin 0) 128).
  rewrite !vadd_zeros. reflexivity.
Qed.

Lemma black_score :
  Float32.vadd
    (Float32.vecmat (repeat (Fin 0) 128) (dense_1_kernel opposed_variables) 1)
    (dense_1_bias opposed_variables)
  = [Fin 0].
Proof.
  unfold opposed_variables, dense_1_kernel, dense_1_bias.
  rewrite vecmat_zero_inputs.
  - cbn [repeat]. rewrite vadd_cons, add_0_0. reflexivity.
  - rewrite scale_cons. cbn [repeat Float32.scale map].
    rewrite mul_0_fin, vadd_cons, add_0_0. reflexivity.
Qed.

(** With the same weights a black image gets the score one half: nothing
    overflows and the forward pass is the one over the real numbers. *)
Example black_image_score :
  Float32.build_discriminator opposed_variables [black]
  = Ok [[Fin (Keras.sigmoid 0)]].
Proof.
  unfold Float32.build_discriminator.
  replace (Float32.Flatten [black]) with [Fin 0 :: repeat (Fin 0) 783]
    by reflexivity.
  unfold Float32.Dense at 1.
  match goal with
  | |- context [forallb ?p ?l] => replace (forallb p l) with true by reflexivity
  end.
  cbn [rbind map Float32.linear].
  change (length (dense_bias opposed_variables)) with 128%nat.
  rewrite black_hidden.
  unfold Float32.linear. rewrite map_id.
  unfold Float32.LeakyReLU. cbn [map]. rewrite map_repeat, leaky_relu_0.
  unfold Float32.Dense.
  match goal with
  | |- context [forallb ?p ?l] => replace (forallb p l) with true by reflexivity
  end.
  cbn [map].
  change (length (dense_1_bias opposed_variables)) with 1%nat.
  rewrite black_score. reflexivity.
Qed.

(** C6, as stated, fails: with finite weights and a finite image the
    first layer overflows to both infinities, the output unit adds them
    up to NaN, and the sigmoid of NaN is NaN, which lies in no interval. *)
Lemma discriminator_output_nan_counterexample :
  Forall (Forall (Forall (Forall is_finite))) [bright_pixel]
  /\ finite_variables opposed_variables
  /\ variables_have_shape opposed_variables = true
  /\ Float32.batch_has_shape [bright_pixel] 1 28 28 1 = true
  /\ Float32.build_discriminator opposed_variables [bright_pixel] = Ok [[NaN]].
Proof.
  assert (H0 : is_finite (Fin 0)) by (unfold is_finite, largest; lra).
  assert (H1 : is_finite (Fin 1)) by (unfold is_finite, largest; lra).
  assert (H2 : is_finite (Fin 2)) by (unfold is_finite, largest; lra).
  assert (H2' : is_finite (Fin (-2))) by (unfold is_finite, largest; lra).
  assert (Hb : is_finite (Fin 3e38)) by (unfold is_finite, largest; lra).
  split.
  { constructor; [|constructor]. unfold bright_pixel.
    constructor.
    - constructor; [repeat (first [assumption | constructor])|].
      apply Forall_repeat_intro. repeat (first [assumption | constructor]).
    - apply Forall_repeat_intro, Forall_repeat_intro. repeat (first [assumption | constructor]). }
  split.
  { unfold finite_variables, opposed_variables;
      cbn [dense_kernel dense_bias dense_1_kernel dense_1_bias].
    split; [|split; [|split]].
    - constructor.
      + constructor; [exact H2|]. constructor; [exact H2'|].
        apply Forall_repeat_intro; exact H0.
      + apply Forall_repeat_intro, Forall_repeat_intro; exact H0.
    - apply Forall_repeat_intro; exact H0.
    - apply Forall_repeat_intro. repeat (first [assumption | constructor]).
    - repeat (first [assumption | constructor]). }
  split; [reflexivity|]. split; [reflexivity|].
  unfold Float32.build_discriminator. rewrite bright_pixel_flat.
  unfold Float32.Dense at 1.
  match goal with
  | |- context [forallb ?p ?l] => replace (forallb p l) with true by reflexivity
  end.
  cbn [rbind map Float32.linear].
  change (length (dense_bias opposed_variables)) with 128%nat.
  rewrite bright_pixel_hidden.
  unfold Float32.linear. rewrite map_id.
  unfold Float32.LeakyReLU. cbn [map].
  rewrite map_repeat, leaky_relu_0, leaky_relu_PInf, leaky_relu_NInf.
  unfold Float32.Dense.
  match goal with
  | |- context [forallb ?p ?l] => replace (forallb p l) with true by reflexivity
  end.
  cbn [map].
  change (length (dense_1_bias opposed_variables)) with 1%nat.
  rewrite bright_pixel_score. reflexivity.
Qed.

Lemma discriminator_output_in_unit_interval_or_nan_witness :
  variables_have_shape opposed_variables = true
  /\ Float32.batch_has_shape [bright_pixel] 1 28 28 1 = true
  /\ exists y, Float32.build_discriminator opposed_variables [bright_pixel] = Ok y
               /\ Float32.mat_has_shape y 1 1 = true
               /\ Forall (Forall probability_or_nan) y.
Proof.
  split; [reflexivity|]. split; [reflexivity|].
  apply (discriminator_output_in_unit_interval_or_nan
           opposed_variables [bright_pixel] 1); reflexivity.
Defined.

End Float32Facts.

(** ** [generate_and_display_images] *)

Section Display.
Context {B : Backend}.

Lemma rescale_shape (gs : batch) (n h w c : nat) :
  batch_has_shape gs n h w c = true -> batch_has_shape (rescale gs) n h w c = true.
Proof.
  intros H. apply batch_has_shape_iff in H. destruct H as [Hn Hims].
  apply batch_has_shape_iff. unfold rescale. split; [rewrite length_map; exact Hn|].
  apply Forall_map. eapply Forall_impl; try exact Hims.
  intros im Him; cbv beta in *.
  apply image_has_shape_iff in Him. destruct Him as [Hh Hrows].
  apply image_has_shape_iff. split; [rewrite length_map; exact Hh|].
  apply Forall_map. eapply Forall_impl; try exact Hrows.
  intros row [Hw Hpx]. split; [rewrite length_map; exact Hw|].
  apply Forall_map. eapply Forall_impl; try exact Hpx.
  intros px Hc; cbv beta. rewrite length_map; exact Hc.
Qed.

Lemma slice_image_run (im : image) (h w : nat) :
  image_has_shape im h w 1 = true -> rmap (rmap channel0) im = Ok (slice0 im).
Proof.
  intros H. apply image_has_shape_iff in H. destruct H as [_ Hrows].
  unfold slice0. apply rmap_total.
  eapply Forall_impl; try exact Hrows. intros row [_ Hpx]; cbv beta.
  apply rmap_total. eapply Forall_impl; try exact Hpx.
  intros [|c [|? ?]] Hc; simpl in Hc; try discriminate. reflexivity.
Qed.

Lemma index_image_run (gs : batch) (n h w : nat) (k : nat) :
  batch_has_shape gs n h w 1 = true -> k < n ->
  index_image gs k = Ok (slice0 (nth k gs [])).
Proof.
  intros H Hk. apply batch_has_shape_iff in H. destruct H as [Hn Hims].
  unfold index_image. subst n.
  destruct (nth_error gs k) as [im|] eqn:E.
  - rewrite (nth_error_nth gs k [] E).
    apply (slice_image_run im h w).
    rewrite Forall_forall in Hims. apply Hims. eapply nth_error_In; exact E.
  - apply nth_error_None in E. lia.
Qed.

Lemma index_image_out_of_bounds (gs : batch) (k : nat) :
  length gs <= k -> index_image gs k = Err (IndexError k (length gs)).
Proof.
  intros H. unfold index_image.
  destruct (nth_error gs k) eqn:E; [|reflexivity].
  assert (k < length gs) by (apply nth_error_Some; congruence). lia.
Qed.

Lemma show_row_run (gs : batch) (n h w0 : nat) (i : nat) (js : list nat)
    (cnt : nat) (w : world) :
  batch_has_shape gs n h w0 1 = true -> cnt + length js <= n ->
  for_loop js cnt (show_cell gs i) w
  = Done (cnt + length js) w (row_events gs i js cnt).
Proof.
  intros Hgs. revert cnt. induction js as [|j js IH]; intros cnt Hle; simpl.
  - unfold ret. rewrite Nat.add_0_r. reflexivity.
  - simpl in Hle. unfold bind at 1, show_cell at 1, bind, lift.
    rewrite (index_image_run gs n h w0 cnt Hgs) by lia.
    unfold emit, ret. cbn [app].
    fold (show_cell gs i). rewrite IH by lia.
    unfold row_events. cbn [length seq combine flat_map fst snd app].
    replace (cnt + 1) with (S cnt) by lia.
    replace (S cnt + length js) with (cnt + S (length js)) by lia.
    reflexivity.
Qed.

Lemma show_row_raise (gs : batch) (n h w0 : nat) (i : nat) (js : list nat)
    (cnt : nat) (w : world) :
  batch_has_shape gs n h w0 1 = true -> cnt <= n -> n < cnt + length js ->
  for_loop js cnt (show_cell gs i) w = Raise (IndexError n n).
Proof.
  intros Hgs. revert cnt. induction js as [|j js IH]; intros cnt Hle Hlt; simpl in *.
  - lia.
  - assert (Hlen : length gs = n)
      by (apply batch_has_shape_iff in Hgs; tauto).
    unfold bind at 1, show_cell at 1, bind, lift.
    destruct (Nat.eq_dec cnt n) as [->|Hne].
    + rewrite index_image_out_of_bounds by lia. rewrite Hlen. reflexivity.
    + rewrite (index_image_run gs n h w0 cnt Hgs) by lia.
      unfold emit, ret. cbn [app].
      fold (show_cell gs i). rewrite IH by lia. reflexivity.
Qed.

Lemma show_grid_run (gs : batch) (n h w0 : nat) (rows js : list nat)
    (cnt : nat) (w : world) :
  batch_has_shape gs n h w0 1 = true -> cnt + length rows * length js <= n ->
  for_loop rows cnt (fun i cnt => for_loop js cnt (show_cell gs i)) w
  = Done (cnt + length rows * length js) w (grid_events gs rows js cnt).
Proof.
  intros Hgs. revert cnt. induction rows as [|i rows IH]; intros cnt Hle; simpl.
  - unfold ret. rewrite Nat.add_0_r. reflexivity.
  - simpl in Hle. unfold bind at 1.
    rewrite (show_row_run gs n h w0 i js cnt w Hgs) by lia.
    rewrite IH by lia.
    replace (cnt + length js + length rows * length js)
      with (cnt + (length js + length rows * length js)) by lia.
    reflexivity.
Qed.

Lemma show_grid_raise (gs : batch) (n h w0 : nat) (rows js : list nat)
    (cnt : nat) (w : world) :
  batch_has_shape gs n h w0 1 = true ->
  cnt <= n -> n < cnt + length rows * length js ->
  for_loop rows cnt (fun i cnt => for_loop js cnt (show_cell gs i)) w
  = Raise (IndexError n n).
Proof.
  intros Hgs. revert cnt. induction rows as [|i rows IH]; intros cnt Hle Hlt;
    simpl in *.
  - lia.
  - unfold bind at 1.
    destruct (Nat.le_gt_cases (cnt + length js) n) as [Hrow|Hrow].
    + rewrite (show_row_run gs n h w0 i js cnt w Hgs) by lia.
      rewrite IH by lia. reflexivity.
    + rewrite (show_row_raise gs n h w0 i js cnt w Hgs) by lia. reflexivity.
Qed.

Lemma generate_and_display_images_run (num_images : nat) (w : world) :
  WS (variables w) -> 16 <= num_images ->
  exists generated stats,
    Networks.build_generator (variables w) false
      (fst (np_randn (np_global_rng w) num_images 100)) = Ok (generated, stats)
    /\ batch_has_shape generated num_images 28 28 1 = true
    /\ generate_and_display_images num_images w =
       Done tt
            (with_figures (S (pyplot_figures w))
               (with_np_rng (snd (np_randn (np_global_rng w) num_images 100)) w))
            (EvRandn num_images 100 (fst (np_randn (np_global_rng w) num_images 100))
             :: EvGenerator false (fst (np_randn (np_global_rng w) num_images 100))
                            generated
             :: EvSubplots 4 4
             :: grid_events (rescale generated) (range 4) (range 4) 0 ++ [EvShow]).
Proof.
  intros Hws Hn.
  set (noise := fst (np_randn (np_global_rng w) num_images 100)).
  assert (Hnoise : mat_has_shape noise num_images latent_dim = true)
    by apply np_randn_shape.
  destruct (build_generator_run (variables w) false noise num_images Hws Hnoise)
    as [generated [mm [mv [Hgen [Hshape [Hmm Hmv]]]]]].
  exists generated, (mm, mv). split; [exact Hgen|]. split; [exact Hshape|].
  unfold generate_and_display_images, generator_predict.
  run_by ltac:(apply np_random_randn_run).
  change (fst (np_randn (np_global_rng w) num_images 100)) with noise.
  run_by ltac:(eapply generator_run; eassumption).
  unfold subplots, new_figure, emit.
  unfold bind at 1. unfold bind at 1. cbn [app].
  unfold bind.
  erewrite (show_grid_run (rescale generated) num_images 28 28 (range 4) (range 4) 0)
    by (try apply rescale_shape; try exact Hshape; simpl; lia).
  cbn [app]. reflexivity.
Qed.

Lemma generate_and_display_images_raise (num_images : nat) (w : world) :
  WS (variables w) -> num_images < 16 ->
  generate_and_display_images num_images w
  = Raise (IndexError num_images num_images).
Proof.
  intros Hws Hn.
  set (noise := fst (np_randn (np_global_rng w) num_images 100)).
  assert (Hnoise : mat_has_shape noise num_images latent_dim = true)
    by apply np_randn_shape.
  destruct (build_generator_run (variables w) false noise num_images Hws Hnoise)
    as [generated [mm [mv [Hgen [Hshape [Hmm Hmv]]]]]].
  unfold generate_and_display_images, generator_predict.
  run_by ltac:(apply np_random_randn_run).
  change (fst (np_randn (np_global_rng w) num_images 100)) with noise.
  run_by ltac:(eapply generator_run; eassumption).
  unfold subplots, new_figure, emit.
  unfold bind at 1. unfold bind at 1. cbn [app].
  unfold bind.
  erewrite (show_grid_raise (rescale generated) num_images 28 28 (range 4) (range 4) 0)
    by (try apply rescale_shape; try exact Hshape; simpl; lia).
  reflexivity.
Qed.

End Display.

Section DisplayClaims.
Context {B : Backend}.

Lemma shown_images_app (a b : list event) :
  shown_images (a ++ b) = shown_images a ++ shown_images b.
Proof.
  induction a as [|e a IH]; simpl; [reflexivity|].
  destruct e; simpl; rewrite IH; reflexivity.
Qed.

Lemma shown_grid_events (gs : batch) :
  16 <= length gs ->
  shown_images (grid_events gs (range 4) (range 4) 0) = map slice0 (firstn 16 gs).
Proof.
  intros H.
  do 16 (destruct gs as [|? gs]; [simpl in H; lia|]).
  reflexivity.
Qed.

Lemma firstn_exact {A} (l : list A) (n : nat) : length l = n -> firstn n l = l.
Proof. intros <-. apply firstn_all. Qed.

(** C8: [generate_and_display_images] with [num_images = 16] asks
    [np.random.randn] for a (16, 100) latent batch, the generator returns
    16 samples of shape (28, 28, 1), and all 16 are shown (rescaled,
    channel 0) in the cells of the 4-by-4 figure. *)
Theorem generate_and_display_images_16 (w : world) :
  well_shaped (variables w) = true ->
  exists noise generated w' out,
    generate_and_display_images 16 w = Done tt w' out
    /\ out = EvRandn 16 100 noise
             :: EvGenerator false noise generated
             :: EvSubplots 4 4
             :: grid_events (rescale generated) (range 4) (range 4) 0 ++ [EvShow]
    /\ mat_has_shape noise 16 100 = true
    /\ batch_has_shape generated 16 28 28 1 = true
    /\ shown_images out = map slice0 (rescale generated)
    /\ length (shown_images out) = 16.
Proof.
  intros Hws. apply well_shaped_WS in Hws.
  destruct (generate_and_display_images_run 16 w Hws (le_n 16))
    as (generated & stats & Hgen & Hshape & Hrun).
  assert (Hlen : length (rescale generated) = 16).
  { unfold rescale. rewrite length_map.
    apply batch_has_shape_iff in Hshape. tauto. }
  assert (Hshown : shown_images
                     (EvRandn 16 100 (fst (np_randn (np_global_rng w) 16 100))
                      :: EvGenerator false (fst (np_randn (np_global_rng w) 16 100))
                                     generated
                      :: EvSubplots 4 4
                      :: grid_events (rescale generated) (range 4) (range 4) 0
                         ++ [EvShow])
                   = map slice0 (rescale generated)).
  { cbn [shown_images]. rewrite shown_images_app, shown_grid_events by lia.
    rewrite (firstn_exact _ _ Hlen). cbn [shown_images]. apply app_nil_r. }
  eexists _, generated, _, _. split; [exact Hrun|]. split; [reflexivity|].
  split; [apply np_randn_shape|]. split; [exact Hshape|].
  split; [exact Hshown|]. rewrite Hshown, length_map. exact Hlen.
Qed.

(** C10: whatever [num_images] is, the figure is the 4-by-4 grid and the
    loop reads samples 0 to 15: with 16 or more samples it shows the first
    16 of them, with fewer it raises [IndexError] at the first missing
    index. *)
Theorem display_grid_is_hardcoded (num_images : nat) (w : world) :
  well_shaped (variables w) = true ->
  (16 <= num_images ->
   exists generated w' out,
     generate_and_display_images num_images w = Done tt w' out
     /\ In (EvGenerator false (fst (np_randn (np_global_rng w) num_images 100))
                        generated) out
     /\ length generated = num_images
     /\ In (EvSubplots 4 4) out
     /\ shown_images out = map slice0 (firstn 16 (rescale generated))
     /\ length (shown_images out) = 16)
  /\ (num_images < 16 ->
      generate_and_display_images num_images w
      = Raise (IndexError num_images num_images)).
Proof.
  intros Hws. apply well_shaped_WS in Hws. split.
  - intros Hn.
    destruct (generate_and_display_images_run num_images w Hws Hn)
      as (generated & stats & Hgen & Hshape & Hrun).
    assert (Hlen : length generated = num_images)
      by (apply batch_has_shape_iff in Hshape; tauto).
    assert (Hlen' : length (rescale generated) = num_images)
      by (unfold rescale; rewrite length_map; exact Hlen).
    eexists generated, _, _. split; [exact Hrun|].
    split; [simpl; tauto|]. split; [exact Hlen|]. split; [simpl; tauto|].
    split.
    + cbn [shown_images]. rewrite shown_images_app, shown_grid_events by lia.
      cbn [shown_images]. apply app_nil_r.
    + cbn [shown_images]. rewrite shown_images_app, shown_grid_events by lia.
      cbn [shown_images]. rewrite app_nil_r, length_map, length_firstn. lia.
  - intros Hn. apply generate_and_display_images_raise; assumption.
Qed.

End DisplayClaims.

(** ** [train_gan] *)

Section Driver.
Context {B : Backend}.
Import Tensor.

Lemma preprocess_shape :
  Forall (fun im => image_has_shape im 28 28 1 = true) (preprocess mnist_x_train).
Proof.
  pose proof mnist_x_train_shape as H. apply forallb_Forall in H.
  unfold preprocess. apply Forall_map. eapply Forall_impl; try exact H.
  intros im Him; cbv beta in *.
  unfold raw_image_has_shape in Him. apply andb_true_iff in Him.
  destruct Him as [Hh Hrows]. apply Nat.eqb_eq in Hh. apply forallb_Forall in Hrows.
  apply image_has_shape_iff. split; [rewrite length_map; exact Hh|].
  apply Forall_map. eapply Forall_impl; try exact Hrows.
  intros row Hrow; cbv beta in *. apply Nat.eqb_eq in Hrow.
  split; [rewrite length_map; exact Hrow|].
  apply Forall_map. apply Forall_forall. intros p _. reflexivity.
Qed.

Lemma preprocess_nonempty : 0 < length (preprocess mnist_x_train).
Proof.
  unfold preprocess. rewrite length_map.
  apply Nat.ltb_lt. exact mnist_x_train_nonempty.
Qed.

Lemma take_run (X : batch) (idx : list nat) :
  Forall (fun i => i < length X) idx ->
  take X idx = Ok (map (fun i => nth i X []) idx).
Proof.
  intros H. unfold take. apply rmap_total.
  eapply Forall_impl; try exact H. intros i Hi; cbv beta in *.
  rewrite (nth_error_nth' X [] Hi). reflexivity.
Qed.

Lemma take_shape (X : batch) (idx : list nat) :
  Forall (fun im => image_has_shape im 28 28 1 = true) X ->
  Forall (fun i => i < length X) idx ->
  batch_has_shape (map (fun i => nth i X []) idx) (length idx) 28 28 1 = true.
Proof.
  intros HX Hidx. apply batch_has_shape_iff. split; [apply length_map|].
  apply Forall_map. eapply Forall_impl; try exact Hidx.
  intros i Hi; cbv beta in *.
  rewrite Forall_forall in HX. apply HX. apply nth_In. exact Hi.
Qed.

Lemma returned_losses_app (a b : list event) :
  returned_losses (a ++ b) = returned_losses a ++ returned_losses b.
Proof.
  induction a as [|e a IH]; simpl; [reflexivity|].
  destruct e; simpl; rewrite IH; reflexivity.
Qed.

Lemma iterations_count (X : batch) (batch_size : nat) (iterations : list (list event)) :
  Forall (iteration_ok X batch_size) iterations ->
  length (filter is_train_step_call (concat iterations)) = length iterations
  /\ length (returned_losses (concat iterations)) = length iterations.
Proof.
  induction 1 as [|it its Hit Hits [IH1 IH2]]; simpl; [split; reflexivity|].
  destruct Hit as (idx & real & body & -> & _ & _ & _ & Hcalls & Hrets).
  rewrite filter_app, returned_losses_app, !length_app, IH1, IH2.
  cbn [filter is_train_step_call returned_losses]. rewrite Hcalls, Hrets.
  split; reflexivity.
Qed.

Lemma train_step_summary_np (real_images : batch) (n : nat) (w : world) :
  WS (variables w) -> batch_has_shape real_images n 28 28 1 = true ->
  exists disc_loss gen_loss w' body,
    train_step real_images n w =
    Done (disc_loss, gen_loss) w'
         (EvTrainStepCall real_images n
          :: body ++ [EvTrainStepReturn disc_loss gen_loss])
    /\ WS (variables w')
    /\ filter is_train_step_call body = []
    /\ returned_losses body = []
    /\ filter is_randint body = []
    /\ np_global_rng w' = np_global_rng w.
Proof.
  intros Hws Hreal.
  destruct (discriminator_phase_run _ _ _ Hws Hreal)
    as (fake1 & stats1 & ro & fo & lr & lf & w1 & _ & _ & _ & _ & _ & _ & _ & _
        & Hphase1 & Hws1 & _ & _ & _ & Hnp1 & _).
  destruct (generator_phase_run (drawn_latent w n) n w1 Hws1
              (tf_random_normal_shape (tf_global_rng w) n 100))
    as (fake2 & stats2 & fo2 & gl & w2 & _ & _ & _ & _ & _ & Hphase2 & Hws2 & _ & _
        & _ & Hnp2 & _).
  pose proof (train_step_compose _ _ _ _ _ _ _ _ _ _ Hphase1 Hphase2) as Hstep.
  rewrite app_assoc in Hstep.
  eexists _, _, w2, _. split; [exact Hstep|].
  split; [exact Hws2|]. repeat split; try reflexivity. congruence.
Qed.

Lemma train_gan_epoch_draws (batch_size epoch : nat) (w : world) :
  WS (variables w) ->
  exists w' it,
    train_gan_epoch (preprocess mnist_x_train) batch_size epoch w = Done tt w' it
    /\ WS (variables w')
    /\ iteration_ok (preprocess mnist_x_train) batch_size it
    /\ iteration_draws (preprocess mnist_x_train) batch_size
         (fst (np_randint (np_global_rng w)
                 (length (preprocess mnist_x_train)) batch_size)) it
    /\ np_global_rng w'
       = np_rng_after_epoch (length (preprocess mnist_x_train)) batch_size
           (np_global_rng w) epoch.
Proof.
  intros Hws.
  set (X := preprocess mnist_x_train).
  set (idx := fst (np_randint (np_global_rng w) (length X) batch_size)).
  assert (Hlen : length idx = batch_size) by apply np_randint_length.
  assert (Hidx : Forall (fun i => i < length X) idx).
  { pose proof (np_randint_range (np_global_rng w) (length X) batch_size
                  preprocess_nonempty) as H.
    apply forallb_Forall in H. eapply Forall_impl; try exact H.
    intros i Hi. apply Nat.ltb_lt. exact Hi. }
  pose proof (take_shape X idx preprocess_shape Hidx) as Hreal.
  rewrite Hlen in Hreal.
  set (w0 := with_np_rng (snd (np_randint (np_global_rng w) (length X) batch_size)) w).
  destruct (train_step_summary_np _ batch_size w0 Hws Hreal)
    as (dl & gl & w1 & body & Hstep & Hws1 & Hcalls & Hrets & Hdraws & Hnp).
  unfold train_gan_epoch, np_rng_after_epoch.
  run_by ltac:(apply np_random_randint_run; exact preprocess_nonempty).
  run_by ltac:(eapply lift_run; apply take_run; exact Hidx).
  run_by ltac:(exact Hstep).
  cbn [fst snd].
  destruct (epoch mod 1000 =? 0).
  - destruct (generate_and_display_images_run 16 w1 Hws1 (le_n 16))
      as (generated & stats & _ & _ & Hrun).
    unfold bind, emit. rewrite Hrun. cbn [app].
    eexists _, _. split; [reflexivity|]. split; [exact Hws1|].
    split; [|split].
    + exists idx, (map (fun i => nth i X []) idx). eexists.
      split; [reflexivity|]. split; [exact Hlen|]. split; [exact Hidx|].
      split; [reflexivity|].
      rewrite !filter_app, Hcalls, !returned_losses_app, Hrets. split; reflexivity.
    + eexists. split; [reflexivity|].
      rewrite !filter_app, Hcalls, Hdraws. split; reflexivity.
    + cbn [np_global_rng with_figures with_np_rng]. rewrite Hnp. reflexivity.
  - unfold ret. eexists _, _. split; [reflexivity|]. split; [exact Hws1|].
    split; [|split].
    + exists idx, (map (fun i => nth i X []) idx). eexists.
      split; [rewrite app_nil_r; reflexivity|].
      split; [exact Hlen|]. split; [exact Hidx|].
      split; [reflexivity|].
      rewrite !filter_app, Hcalls, !returned_losses_app, Hrets. split; reflexivity.
    + eexists. split; [rewrite app_nil_r; reflexivity|].
      rewrite !filter_app, Hcalls, Hdraws. split; reflexivity.
    + rewrite Hnp. reflexivity.
Qed.

Lemma train_gan_loop_draws (batch_size : nat) (epochs : list nat) (w : world) :
  WS (variables w) ->
  exists w' iterations,
    for_loop epochs tt
      (fun epoch _ => train_gan_epoch (preprocess mnist_x_train) batch_size epoch) w
    = Done tt w' (concat iterations)
    /\ length iterations = length epochs
    /\ Forall (iteration_ok (preprocess mnist_x_train) batch_size) iterations
    /\ Forall2 (iteration_draws (preprocess mnist_x_train) batch_size)
         (drawn_indices (length (preprocess mnist_x_train)) batch_size
            (np_global_rng w) epochs)
         iterations
    /\ np_global_rng w'
       = np_rng_after (length (preprocess mnist_x_train)) batch_size
           (np_global_rng w) epochs.
Proof.
  revert w. induction epochs as [|epoch epochs IH]; intros w Hws; simpl.
  - exists w, []. repeat split; constructor.
  - destruct (train_gan_epoch_draws batch_size epoch w Hws)
      as (w1 & it & Hit & Hws1 & Hok & Hdraw & Hnp).
    destruct (IH w1 Hws1) as (w2 & its & Hloop & Hlen & Hoks & Hdraws & Hnp2).
    exists w2, (it :: its). unfold bind. rewrite Hit.
    destruct (for_loop epochs tt _ w1) as [[] w3 out|e] eqn:E; [|discriminate].
    inversion Hloop; subst. rewrite Hnp in Hdraws, Hnp2.
    split; [reflexivity|]. split; [simpl; congruence|].
    split; [constructor; assumption|].
    split; [constructor; assumption|]. exact Hnp2.
Qed.

(** C9: for every number of epochs and every batch size the driver makes
    exactly that many passes through its loop and then returns.  Each pass
    asks [np.random.randint] for [batch_size] indices below the dataset
    size and gets what NumPy's global generator returns in the state the
    passes before left it in, the generator moving on with every draw;
    the samples at these indices (repeats allowed) are the real batch of
    the one [train_step] call of the pass; nothing in a pass can leave
    the loop. *)
Theorem train_gan_runs_all_epochs (epochs batch_size : nat) (w : world) :
  well_shaped (variables w) = true ->
  exists w' iterations,
    train_gan epochs batch_size w = Done tt w' (concat iterations)
    /\ length iterations = epochs
    /\ Forall (iteration_ok (preprocess mnist_x_train) batch_size) iterations
    /\ length (filter is_train_step_call (concat iterations)) = epochs
    /\ Forall2 (iteration_draws (preprocess mnist_x_train) batch_size)
         (drawn_indices (length (preprocess mnist_x_train)) batch_size
            (np_global_rng w) (range epochs))
         iterations
    /\ np_global_rng w'
       = np_rng_after (length (preprocess mnist_x_train)) batch_size
           (np_global_rng w) (range epochs).
Proof.
  intros Hws. apply well_shaped_WS in Hws.
  destruct (train_gan_loop_draws batch_size (range epochs) w Hws)
    as (w' & its & Hrun & Hlen & Hoks & Hdraws & Hnp).
  unfold range in Hlen. rewrite length_seq in Hlen.
  exists w', its. split; [exact Hrun|]. split; [exact Hlen|]. split; [exact Hoks|].
  split; [|split; [exact Hdraws|exact Hnp]].
  rewrite <- Hlen. apply (iterations_count _ _ _ Hoks).
Qed.

End Driver.

(** ** The claims on the sample backend *)

Section SampleRuns.
Import Tensor.

Lemma sample_latents_differ :
  Sample.filled (INR 0) 1 100 <> Sample.filled (INR 1) 1 100.
Proof.
  intros H.
  apply (f_equal (fun m : mat => nth 0 (nth 0 m []) 0%R)) in H.
  simpl in H. lra.
Qed.

(** C1, as stated, fails: on the sample backend a step makes one latent
    draw and feeds that batch to both generator calls, although a fresh
    draw would have returned a different batch. *)
Lemma train_step_fresh_latent_counterexample :
  exists losses w' out,
    train_step (B := Sample.backend) (Sample.grey_batch 1) 1 Sample.initial_world
    = Done losses w' out
    /\ length (filter is_random_normal out) = 1
    /\ generator_latents out
       = [Sample.filled (INR 0) 1 100; Sample.filled (INR 0) 1 100]
    /\ fst (tf_random_normal (Backend := Sample.backend) (tf_global_rng w') 1 100)
       = Sample.filled (INR 1) 1 100
    /\ Sample.filled (INR 0) 1 100 <> Sample.filled (INR 1) 1 100.
Proof.
  assert (Hws : WS (variables Sample.initial_world))
    by (apply well_shaped_WS; reflexivity).
  assert (Hreal : batch_has_shape (Sample.grey_batch 1) 1 28 28 1 = true)
    by reflexivity.
  destruct (discriminator_phase_run _ _ _ Hws Hreal)
    as (fake1 & stats1 & ro & fo & lr & lf & w1 & _ & _ & _ & _ & _ & _ & _ & _
        & Hphase1 & Hws1 & _ & _ & Htf1 & _ & _).
  destruct (generator_phase_run (drawn_latent Sample.initial_world 1) 1 w1 Hws1
              (tf_random_normal_shape (tf_global_rng Sample.initial_world) 1 100))
    as (fake2 & stats2 & fo2 & gl & w2 & _ & _ & _ & _ & _ & Hphase2 & _ & _ & _
        & Htf2 & _ & _).
  pose proof (train_step_compose _ _ _ _ _ _ _ _ _ _ Hphase1 Hphase2) as Hstep.
  eexists _, w2, _. split; [exact Hstep|].
  split; [reflexivity|]. split; [reflexivity|].
  split; [rewrite Htf2, Htf1; reflexivity|]. exact sample_latents_differ.
Qed.

Lemma train_step_reuses_latent_witness :
  well_shaped (variables Sample.initial_world) = true
  /\ batch_has_shape (Sample.grey_batch 1) 1 28 28 1 = true
  /\ exists fake1 real_output fake_output disc_loss w1 out1
            fake2 stats2 scores gen_loss w' out,
       train_step (B := Sample.backend) (Sample.grey_batch 1) 1 Sample.initial_world
       = Done (disc_loss, gen_loss) w' out
       /\ filter is_random_normal out
          = [EvRandomNormal 1 100 (drawn_latent Sample.initial_world 1)]
       /\ generator_latents out
          = [drawn_latent Sample.initial_world 1; drawn_latent Sample.initial_world 1]
       /\ tf_global_rng w'
          = snd (tf_random_normal (tf_global_rng Sample.initial_world) 1 100)
       /\ discriminator_phase (Sample.grey_batch 1) 1 Sample.initial_world
          = Done (drawn_latent Sample.initial_world 1, disc_loss) w1 out1
       /\ Networks.build_generator (variables w1) true
            (drawn_latent Sample.initial_world 1) = Ok (fake2, stats2)
       /\ batch_has_shape fake2 1 28 28 1 = true
       /\ Networks.build_discriminator (variables w1) fake2 = Ok scores
       /\ Keras.binary_crossentropy (ones_like scores) scores = Ok gen_loss
       /\ out = [EvTrainStepCall (Sample.grey_batch 1) 1;
                 EvRandomNormal 1 100 (drawn_latent Sample.initial_world 1);
                 EvGenerator true (drawn_latent Sample.initial_world 1) fake1;
                 EvDiscriminator (Sample.grey_batch 1) real_output;
                 EvDiscriminator fake1 fake_output;
                 EvApplyGradients discriminator_optimizer
                                  discriminator_trainable_variables;
                 EvGenerator true (drawn_latent Sample.initial_world 1) fake2;
                 EvDiscriminator fake2 scores;
                 EvApplyGradients generator_optimizer generator_trainable_variables;
                 EvTrainStepReturn disc_loss gen_loss].
Proof.
  split; [reflexivity|]. split; [reflexivity|].
  apply (train_step_reuses_latent (B := Sample.backend)
           (Sample.grey_batch 1) 1 Sample.initial_world); reflexivity.
Defined.

Lemma optimizer_updates_are_framed_witness :
  well_shaped (variables Sample.initial_world) = true
  /\ batch_has_shape (Sample.grey_batch 2) 2 28 28 1 = true
  /\ exists noise disc_loss w1 out1 gen_loss w2 out2,
       discriminator_phase (B := Sample.backend) (Sample.grey_batch 2) 2
         Sample.initial_world = Done (noise, disc_loss) w1 out1
       /\ (forall v, In v generator_trainable_variables ->
                     variables w1 v = variables Sample.initial_world v)
       /\ generator_opt w1 = generator_opt Sample.initial_world
       /\ filter is_apply_gradients out1 =
          [EvApplyGradients discriminator_optimizer discriminator_trainable_variables]
       /\ generator_phase noise w1 = Done gen_loss w2 out2
       /\ (forall v, In v discriminator_trainable_variables ->
                     variables w2 v = variables w1 v)
       /\ discriminator_opt w2 = discriminator_opt w1
       /\ filter is_apply_gradients out2 =
          [EvApplyGradients generator_optimizer generator_trainable_variables]
       /\ train_step (Sample.grey_batch 2) 2 Sample.initial_world =
          Done (disc_loss, gen_loss) w2
               (EvTrainStepCall (Sample.grey_batch 2) 2
                :: out1 ++ out2 ++ [EvTrainStepReturn disc_loss gen_loss]).
Proof.
  split; [reflexivity|]. split; [reflexivity|].
  apply (optimizer_updates_are_framed (B := Sample.backend)
           (Sample.grey_batch 2) 2 Sample.initial_world); reflexivity.
Defined.

Lemma discriminator_scores_precede_updates_witness :
  well_shaped (variables Sample.initial_world) = true
  /\ batch_has_shape (Sample.grey_batch 2) 2 28 28 1 = true
  /\ exists fake stats real_output fake_output pre post losses w',
       train_step (B := Sample.backend) (Sample.grey_batch 2) 2 Sample.initial_world =
       Done losses w'
            (pre ++ EvDiscriminator (Sample.grey_batch 2) real_output
                 :: EvDiscriminator fake fake_output :: post)
       /\ filter is_apply_gradients pre = []
       /\ In (EvGenerator true (drawn_latent Sample.initial_world 2) fake) pre
       /\ Networks.build_generator (variables Sample.initial_world) true
            (drawn_latent Sample.initial_world 2) = Ok (fake, stats)
       /\ Networks.build_discriminator (variables Sample.initial_world)
            (Sample.grey_batch 2) = Ok real_output
       /\ Networks.build_discriminator (variables Sample.initial_world) fake
          = Ok fake_output
       /\ filter is_apply_gradients post =
          [EvApplyGradients discriminator_optimizer discriminator_trainable_variables;
           EvApplyGradients generator_optimizer generator_trainable_variables].
Proof.
  split; [reflexivity|]. split; [reflexivity|].
  apply (discriminator_scores_precede_updates (B := Sample.backend)
           (Sample.grey_batch 2) 2 Sample.initial_world); reflexivity.
Defined.

(** C4, as stated, fails: on a batch of two images each returned loss has
    two entries, one per sample, and is no single number. *)
Lemma train_step_scalar_losses_counterexample :
  exists disc_loss gen_loss w' out,
    train_step (B := Sample.backend) (Sample.grey_batch 2) 2 Sample.initial_world
    = Done (disc_loss, gen_loss) w' out
    /\ length disc_loss = 2 /\ length gen_loss = 2
    /\ length disc_loss <> 1 /\ length gen_loss <> 1.
Proof.
  assert (Hws : WS (variables Sample.initial_world))
    by (apply well_shaped_WS; reflexivity).
  assert (Hreal : batch_has_shape (Sample.grey_batch 2) 2 28 28 1 = true)
    by reflexivity.
  destruct (discriminator_phase_run _ _ _ Hws Hreal)
    as (fake1 & stats1 & ro & fo & lr & lf & w1 & _ & _ & _ & _ & _ & _ & Hlrn & Hlfn
        & Hphase1 & Hws1 & _).
  destruct (generator_phase_run (drawn_latent Sample.initial_world 2) 2 w1 Hws1
              (tf_random_normal_shape (tf_global_rng Sample.initial_world) 2 100))
    as (fake2 & stats2 & fo2 & gl & w2 & _ & _ & _ & _ & Hgln & Hphase2 & _).
  pose proof (train_step_compose _ _ _ _ _ _ _ _ _ _ Hphase1 Hphase2) as Hstep.
  eexists _, _, w2, _. split; [exact Hstep|].
  rewrite length_vadd, Hlrn, Hlfn, Hgln. simpl. repeat split; lia.
Qed.

Lemma train_step_returns_per_sample_losses_witness :
  well_shaped (variables Sample.initial_world) = true
  /\ batch_has_shape (Sample.grey_batch 2) 2 28 28 1 = true
  /\ exists disc_loss gen_loss w' out,
       train_step (B := Sample.backend) (Sample.grey_batch 2) 2 Sample.initial_world
       = Done (disc_loss, gen_loss) w' out
       /\ length disc_loss = 2
       /\ length gen_loss = 2.
Proof.
  split; [reflexivity|]. split; [reflexivity|].
  apply (train_step_returns_per_sample_losses (B := Sample.backend)
           (Sample.grey_batch 2) 2 Sample.initial_world); reflexivity.
Defined.

Lemma discriminator_loss_is_sum_of_two_cross_entropies_witness :
  well_shaped (variables Sample.initial_world) = true
  /\ batch_has_shape (Sample.grey_batch 2) 2 28 28 1 = true
  /\ exists fake stats real_output fake_output loss_real loss_fake
            disc_loss gen_loss w' out,
       train_step (B := Sample.backend) (Sample.grey_batch 2) 2 Sample.initial_world
       = Done (disc_loss, gen_loss) w' out
       /\ Networks.build_generator (variables Sample.initial_world) true
            (drawn_latent Sample.initial_world 2) = Ok (fake, stats)
       /\ Networks.build_discriminator (variables Sample.initial_world)
            (Sample.grey_batch 2) = Ok real_output
       /\ Networks.build_discriminator (variables Sample.initial_world) fake
          = Ok fake_output
       /\ Keras.binary_crossentropy (ones_like real_output) real_output = Ok loss_real
       /\ Keras.binary_crossentropy (zeros_like fake_output) fake_output = Ok loss_fake
       /\ add loss_real loss_fake = Ok disc_loss
       /\ length disc_loss = 2
       /\ (forall i, i < 2 ->
             nth i disc_loss 0%R = (nth i loss_real 0 + nth i loss_fake 0)%R).
Proof.
  split; [reflexivity|]. split; [reflexivity|].
  apply (discriminator_loss_is_sum_of_two_cross_entropies (B := Sample.backend)
           (Sample.grey_batch 2) 2 Sample.initial_world); reflexivity.
Defined.

Lemma generate_and_display_images_16_witness :
  well_shaped (variables Sample.initial_world) = true
  /\ exists noise generated w' out,
       generate_and_display_images (B := Sample.backend) 16 Sample.initial_world
       = Done tt w' out
       /\ out = EvRandn 16 100 noise
                :: EvGenerator false noise generated
                :: EvSubplots 4 4
                :: grid_events (rescale generated) (range 4) (range 4) 0 ++ [EvShow]
       /\ mat_has_shape noise 16 100 = true
       /\ batch_has_shape generated 16 28 28 1 = true
       /\ shown_images out = map slice0 (rescale generated)
       /\ length (shown_images out) = 16.
Proof.
  split; [reflexivity|].
  apply (generate_and_display_images_16 (B := Sample.backend) Sample.initial_world);
    reflexivity.
Defined.

(** On the sample backend the draws of three passes: the first pass
    reports, so its [randn] draw moves the generator once more before the
    second pass draws. *)
Example sample_drawn_indices :
  drawn_indices (B := Sample.backend) 2 2 0 (range 3) = [[0; 0]; [0; 0]; [1; 1]].
Proof. reflexivity. Qed.

Lemma train_gan_runs_all_epochs_witness :
  well_shaped (variables Sample.initial_world) = true
  /\ exists w' iterations,
       train_gan (B := Sample.backend) 3 2 Sample.initial_world
       = Done tt w' (concat iterations)
       /\ length iterations = 3
       /\ Forall (iteration_ok (preprocess (mnist_x_train (Backend := Sample.backend))) 2)
                 iterations
       /\ length (filter is_train_step_call (concat iterations)) = 3
       /\ Forall2 (iteration_draws
                     (preprocess (mnist_x_train (Backend := Sample.backend))) 2)
            (drawn_indices
               (length (preprocess (mnist_x_train (Backend := Sample.backend)))) 2
               (np_global_rng Sample.initial_world) (range 3))
            iterations
       /\ np_global_rng w'
          = np_rng_after
              (length (preprocess (mnist_x_train (Backend := Sample.backend)))) 2
              (np_global_rng Sample.initial_world) (range 3).
Proof.
  split; [reflexivity|].
  apply (train_gan_runs_all_epochs (B := Sample.backend) 3 2 Sample.initial_world);
    reflexivity.
Defined.

Lemma display_grid_is_hardcoded_witness :
  well_shaped (variables Sample.initial_world) = true
  /\ (exists generated w' out,
        generate_and_display_images (B := Sample.backend) 20 Sample.initial_world
        = Done tt w' out
        /\ In (EvGenerator false
                 (fst (np_randn (Backend := Sample.backend)
                         (np_global_rng Sample.initial_world) 20 100))
                 generated) out
        /\ length generated = 20
        /\ In (EvSubplots 4 4) out
        /\ shown_images out = map slice0 (firstn 16 (rescale generated))
        /\ length (shown_images out) = 16)
  /\ generate_and_display_images (B := Sample.backend) 3 Sample.initial_world
     = Raise (IndexError 3 3).
Proof.
  split; [reflexivity|]. split.
  - apply (display_grid_is_hardcoded (B := Sample.backend) 20 Sample.initial_world);
      [reflexivity|lia].
  - apply (display_grid_is_hardcoded (B := Sample.backend) 3 Sample.initial_world);
      [reflexivity|lia].
Defined.

End SampleRuns.

(** * Further properties of the notebook's code *)

(** ** The networks *)

Section NetworkShapes.
Import Tensor Keras Networks.
Local Open Scope R_scope.

(** X1: on well-shaped variables, in training and in inference mode, the
    generator maps a latent batch of shape (n, 100) to n images of shape
    (28, 28, 1) and meets no shape error on the way; the moving
    statistics its batch normalisation hands back have 128 entries. *)
Theorem generator_output_shape
    (st : store) (training : bool) (x : mat) (n : nat) :
  well_shaped st = true ->
  mat_has_shape x n 100 = true ->
  exists y stats,
    build_generator st training x = Ok (y, stats)
    /\ batch_has_shape y n 28 28 1 = true
    /\ vec_has_shape (fst stats) 128 = true
    /\ vec_has_shape (snd stats) 128 = true.
Proof.
  intros Hst Hx. apply well_shaped_WS in Hst.
  destruct (build_generator_run st training x n Hst Hx)
    as (y & mm & mv & Hy & Hshape & Hmm & Hmv).
  exists y, (mm, mv). split; [exact Hy|]. split; [exact Hshape|].
  split; assumption.
Qed.

Lemma Dense_wrong_width (K : mat) (b : vec) (act : R -> R) (x : mat) :
  existsb (fun row => negb (length row =? length K)) x = true ->
  Dense K b act x = Err ValueError.
Proof.
  intros H. unfold Dense.
  destruct (forallb (fun row => length row =? length K) x) eqn:E; [|reflexivity].
  apply existsb_exists in H. destruct H as (row & Hin & Hrow).
  rewrite forallb_forall in E. rewrite (E row Hin) in Hrow. discriminate.
Qed.

(** X2: a latent batch with a row whose length is not 100 makes the
    generator fail with a [ValueError] at its first [Dense] layer, in
    either mode. *)
Theorem generator_rejects_wrong_latent_width
    (st : store) (training : bool) (x : mat) :
  well_shaped st = true ->
  existsb (fun row => negb (length row =? 100)) x = true ->
  build_generator st training x = Err ValueError.
Proof.
  intros Hst Hx. apply well_shaped_WS in Hst. unfold build_generator.
  destruct (read_mat_run st G_dense_kernel _ _ (Hst G_dense_kernel)) as [K [_ [HK HKs]]].
  destruct (read_vec_run st G_dense_bias _ (Hst G_dense_bias)) as [b [_ [Hb _]]].
  rewrite HK, Hb; cbn [rbind].
  apply mat_has_shape_iff in HKs. destruct HKs as [HKn _].
  rewrite Dense_wrong_width; [reflexivity|].
  rewrite HKn. exact Hx.
Qed.

Lemma existsb_map_compose {A C} (f : C -> bool) (g : A -> C) (l : list A) :
  existsb f (map g l) = existsb (fun a => f (g a)) l.
Proof. induction l as [|a l IH]; simpl; [reflexivity|]. rewrite IH; reflexivity. Qed.

(** X3: a batch with a sample whose flattened size is not 784 makes the
    discriminator fail with a [ValueError] at its first [Dense] layer. *)
Theorem discriminator_rejects_wrong_sample_size (st : store) (x : batch) :
  well_shaped st = true ->
  existsb (fun im => negb (length (flatten_image im) =? 784)) x = true ->
  build_discriminator st x = Err ValueError.
Proof.
  intros Hst Hx. apply well_shaped_WS in Hst. unfold build_discriminator.
  destruct (read_mat_run st D_dense_kernel _ _ (Hst D_dense_kernel)) as [K [_ [HK HKs]]].
  destruct (read_vec_run st D_dense_bias _ (Hst D_dense_bias)) as [b [_ [Hb _]]].
  rewrite HK, Hb; cbn [rbind].
  apply mat_has_shape_iff in HKs. destruct HKs as [HKn _].
  rewrite Dense_wrong_width; [reflexivity|].
  rewrite HKn. unfold Flatten. rewrite existsb_map_compose. exact Hx.
Qed.

(** X4: the stacked model of [build_gan] never meets a shape error
    between its two parts: on well-shaped variables it maps a latent
    batch of shape (n, 100) to n rows of one score each, and these are
    the discriminator's scores of the batch the generator returned. *)
Theorem build_gan_shapes (st : store) (training : bool) (x : mat) (n : nat) :
  well_shaped st = true ->
  mat_has_shape x n 100 = true ->
  exists g stats y,
    build_generator st training x = Ok (g, stats)
    /\ batch_has_shape g n 28 28 1 = true
    /\ build_discriminator st g = Ok y
    /\ build_gan st training x = Ok y
    /\ mat_has_shape y n 1 = true.
Proof.
  intros Hst Hx. apply well_shaped_WS in Hst.
  destruct (build_generator_run st training x n Hst Hx)
    as (g & mm & mv & Hg & Hshape & _).
  destruct (build_discriminator_run st g n Hst Hshape) as (y & Hy & Hys).
  exists g, (mm, mv), y. unfold build_gan. rewrite Hg. cbn [rbind fst].
  split; [reflexivity|]. split; [exact Hshape|]. split; [exact Hy|].
  split; [exact Hy|exact Hys].
Qed.

End NetworkShapes.

(** ** More about the training step *)

Section TrainStepMore.
Context {B : Backend}.
Import Tensor Keras.
Local Open Scope R_scope.

Lemma BatchNormalization_training_output (momentum : R)
    (gamma beta mm mv mm' mv' : vec) (x : mat) (r : bn_result) :
  BatchNormalization momentum gamma beta mm mv true x = Ok r ->
  exists r', BatchNormalization momentum gamma beta mm' mv' true x = Ok r'
             /\ bn_output r' = bn_output r.
Proof.
  unfold BatchNormalization.
  destruct (forallb (fun row => (length row =? length gamma)%nat) x); [|discriminate].
  intros H; inversion H; subst; clear H.
  eexists; split; reflexivity.
Qed.

(** In training mode the generator's output depends on its trainable
    variables only. *)
Lemma build_generator_training_ext (st st' : store) (x : mat) y stats :
  Networks.build_generator st true x = Ok (y, stats) ->
  WS st' ->
  (forall v, In v generator_trainable_variables -> st' v = st v) ->
  exists stats', Networks.build_generator st' true x = Ok (y, stats').
Proof.
  intros H Hws Hsame. unfold Networks.build_generator in *.
  assert (HK : read_mat st' G_dense_kernel = read_mat st G_dense_kernel)
    by (unfold read_mat; rewrite Hsame by (simpl; tauto); reflexivity).
  assert (Hb : read_vec st' G_dense_bias = read_vec st G_dense_bias)
    by (unfold read_vec; rewrite Hsame by (simpl; tauto); reflexivity).
  assert (Hga : read_vec st' G_bn_gamma = read_vec st G_bn_gamma)
    by (unfold read_vec; rewrite Hsame by (simpl; tauto); reflexivity).
  assert (Hbe : read_vec st' G_bn_beta = read_vec st G_bn_beta)
    by (unfold read_vec; rewrite Hsame by (simpl; tauto); reflexivity).
  assert (HK1 : read_mat st' G_dense_1_kernel = read_mat st G_dense_1_kernel)
    by (unfold read_mat; rewrite Hsame by (simpl; tauto); reflexivity).
  assert (Hb1 : read_vec st' G_dense_1_bias = read_vec st G_dense_1_bias)
    by (unfold read_vec; rewrite Hsame by (simpl; tauto); reflexivity).
  rewrite HK, Hb, Hga, Hbe, HK1, Hb1.
  destruct (read_vec_run st' G_bn_moving_mean _ (Hws G_bn_moving_mean))
    as [mm' [_ [Hmm' _]]].
  destruct (read_vec_run st' G_bn_moving_variance _ (Hws G_bn_moving_variance))
    as [mv' [_ [Hmv' _]]].
  rewrite Hmm', Hmv'.
  destruct (read_mat st G_dense_kernel) as [K|]; [|discriminate].
  destruct (read_vec st G_dense_bias) as [b|]; [|discriminate].
  cbn [rbind] in *.
  destruct (Dense K b Networks.linear x) as [h|]; [|discriminate].
  cbn [rbind] in *.
  destruct (read_vec st G_bn_gamma) as [gamma|]; [|discriminate].
  destruct (read_vec st G_bn_beta) as [beta|]; [|discriminate].
  destruct (read_vec st G_bn_moving_mean) as [mm|]; [|discriminate].
  destruct (read_vec st G_bn_moving_variance) as [mv|]; [|discriminate].
  cbn [rbind] in *.
  destruct (BatchNormalization 0.8 gamma beta mm mv true (LeakyReLU 0.2 h))
    as [bn|] eqn:Ebn; [|discriminate].
  destruct (BatchNormalization_training_output _ _ _ _ _ mm' mv' _ _ Ebn)
    as (bn' & Ebn' & Hout).
  rewrite Ebn'. cbn [rbind] in *.
  destruct (read_mat st G_dense_1_kernel) as [K1|]; [|discriminate].
  destruct (read_vec st G_dense_1_bias) as [b1|]; [|discriminate].
  cbn [rbind] in *. rewrite Hout.
  destruct (Dense K1 b1 tanh (bn_output bn)) as [h1|]; [|discriminate].
  cbn [rbind] in *.
  destruct (Reshape 28 28 1 h1) as [y'|]; [|discriminate].
  cbn [rbind] in *. inversion H; subst. eexists; reflexivity.
Qed.

(** Both phases of a step, as in the proofs of the claims. *)
Ltac step_phases w n Hws Hreal :=
  apply well_shaped_WS in Hws;
  destruct (discriminator_phase_run _ _ _ Hws Hreal)
    as (fake1 & stats1 & ro & fo & lr & lf & w1 & Hgen1 & Hfake1 & Hro & Hfo
        & Hlr & Hlf & Hlrn & Hlfn & Hphase1 & Hws1 & Hframe1 & Hgopt1 & Htf1
        & Hnp1 & Hfig1 & Hmean1 & Hvar1);
  destruct (generator_phase_run (drawn_latent w n) n w1 Hws1
              (tf_random_normal_shape (tf_global_rng w) n 100))
    as (fake2 & stats2 & fo2 & gl & w2 & Hgen2 & Hfake2 & Hfo2 & Hgl & Hgln
        & Hphase2 & Hws2 & Hframe2 & Hdopt2 & Htf2 & Hnp2 & Hfig2);
  pose proof (train_step_compose _ _ _ _ _ _ _ _ _ _ Hphase1 Hphase2) as Hstep.

Lemma second_pass_same_batch (w w1 : world) (x : mat) fake1 stats1 fake2 stats2 :
  Networks.build_generator (variables w) true x = Ok (fake1, stats1) ->
  Networks.build_generator (variables w1) true x = Ok (fake2, stats2) ->
  WS (variables w1) ->
  (forall v, ~ In v (discriminator_trainable_variables
                     ++ generator_non_trainable_variables) ->
             variables w1 v = variables w v) ->
  fake2 = fake1.
Proof.
  intros H1 H2 Hws Hframe.
  destruct (build_generator_training_ext _ (variables w1) _ _ _ H1 Hws) as (s & Hs).
  - intros v Hv. apply Hframe. simpl in *. intuition congruence.
  - rewrite Hs in H2. inversion H2; reflexivity.
Qed.

(** X5: within one training step the second generator call returns the
    very batch the first one returned: the latent batch is the same, the
    discriminator update did not touch the generator's trainable
    variables, and in training mode batch normalisation does not read
    the moving statistics the first call wrote. *)
Theorem train_step_regenerates_same_batch
    (real_images : batch) (n : nat) (w : world) :
  well_shaped (variables w) = true ->
  batch_has_shape real_images n 28 28 1 = true ->
  exists fake losses w' out,
    train_step real_images n w = Done losses w' out
    /\ generator_outputs out = [fake; fake]
    /\ batch_has_shape fake n 28 28 1 = true.
Proof.
  intros Hws Hreal. step_phases w n Hws Hreal.
  assert (Heq : fake2 = fake1)
    by (eapply second_pass_same_batch; eassumption).
  subst fake2.
  exists fake1. eexists _, w2, _. split; [exact Hstep|].
  split; [reflexivity|exact Hfake1].
Qed.

(** X6: the generator loss a step returns is the binary cross-entropy
    against all-ones of the scores that the discriminator, with the
    variables its own update of this step left, gives to the synthetic
    batch the discriminator loss was computed on. *)
Theorem generator_loss_uses_updated_discriminator
    (real_images : batch) (n : nat) (w : world) :
  well_shaped (variables w) = true ->
  batch_has_shape real_images n 28 28 1 = true ->
  exists fake stats disc_loss w1 out1 scores gen_loss w' out,
    Networks.build_generator (variables w) true (drawn_latent w n) = Ok (fake, stats)
    /\ discriminator_phase real_images n w
       = Done (drawn_latent w n, disc_loss) w1 out1
    /\ Networks.build_discriminator (variables w1) fake = Ok scores
    /\ binary_crossentropy (ones_like scores) scores = Ok gen_loss
    /\ train_step real_images n w = Done (disc_loss, gen_loss) w' out.
Proof.
  intros Hws Hreal. step_phases w n Hws Hreal.
  assert (Heq : fake2 = fake1)
    by (eapply second_pass_same_batch; eassumption).
  subst fake2.
  exists fake1, stats1. eexists _, w1, _, fo2, gl, w2, _.
  split; [exact Hgen1|]. split; [exact Hphase1|]. split; [exact Hfo2|].
  split; [exact Hgl|exact Hstep].
Qed.

(** X8: a training step draws nothing from NumPy's generator, opens no
    figure, and leaves every variable with the shape it was built with. *)
Theorem train_step_frame (real_images : batch) (n : nat) (w : world) :
  well_shaped (variables w) = true ->
  batch_has_shape real_images n 28 28 1 = true ->
  exists losses w' out,
    train_step real_images n w = Done losses w' out
    /\ np_global_rng w' = np_global_rng w
    /\ pyplot_figures w' = pyplot_figures w
    /\ well_shaped (variables w') = true.
Proof.
  intros Hws Hreal. step_phases w n Hws Hreal.
  eexists _, w2, _. split; [exact Hstep|].
  split; [congruence|]. split; [congruence|].
  apply well_shaped_WS. exact Hws2.
Qed.

End TrainStepMore.

(** ** The moving statistics of batch normalisation *)

Section MovingStatistics.
Context {B : Backend}.
Import Tensor Keras.
Local Open Scope R_scope.

(** The generator phase leaves in the moving statistics what its own
    forward pass computed. *)
Lemma generator_phase_stats (noise : mat) (n : nat) (w : world) :
  WS (variables w) -> mat_has_shape noise n latent_dim = true ->
  exists fake stats gen_loss w2 out2,
    Networks.build_generator (variables w) true noise = Ok (fake, stats)
    /\ generator_phase noise w = Done gen_loss w2 out2
    /\ variables w2 G_bn_moving_mean = Vec (fst stats)
    /\ variables w2 G_bn_moving_variance = Vec (snd stats).
Proof.
  intros Hws Hnoise.
  destruct (build_generator_run (variables w) true noise n Hws Hnoise)
    as [fake [mm [mv [Hgen [Hfake [Hmm Hmv]]]]]].
  set (st1 := after_generator true mm mv (variables w)).
  assert (Hws1 : WS st1) by (apply WS_after_generator; assumption).
  destruct (build_discriminator_run st1 fake n Hws1 Hfake) as [fo [Hfo _]].
  destruct (bce_constant_target_run 1 fo) as [gl [Hgl _]].
  pose (gv := combine (map (tape_gradient (gen_tape noise) st1)
                           generator_trainable_variables)
                      generator_trainable_variables).
  destruct (apply_updates_run (generator_opt w) gv st1 Hws1
              (gradients_shaped _ _ _ Hws1)) as [o' [st' [Hup _]]].
  exists fake, (mm, mv), gl. eexists _, _.
  split; [exact Hgen|]. split.
  - unfold generator_phase.
    run_by ltac:(eapply generator_run; eassumption).
    run_by ltac:(eapply discriminator_run; exact Hfo).
    run_by ltac:(eapply lift_run; exact Hgl).
    run_by ltac:(apply gradient_run).
    run_by ltac:(eapply apply_gradients_run; exact Hup).
    cbn [ret app]. reflexivity.
  - split.
    + cbn [variables with_variables fst].
      rewrite (apply_updates_frame _ _ _ _ _ G_bn_moving_mean Hup).
      * unfold st1, after_generator.
        rewrite set_var_other by discriminate. apply set_var_same.
      * unfold gv. rewrite combine_map_snd. simpl. intuition discriminate.
    + cbn [variables with_variables snd].
      rewrite (apply_updates_frame _ _ _ _ _ G_bn_moving_variance Hup).
      * unfold st1, after_generator. apply set_var_same.
      * unfold gv. rewrite combine_map_snd. simpl. intuition discriminate.
Qed.

(** X9: one training step writes the moving mean and the moving variance
    of the generator's batch normalisation twice.  The discriminator
    phase leaves in them what the first training-mode forward pass handed
    back; the generator phase runs its forward pass on the variables the
    discriminator phase left, these statistics among them, and the step
    ends with what that second pass handed back. *)
Theorem train_step_writes_batch_statistics_twice
    (real_images : batch) (n : nat) (w : world) :
  well_shaped (variables w) = true ->
  batch_has_shape real_images n 28 28 1 = true ->
  exists fake1 stats1 disc_loss w1 out1 fake2 stats2 gen_loss w' out2,
    Networks.build_generator (variables w) true (drawn_latent w n)
    = Ok (fake1, stats1)
    /\ discriminator_phase real_images n w
       = Done (drawn_latent w n, disc_loss) w1 out1
    /\ variables w1 G_bn_moving_mean = Vec (fst stats1)
    /\ variables w1 G_bn_moving_variance = Vec (snd stats1)
    /\ Networks.build_generator (variables w1) true (drawn_latent w n)
       = Ok (fake2, stats2)
    /\ generator_phase (drawn_latent w n) w1 = Done gen_loss w' out2
    /\ variables w' G_bn_moving_mean = Vec (fst stats2)
    /\ variables w' G_bn_moving_variance = Vec (snd stats2)
    /\ train_step real_images n w
       = Done (disc_loss, gen_loss) w'
              (EvTrainStepCall real_images n
               :: out1 ++ out2 ++ [EvTrainStepReturn disc_loss gen_loss]).
Proof.
  intros Hws Hreal. apply well_shaped_WS in Hws.
  pose proof (tf_random_normal_shape (tf_global_rng w) n 100) as Hnoise.
  change (mat_has_shape (drawn_latent w n) n latent_dim = true) in Hnoise.
  destruct (discriminator_phase_run _ _ _ Hws Hreal)
    as (fake1 & stats1 & ro & fo & lr & lf & w1 & Hgen1 & _ & _ & _ & _ & _ & _ & _
        & Hphase1 & Hws1 & _ & _ & _ & _ & _ & Hmean1 & Hvar1).
  destruct (generator_phase_stats (drawn_latent w n) n w1 Hws1 Hnoise)
    as (fake2 & stats2 & gl & w2 & out2 & Hgen2 & Hphase2 & Hmean2 & Hvar2).
  pose proof (train_step_compose _ _ _ _ _ _ _ _ _ _ Hphase1 Hphase2) as Hstep.
  exists fake1, stats1. eexists _, w1, _. exists fake2, stats2, gl, w2, out2.
  split; [exact Hgen1|]. split; [exact Hphase1|].
  split; [exact Hmean1|]. split; [exact Hvar1|].
  split; [exact Hgen2|]. split; [exact Hphase2|].
  split; [exact Hmean2|]. split; [exact Hvar2|]. exact Hstep.
Qed.

End MovingStatistics.

(** ** More about [generate_and_display_images] *)

Section DisplayMore.
Context {B : Backend}.
Local Open Scope R_scope.

(** X10: with 16 or more samples, [generate_and_display_images] writes no
    variable (inference mode leaves even the moving statistics alone),
    touches neither optimizer nor TensorFlow's generator, advances
    NumPy's generator by the one [randn] draw and opens one figure. *)
Theorem generate_and_display_images_effects (num_images : nat) (w : world) :
  well_shaped (variables w) = true ->
  (16 <= num_images)%nat ->
  exists w' out,
    generate_and_display_images num_images w = Done tt w' out
    /\ (forall v, variables w' v = variables w v)
    /\ generator_opt w' = generator_opt w
    /\ discriminator_opt w' = discriminator_opt w
    /\ tf_global_rng w' = tf_global_rng w
    /\ np_global_rng w' = snd (np_randn (np_global_rng w) num_images 100)
    /\ pyplot_figures w' = S (pyplot_figures w).
Proof.
  intros Hws Hn. apply well_shaped_WS in Hws.
  destruct (generate_and_display_images_run num_images w Hws Hn)
    as (generated & stats & _ & _ & Hrun).
  eexists _, _. split; [exact Hrun|]. repeat split; reflexivity.
Qed.

(** X11: with 16 or more samples the trace is: one [randn] draw, one
    inference-mode generator call, one 4-by-4 [subplots], then for
    k = 0, ..., 15 in this order [imshow] of sample k (rescaled, channel
    0) on the axes of row k / 4 and column k mod 4 followed by
    [axis('off')] on the same axes, then one [show]. *)
Theorem display_grid_is_row_major (num_images : nat) (w : world) :
  well_shaped (variables w) = true ->
  (16 <= num_images)%nat ->
  exists noise generated w',
    generate_and_display_images num_images w =
    Done tt w'
         (EvRandn num_images 100 noise
          :: EvGenerator false noise generated
          :: EvSubplots 4 4
          :: flat_map (cell_events (rescale generated)) (seq 0 16) ++ [EvShow]).
Proof.
  intros Hws Hn. apply well_shaped_WS in Hws.
  destruct (generate_and_display_images_run num_images w Hws Hn)
    as (generated & stats & _ & _ & Hrun).
  eexists _, generated, _. exact Hrun.
Qed.

End DisplayMore.

(** ** More about [train_gan] *)

Section DriverMore.
Context {B : Backend}.
Import Tensor.
Local Open Scope R_scope.

Lemma printed_epochs_app (a b : list event) :
  printed_epochs (a ++ b) = printed_epochs a ++ printed_epochs b.
Proof.
  induction a as [|e a IH]; simpl; [reflexivity|].
  destruct e; simpl; rewrite IH; reflexivity.
Qed.

Lemma train_step_quiet (real_images : batch) (n : nat) (w : world) :
  WS (variables w) -> batch_has_shape real_images n 28 28 1 = true ->
  exists disc_loss gen_loss w' out,
    train_step real_images n w = Done (disc_loss, gen_loss) w' out
    /\ WS (variables w')
    /\ pyplot_figures w' = pyplot_figures w
    /\ printed_epochs out = []
    /\ filter is_show out = []
    /\ returned_losses out = [(disc_loss, gen_loss)].
Proof.
  intros Hws Hreal.
  destruct (discriminator_phase_run _ _ _ Hws Hreal)
    as (fake1 & stats1 & ro & fo & lr & lf & w1 & _ & _ & _ & _ & _ & _ & _ & _
        & Hphase1 & Hws1 & _ & _ & _ & _ & Hfig1 & _).
  destruct (generator_phase_run (drawn_latent w n) n w1 Hws1
              (tf_random_normal_shape (tf_global_rng w) n 100))
    as (fake2 & stats2 & fo2 & gl & w2 & _ & _ & _ & _ & _ & Hphase2 & Hws2 & _ & _
        & _ & _ & Hfig2).
  pose proof (train_step_compose _ _ _ _ _ _ _ _ _ _ Hphase1 Hphase2) as Hstep.
  eexists _, _, w2, _. split; [exact Hstep|].
  split; [exact Hws2|]. split; [congruence|]. repeat split; reflexivity.
Qed.

Lemma train_gan_epoch_report (batch_size epoch : nat) (w : world) :
  WS (variables w) ->
  exists w' it,
    train_gan_epoch (preprocess mnist_x_train) batch_size epoch w = Done tt w' it
    /\ WS (variables w')
    /\ printed_epochs it = (if reports epoch then [epoch] else [])
    /\ length (filter is_show it) = length (if reports epoch then [epoch] else [])
    /\ pyplot_figures w'
       = (pyplot_figures w + length (if reports epoch then [epoch] else []))%nat.
Proof.
  intros Hws.
  set (X := preprocess mnist_x_train).
  set (idx := fst (np_randint (np_global_rng w) (length X) batch_size)).
  assert (Hlen : length idx = batch_size) by apply np_randint_length.
  assert (Hidx : Forall (fun i => (i < length X)%nat) idx).
  { pose proof (np_randint_range (np_global_rng w) (length X) batch_size
                  preprocess_nonempty) as H.
    apply forallb_Forall in H. eapply Forall_impl; try exact H.
    intros i Hi. apply Nat.ltb_lt. exact Hi. }
  pose proof (take_shape X idx preprocess_shape Hidx) as Hreal.
  rewrite Hlen in Hreal.
  set (w0 := with_np_rng (snd (np_randint (np_global_rng w) (length X) batch_size)) w).
  destruct (train_step_quiet _ batch_size w0 Hws Hreal)
    as (dl & gl & w1 & out & Hstep & Hws1 & Hfig & Hpr & Hsh & _).
  unfold train_gan_epoch.
  run_by ltac:(apply np_random_randint_run; exact preprocess_nonempty).
  run_by ltac:(eapply lift_run; apply take_run; exact Hidx).
  run_by ltac:(exact Hstep).
  cbn [fst snd]. unfold reports.
  destruct (epoch mod 1000 =? 0)%nat.
  - destruct (generate_and_display_images_run 16 w1 Hws1 (le_n 16))
      as (generated & stats & _ & _ & Hrun).
    unfold bind, emit. rewrite Hrun. cbn [app].
    eexists _, _. split; [reflexivity|]. split; [exact Hws1|].
    cbn [printed_epochs filter is_show].
    rewrite !printed_epochs_app, !filter_app, Hpr, Hsh.
    split; [reflexivity|]. split; [reflexivity|].
    cbn [pyplot_figures with_figures with_np_rng length]. rewrite Hfig.
    unfold w0. cbn [pyplot_figures with_np_rng]. lia.
  - unfold ret. eexists _, _. split; [reflexivity|]. split; [exact Hws1|].
    cbn [printed_epochs filter is_show].
    rewrite !printed_epochs_app, !filter_app, Hpr, Hsh.
    split; [reflexivity|]. split; [reflexivity|].
    rewrite Hfig. unfold w0. cbn [pyplot_figures with_np_rng length]. lia.
Qed.

Lemma train_gan_loop_reports (batch_size : nat) (epochs : list nat) (w : world) :
  WS (variables w) ->
  exists w' out,
    for_loop epochs tt
      (fun epoch _ => train_gan_epoch (preprocess mnist_x_train) batch_size epoch) w
    = Done tt w' out
    /\ WS (variables w')
    /\ printed_epochs out = filter reports epochs
    /\ length (filter is_show out) = length (filter reports epochs)
    /\ pyplot_figures w'
       = (pyplot_figures w + length (filter reports epochs))%nat.
Proof.
  revert w. induction epochs as [|epoch epochs IH]; intros w Hws; simpl.
  - exists w, []. repeat split; try reflexivity; [assumption|simpl; lia].
  - destruct (train_gan_epoch_report batch_size epoch w Hws)
      as (w1 & it & Hit & Hws1 & Hpr & Hsh & Hfig).
    destruct (IH w1 Hws1) as (w2 & out & Hloop & Hws2 & Hpr2 & Hsh2 & Hfig2).
    exists w2, (it ++ out). unfold bind. rewrite Hit.
    destruct (for_loop epochs tt _ w1) as [[] w3 out3|e] eqn:E; [|discriminate].
    inversion Hloop; subst. split; [reflexivity|]. split; [assumption|].
    rewrite printed_epochs_app, filter_app, length_app, Hpr, Hpr2, Hsh, Hsh2, Hfig2, Hfig.
    destruct (reports epoch); simpl; repeat split; lia.
Qed.

(** X13: [train_gan] prints a progress line exactly for the epochs below
    [epochs] that are multiples of 1000, in increasing order, shows one
    figure for each of them and for no other epoch, and every variable
    still has the shape it was built with when the run returns. *)
Theorem train_gan_reports_every_thousandth_epoch
    (epochs batch_size : nat) (w : world) :
  well_shaped (variables w) = true ->
  exists w' out,
    train_gan epochs batch_size w = Done tt w' out
    /\ printed_epochs out = filter reports (range epochs)
    /\ length (filter is_show out) = length (filter reports (range epochs))
    /\ pyplot_figures w'
       = (pyplot_figures w + length (filter reports (range epochs)))%nat
    /\ well_shaped (variables w') = true.
Proof.
  intros Hws. apply well_shaped_WS in Hws.
  destruct (train_gan_loop_reports batch_size (range epochs) w Hws)
    as (w' & out & Hrun & Hws' & Hpr & Hsh & Hfig).
  exists w', out. split; [exact Hrun|]. split; [exact Hpr|].
  split; [exact Hsh|]. split; [exact Hfig|]. apply well_shaped_WS; exact Hws'.
Qed.

End DriverMore.

(** ** [preprocess] *)

Section Preprocess.
Local Open Scope R_scope.

(** X14: the preprocessing of lines 158-159 keeps the number of images
    and their height and width, adds a channel axis of size one, and maps
    pixel values from 0..255 into the interval from -1 to 1. *)
Theorem preprocess_shape_and_range (X : list raw_image) (h w : nat) :
  forallb (fun im => raw_image_has_shape im h w) X = true ->
  forallb (forallb (forallb is_uint8)) X = true ->
  batch_has_shape (preprocess X) (length X) h w 1 = true
  /\ all_pixels (fun v => -1 <= v <= 1) (preprocess X).
Proof.
  intros Hshape Hpix. split.
  - apply batch_has_shape_iff. unfold preprocess. split; [apply length_map|].
    apply forallb_Forall in Hshape.
    apply Forall_map. eapply Forall_impl; try exact Hshape.
    intros im Him; cbv beta in *.
    unfold raw_image_has_shape in Him. apply andb_true_iff in Him.
    destruct Him as [Hh Hrows]. apply Nat.eqb_eq in Hh. apply forallb_Forall in Hrows.
    apply image_has_shape_iff. split; [rewrite length_map; exact Hh|].
    apply Forall_map. eapply Forall_impl; try exact Hrows.
    intros row Hrow; cbv beta in *. apply Nat.eqb_eq in Hrow.
    split; [rewrite length_map; exact Hrow|].
    apply Forall_map. apply Forall_forall. intros p _. reflexivity.
  - unfold all_pixels, preprocess.
    apply forallb_Forall in Hpix.
    apply Forall_map. eapply Forall_impl; try exact Hpix.
    intros im Him; cbv beta in *. apply forallb_Forall in Him.
    apply Forall_map. eapply Forall_impl; try exact Him.
    intros row Hrow; cbv beta in *. apply forallb_Forall in Hrow.
    apply Forall_map. eapply Forall_impl; try exact Hrow.
    intros p Hp; cbv beta in *. constructor; [|constructor].
    unfold is_uint8 in Hp. apply andb_true_iff in Hp. destruct Hp as [H0 H255].
    apply Z.leb_le in H0, H255. apply IZR_le in H0, H255. lra.
Qed.

End Preprocess.

(** ** [audio_to_spectrogram] *)

Section AudioFacts.
Import Audio.
Local Open Scope R_scope.

Lemma columns_of_shape (a : mat) (r t : nat) :
  mat_has_shape a r t = true -> a = [] \/ columns a = t.
Proof.
  intros H. apply mat_has_shape_iff in H. destruct H as [_ H].
  destruct a as [|row a]; [left; reflexivity|right].
  inversion H; subst. reflexivity.
Qed.

(** X15: whatever the number of frames of the spectrogram, the array
    [audio_to_spectrogram] returns has the same number of rows and
    exactly [max_pad_len] columns, and the sampling rate is passed on. *)
Theorem audio_to_spectrogram_shape {path rate : Type}
    (librosa_db : path -> mat * rate) (file_path : path)
    (max_pad_len r t : nat) :
  mat_has_shape (fst (librosa_db file_path)) r t = true ->
  mat_has_shape (fst (audio_to_spectrogram librosa_db file_path max_pad_len))
                r max_pad_len = true
  /\ snd (audio_to_spectrogram librosa_db file_path max_pad_len)
     = snd (librosa_db file_path).
Proof.
  unfold audio_to_spectrogram.
  destruct (librosa_db file_path) as [s sr]. cbn [fst snd]. intros Hs.
  split; [|reflexivity].
  pose proof (columns_of_shape s r t Hs) as Hcols.
  apply mat_has_shape_iff in Hs. destruct Hs as [Hr Hrows].
  apply mat_has_shape_iff.
  destruct Hcols as [->|Hc].
  { destruct (max_pad_len <? columns []); simpl; split;
      try exact Hr; constructor. }
  rewrite Hc.
  destruct (Nat.ltb_spec max_pad_len t) as [Hlt|Hge].
  - unfold take_columns. split; [rewrite length_map; exact Hr|].
    apply Forall_map. eapply Forall_impl; try exact Hrows.
    intros row Hrow; cbv beta in *. rewrite length_firstn. lia.
  - unfold np_pad_right. split; [rewrite length_map; exact Hr|].
    apply Forall_map. eapply Forall_impl; try exact Hrows.
    intros row Hrow; cbv beta in *. rewrite length_app, repeat_length. lia.
Qed.

(** X16: [audio_to_spectrogram] keeps the leading frames and invents
    nothing but zeros: in every row, each of the first
    [min t max_pad_len] entries is the entry of the spectrogram at the
    same place, and each entry from [t] on is 0. *)
Theorem audio_to_spectrogram_content {path rate : Type}
    (librosa_db : path -> mat * rate) (file_path : path)
    (max_pad_len r t : nat) :
  mat_has_shape (fst (librosa_db file_path)) r t = true ->
  forall i j, (i < r)%nat -> (j < max_pad_len)%nat ->
    nth j (nth i (fst (audio_to_spectrogram librosa_db file_path max_pad_len)) []) 0
    = if (j <? t)%nat
      then nth j (nth i (fst (librosa_db file_path)) []) 0
      else 0.
Proof.
  unfold audio_to_spectrogram.
  destruct (librosa_db file_path) as [s sr]. cbn [fst snd]. intros Hs i j Hi Hj.
  pose proof (columns_of_shape s r t Hs) as Hcols.
  apply mat_has_shape_iff in Hs. destruct Hs as [Hr Hrows].
  destruct Hcols as [->|Hc]; [simpl in Hr; lia|].
  unfold mat, vec in *.
  assert (Hrow : length (nth i s []) = t).
  { rewrite Forall_forall in Hrows. apply Hrows. apply nth_In. lia. }
  rewrite Hc.
  destruct (Nat.ltb_spec max_pad_len t) as [Hlt|Hge]; cbv beta iota zeta.
  - unfold take_columns.
    rewrite (nth_indep (map (firstn max_pad_len) s) [] (firstn max_pad_len []))
      by (rewrite length_map; lia).
    rewrite (map_nth (firstn max_pad_len) s []).
    replace (j <? t)%nat with true by (symmetry; apply Nat.ltb_lt; lia).
    rewrite <- (firstn_skipn max_pad_len (nth i s [])) at 2.
    rewrite app_nth1; [reflexivity|]. rewrite length_firstn. lia.
  - unfold np_pad_right.
    rewrite (nth_indep (map (fun row => row ++ repeat 0 (max_pad_len - t)) s)
               [] ([] ++ repeat 0 (max_pad_len - t)))
      by (rewrite length_map; lia).
    rewrite (map_nth (fun row => row ++ repeat 0 (max_pad_len - t)) s []).
    destruct (Nat.ltb_spec j t) as [Hjt|Hjt].
    + rewrite app_nth1 by lia. reflexivity.
    + rewrite app_nth2 by lia. apply nth_repeat.
Qed.

End AudioFacts.

(** ** The further properties on the sample backend *)

Section SampleRunsMore.
Import Tensor Keras Audio.
Local Open Scope R_scope.

Example reports_of_the_notebook_run : filter reports (range 1000) = [0%nat].
Proof. vm_compute. reflexivity. Qed.

Example reports_of_2500_epochs :
  filter reports (range 2500) = [0; 1000; 2000]%nat.
Proof. vm_compute. reflexivity. Qed.

Example audio_to_spectrogram_truncates :
  audio_to_spectrogram example_db tt 2 = ([[1; 2]; [4; 5]], 22050%Z).
Proof. reflexivity. Qed.

Example audio_to_spectrogram_pads :
  audio_to_spectrogram example_db tt 5
  = ([[1; 2; 3; 0; 0]; [4; 5; 6; 0; 0]], 22050%Z).
Proof. reflexivity. Qed.

Example audio_to_spectrogram_exact_width :
  audio_to_spectrogram example_db tt 3 = example_db tt.
Proof. reflexivity. Qed.

Lemma generator_output_shape_witness :
  well_shaped Sample.initial_store = true
  /\ mat_has_shape (Sample.filled 0 2 100) 2 100 = true
  /\ exists y stats,
       Networks.build_generator Sample.initial_store true (Sample.filled 0 2 100)
       = Ok (y, stats)
       /\ batch_has_shape y 2 28 28 1 = true
       /\ vec_has_shape (fst stats) 128 = true
       /\ vec_has_shape (snd stats) 128 = true.
Proof.
  split; [reflexivity|]. split; [reflexivity|].
  apply (generator_output_shape
           Sample.initial_store true (Sample.filled 0 2 100) 2); reflexivity.
Defined.

Lemma generator_rejects_wrong_latent_width_witness :
  well_shaped Sample.initial_store = true
  /\ existsb (fun row => negb (length row =? 100)%nat) [[0; 0; 0]] = true
  /\ Networks.build_generator Sample.initial_store false [[0; 0; 0]]
     = Err ValueError.
Proof.
  split; [reflexivity|]. split; [reflexivity|].
  apply (generator_rejects_wrong_latent_width Sample.initial_store false [[0; 0; 0]]);
    reflexivity.
Defined.

Lemma discriminator_rejects_wrong_sample_size_witness :
  well_shaped Sample.initial_store = true
  /\ existsb (fun im => negb (length (flatten_image im) =? 784)%nat)
             [[[[0]; [0]]; [[0]; [0]]]] = true
  /\ Networks.build_discriminator Sample.initial_store [[[[0]; [0]]; [[0]; [0]]]]
     = Err ValueError.
Proof.
  split; [reflexivity|]. split; [reflexivity|].
  apply (discriminator_rejects_wrong_sample_size
           Sample.initial_store [[[[0]; [0]]; [[0]; [0]]]]); reflexivity.
Defined.

Lemma build_gan_shapes_witness :
  well_shaped Sample.initial_store = true
  /\ mat_has_shape (Sample.filled 0 2 100) 2 100 = true
  /\ exists g stats y,
       Networks.build_generator Sample.initial_store true (Sample.filled 0 2 100)
       = Ok (g, stats)
       /\ batch_has_shape g 2 28 28 1 = true
       /\ Networks.build_discriminator Sample.initial_store g = Ok y
       /\ Networks.build_gan Sample.initial_store true (Sample.filled 0 2 100) = Ok y
       /\ mat_has_shape y 2 1 = true.
Proof.
  split; [reflexivity|]. split; [reflexivity|].
  apply (build_gan_shapes Sample.initial_store true (Sample.filled 0 2 100) 2);
    reflexivity.
Defined.

Lemma train_step_regenerates_same_batch_witness :
  well_shaped (variables Sample.initial_world) = true
  /\ batch_has_shape (Sample.grey_batch 2) 2 28 28 1 = true
  /\ exists fake losses w' out,
       train_step (B := Sample.backend) (Sample.grey_batch 2) 2 Sample.initial_world
       = Done losses w' out
       /\ generator_outputs out = [fake; fake]
       /\ batch_has_shape fake 2 28 28 1 = true.
Proof.
  split; [reflexivity|]. split; [reflexivity|].
  apply (train_step_regenerates_same_batch (B := Sample.backend)
           (Sample.grey_batch 2) 2 Sample.initial_world); reflexivity.
Defined.

Lemma generator_loss_uses_updated_discriminator_witness :
  well_shaped (variables Sample.initial_world) = true
  /\ batch_has_shape (Sample.grey_batch 2) 2 28 28 1 = true
  /\ exists fake stats disc_loss w1 out1 scores gen_loss w' out,
       Networks.build_generator (variables Sample.initial_world) true
         (drawn_latent Sample.initial_world 2) = Ok (fake, stats)
       /\ discriminator_phase (B := Sample.backend) (Sample.grey_batch 2) 2
            Sample.initial_world
          = Done (drawn_latent Sample.initial_world 2, disc_loss) w1 out1
       /\ Networks.build_discriminator (variables w1) fake = Ok scores
       /\ binary_crossentropy (ones_like scores) scores = Ok gen_loss
       /\ train_step (Sample.grey_batch 2) 2 Sample.initial_world
          = Done (disc_loss, gen_loss) w' out.
Proof.
  split; [reflexivity|]. split; [reflexivity|].
  apply (generator_loss_uses_updated_discriminator (B := Sample.backend)
           (Sample.grey_batch 2) 2 Sample.initial_world); reflexivity.
Defined.

Lemma train_step_frame_witness :
  well_shaped (variables Sample.initial_world) = true
  /\ batch_has_shape (Sample.grey_batch 2) 2 28 28 1 = true
  /\ exists losses w' out,
       train_step (B := Sample.backend) (Sample.grey_batch 2) 2 Sample.initial_world
       = Done losses w' out
       /\ np_global_rng w' = np_global_rng Sample.initial_world
       /\ pyplot_figures w' = pyplot_figures Sample.initial_world
       /\ well_shaped (variables w') = true.
Proof.
  split; [reflexivity|]. split; [reflexivity|].
  apply (train_step_frame (B := Sample.backend)
           (Sample.grey_batch 2) 2 Sample.initial_world); reflexivity.
Defined.

Lemma train_step_writes_batch_statistics_twice_witness :
  well_shaped (variables Sample.initial_world) = true
  /\ batch_has_shape (Sample.grey_batch 2) 2 28 28 1 = true
  /\ exists fake1 stats1 disc_loss w1 out1 fake2 stats2 gen_loss w' out2,
       Networks.build_generator (variables Sample.initial_world) true
         (drawn_latent Sample.initial_world 2) = Ok (fake1, stats1)
       /\ discriminator_phase (B := Sample.backend) (Sample.grey_batch 2) 2
            Sample.initial_world
          = Done (drawn_latent Sample.initial_world 2, disc_loss) w1 out1
       /\ variables w1 G_bn_moving_mean = Vec (fst stats1)
       /\ variables w1 G_bn_moving_variance = Vec (snd stats1)
       /\ Networks.build_generator (variables w1) true
            (drawn_latent Sample.initial_world 2) = Ok (fake2, stats2)
       /\ generator_phase (drawn_latent Sample.initial_world 2) w1
          = Done gen_loss w' out2
       /\ variables w' G_bn_moving_mean = Vec (fst stats2)
       /\ variables w' G_bn_moving_variance = Vec (snd stats2)
       /\ train_step (Sample.grey_batch 2) 2 Sample.initial_world
          = Done (disc_loss, gen_loss) w'
                 (EvTrainStepCall (Sample.grey_batch 2) 2
                  :: out1 ++ out2 ++ [EvTrainStepReturn disc_loss gen_loss]).
Proof.
  split; [reflexivity|]. split; [reflexivity|].
  apply (train_step_writes_batch_statistics_twice (B := Sample.backend)
           (Sample.grey_batch 2) 2 Sample.initial_world); reflexivity.
Defined.

Lemma generate_and_display_images_effects_witness :
  well_shaped (variables Sample.initial_world) = true
  /\ (16 <= 20)%nat
  /\ exists w' out,
       generate_and_display_images (B := Sample.backend) 20 Sample.initial_world
       = Done tt w' out
       /\ (forall v, variables w' v = variables Sample.initial_world v)
       /\ generator_opt w' = generator_opt Sample.initial_world
       /\ discriminator_opt w' = discriminator_opt Sample.initial_world
       /\ tf_global_rng w' = tf_global_rng Sample.initial_world
       /\ np_global_rng w'
          = snd (np_randn (Backend := Sample.backend)
                   (np_global_rng Sample.initial_world) 20 100)
       /\ pyplot_figures w' = S (pyplot_figures Sample.initial_world).
Proof.
  split; [reflexivity|]. split; [lia|].
  apply (generate_and_display_images_effects (B := Sample.backend) 20
           Sample.initial_world); [reflexivity|lia].
Defined.

Lemma display_grid_is_row_major_witness :
  well_shaped (variables Sample.initial_world) = true
  /\ (16 <= 20)%nat
  /\ exists noise generated w',
       generate_and_display_images (B := Sample.backend) 20 Sample.initial_world =
       Done tt w'
            (EvRandn 20 100 noise
             :: EvGenerator false noise generated
             :: EvSubplots 4 4
             :: flat_map (cell_events (rescale generated)) (seq 0 16) ++ [EvShow]).
Proof.
  split; [reflexivity|]. split; [lia|].
  apply (display_grid_is_row_major (B := Sample.backend) 20 Sample.initial_world);
    [reflexivity|lia].
Defined.

Lemma train_gan_reports_every_thousandth_epoch_witness :
  well_shaped (variables Sample.initial_world) = true
  /\ exists w' out,
       train_gan (B := Sample.backend) 3 2 Sample.initial_world = Done tt w' out
       /\ printed_epochs out = filter reports (range 3)
       /\ length (filter is_show out) = length (filter reports (range 3))
       /\ pyplot_figures w'
          = (pyplot_figures Sample.initial_world
             + length (filter reports (range 3)))%nat
       /\ well_shaped (variables w') = true.
Proof.
  split; [reflexivity|].
  apply (train_gan_reports_every_thousandth_epoch (B := Sample.backend) 3 2
           Sample.initial_world); reflexivity.
Defined.

Lemma preprocess_shape_and_range_witness :
  forallb (fun im => raw_image_has_shape im 28 28) Sample.x_train = true
  /\ forallb (forallb (forallb is_uint8)) Sample.x_train = true
  /\ batch_has_shape (preprocess Sample.x_train) (length Sample.x_train) 28 28 1 = true
  /\ all_pixels (fun v => -1 <= v <= 1) (preprocess Sample.x_train).
Proof.
  split; [reflexivity|]. split; [reflexivity|].
  apply (preprocess_shape_and_range Sample.x_train 28 28); reflexivity.
Defined.

Lemma audio_to_spectrogram_shape_witness :
  mat_has_shape (fst (example_db tt)) 2 3 = true
  /\ mat_has_shape (fst (audio_to_spectrogram example_db tt 5)) 2 5 = true
  /\ snd (audio_to_spectrogram example_db tt 5) = snd (example_db tt).
Proof.
  split; [reflexivity|].
  apply (audio_to_spectrogram_shape example_db tt 5 2 3); reflexivity.
Defined.

Lemma audio_to_spectrogram_content_witness :
  mat_has_shape (fst (example_db tt)) 2 3 = true
  /\ (1 < 2)%nat /\ (4 < 5)%nat
  /\ nth 4 (nth 1 (fst (audio_to_spectrogram example_db tt 5)) []) 0
     = if (4 <? 3)%nat then nth 4 (nth 1 (fst (example_db tt)) []) 0 else 0.
Proof.
  split; [reflexivity|]. split; [lia|]. split; [lia|].
  apply (audio_to_spectrogram_content example_db tt 5 2 3); [reflexivity|lia|lia].
Defined.

End SampleRunsMore.
